(** * The Neovim session bridge, embedded in Rocq

    The bridge is the class [NeovimManager] of build/neovim.js, in the
    version whose status lists only the marks that are set, together with
    the vim_command tool of src/index.ts.  Every method awaits its remote
    calls one after the other, so a method is a computation in a state and
    exception monad: the state is the world the method acts on (the process
    environment, the remote editor, and a record of every attach attempt,
    remote call and console line), the exception is the JavaScript value
    thrown.

    Strings are sequences of code units below 256.  Numbers are integers:
    every number these methods send or receive is a line, a column, a count
    or an id; [None] stands for NaN where JavaScript arithmetic can
    produce it. *)

From Stdlib Require Import ZArith String Ascii DecimalString Lia.
From stdpp Require Import base list strings gmap.

#[local] Set Warnings "-register-all".

Open Scope Z_scope.

(** ** JavaScript strings *)

Module Js.

Definition dq : string := String "034"%char EmptyString.
Definition backslash : string := String "092"%char EmptyString.
Definition newline : ascii := "010"%char.

(** White space and line terminators removed by [String.prototype.trim]. *)
Definition isWhiteSpace (c : ascii) : bool :=
  let n := N_of_ascii c in
  ((9 <=? n) && (n <=? 13) || (n =? 32) || (n =? 160))%N.

Fixpoint trimStart (s : string) : string :=
  match s with
  | EmptyString => EmptyString
  | String c s' => if isWhiteSpace c then trimStart s' else s
  end.

Definition trimEnd (s : string) : string :=
  String.rev (trimStart (String.rev s)).

Definition trim (s : string) : string := trimEnd (trimStart s).

Definition startsWith (s prefix : string) : bool := String.prefix prefix s.

Definition endsWith (s suffix : string) : bool :=
  String.prefix (String.rev suffix) (String.rev s).

(** [s.substring(n)] for a literal [n]. *)
Definition substringFrom (n : nat) (s : string) : string :=
  String.substring n (String.length s - n) s.

(** [s.split(sep)] for a one-character separator: never the empty list. *)
Fixpoint split (sep : ascii) (s : string) : list string :=
  match s with
  | EmptyString => [EmptyString]
  | String c s' =>
      if Ascii.eqb c sep then EmptyString :: split sep s'
      else match split sep s' with
           | cur :: rest => String c cur :: rest
           | [] => [String c EmptyString]
           end
  end.

(** [s.replace(/c/g, by)]. *)
Fixpoint replaceAll (c : ascii) (by_ : string) (s : string) : string :=
  match s with
  | EmptyString => EmptyString
  | String d s' =>
      (if Ascii.eqb d c then by_ else String d EmptyString) +:+ replaceAll c by_ s'
  end.

(** [s.includes(c)] for one character. *)
Definition includes (c : ascii) (s : string) : bool :=
  existsb (Ascii.eqb c) (list_ascii_of_string s).

(** Truthiness of a string. *)
Definition nonEmpty (s : string) : bool :=
  match s with EmptyString => false | _ => true end.

(** [!s || s.trim().length === 0] *)
Definition isBlank (s : string) : bool :=
  negb (nonEmpty s) || (String.length (trim s) =? 0)%nat.

(** [/^[a-z]$/.test(s)]: without the [m] flag, [$] is the end of input. *)
Definition isLowerLetter (c : ascii) : bool :=
  let n := N_of_ascii c in ((97 <=? n) && (n <=? 122))%N.

Definition matchesLowerLetter (s : string) : bool :=
  match s with
  | String c EmptyString => isLowerLetter c
  | _ => false
  end.

(** [/[a-z]/.test(s)]: some character is a lower-case letter. *)
Fixpoint containsLowerLetter (s : string) : bool :=
  match s with
  | EmptyString => false
  | String c s' => isLowerLetter c || containsLowerLetter s'
  end.

(** [String(n)] for an integer below 10^21 in absolute value: all its
    digits are written.  From 10^21 on a number is written with an exponent,
    which is outside this reading. *)
Definition ofZ (n : Z) : string := NilZero.string_of_int (Z.to_int n).

Definition ofNat (n : nat) : string := ofZ (Z.of_nat n).

(** [Number(s)] for a blank string and for a decimal integer literal.  A
    text with a fraction or an exponent, and the hexadecimal, octal and
    binary forms, are numbers too: they are outside this reading, which
    takes them for NaN. *)
Definition parseNumber (s : string) : option Z :=
  match trim s with
  | EmptyString => Some 0
  | String "+" r =>
      match r with
      | String "-" _ => None
      | _ => option_map Z.of_int (NilZero.int_of_string r)
      end
  | t => option_map Z.of_int (NilZero.int_of_string t)
  end.

(** [s.substring(a, b)]: NaN counts as 0, an absent end as the length,
    both are clamped to the string and swapped when out of order. *)
Definition clampIndex (len : nat) (i : option Z) : nat :=
  match i with
  | None => 0%nat
  | Some z => Nat.min (Z.to_nat z) len
  end.

Definition substring (s : string) (a : option Z) (b : option (option Z)) : string :=
  let len := String.length s in
  let i := clampIndex len a in
  let j := match b with None => len | Some b' => clampIndex len b' end in
  String.substring (Nat.min i j) (Nat.max i j - Nat.min i j) s.

End Js.

(** ** Values exchanged with the remote editor *)

Inductive Value : Type :=
| VNull
| VBool (b : bool)
| VNum (n : Z)
| VStr (s : string)
| VArr (items : list Value)
| VObj (fields : list (string * Value)).

(** The three error classes of the bridge, any other [Error], and thrown
    values that are not errors. *)
Inductive Exn : Type :=
| NeovimConnectionError (socketPath : string) (cause : Exn)
| NeovimCommandError (command originalError : string)
| NeovimValidationError (message : string)
| JsError (message : string)
| JsThrown (v : Value).

Inductive Completion (A : Type) : Type :=
| Normal (a : A)
| Throw (e : Exn).
Arguments Normal {A} a.
Arguments Throw {A} e.

Module JsValue.

Definition truthy (v : Value) : bool :=
  match v with
  | VNull => false
  | VBool b => b
  | VNum n => negb (n =? 0)
  | VStr s => Js.nonEmpty s
  | VArr _ | VObj _ => true
  end.

(** [String(v)]. *)
Fixpoint toString (v : Value) : string :=
  match v with
  | VNull => "null"
  | VBool true => "true"
  | VBool false => "false"
  | VNum n => Js.ofZ n
  | VStr s => s
  | VArr items =>
      String.concat ","
        (List.map (fun x => match x with VNull => EmptyString | _ => toString x end) items)
  | VObj _ => "[object Object]"
  end.

(** The text an array element contributes to [join]. *)
Definition joinItem (v : option Value) : string :=
  match v with
  | None | Some VNull => EmptyString
  | Some x => toString x
  end.

(** [Number(v)]; [None] is NaN. *)
Definition toNumber (v : option Value) : option Z :=
  match v with
  | None => None
  | Some VNull => Some 0
  | Some (VBool b) => Some (if b then 1 else 0)
  | Some (VNum n) => Some n
  | Some (VStr s) => Js.parseNumber s
  | Some (VArr items) => Js.parseNumber (toString (VArr items))
  | Some (VObj _) => None
  end.

(** [v > 0]. *)
Definition gtZero (v : option Value) : bool :=
  match toNumber v with
  | Some n => 0 <? n
  | None => false
  end.

(** [a === b] for values decoded from separate replies: two arrays or
    two objects are never the same object. *)
Definition strictEq (a b : option Value) : bool :=
  match a, b with
  | None, None => true
  | Some VNull, Some VNull => true
  | Some (VBool x), Some (VBool y) => Bool.eqb x y
  | Some (VNum x), Some (VNum y) => x =? y
  | Some (VStr x), Some (VStr y) => String.eqb x y
  | _, _ => false
  end.

Definition isArray (v : Value) : bool :=
  match v with VArr _ => true | _ => false end.

(** The binding an object decoded from a map holds for a key: the last one. *)
Fixpoint lookupField (key : string) (fields : list (string * Value)) : option Value :=
  match fields with
  | [] => None
  | (k, v) :: rest =>
      match lookupField key rest with
      | Some v' => Some v'
      | None => if String.eqb k key then Some v else None
      end
  end.

Definition charAt (s : string) (i : nat) : option Value :=
  match String.get i s with
  | Some c => Some (VStr (String c EmptyString))
  | None => None
  end.

(** [v[i]]: [None] is [undefined]; reading from [null] throws. *)
Definition index (v : Value) (i : nat) : Completion (option Value) :=
  match v with
  | VNull =>
      Throw (JsError ("Cannot read properties of null (reading '" +:+ Js.ofNat i +:+ "')"))
  | VArr items => Normal (items !! i)
  | VStr s => Normal (charAt s i)
  | VObj fields => Normal (lookupField (Js.ofNat i) fields)
  | VBool _ | VNum _ => Normal None
  end.

(** [v.key] for the property names the bridge reads ([name], [total],
    [incomplete], [length]). *)
Definition get (v : Value) (key : string) : Completion (option Value) :=
  match v with
  | VNull =>
      Throw (JsError ("Cannot read properties of null (reading '" +:+ key +:+ "')"))
  | VObj fields => Normal (lookupField key fields)
  | VArr items =>
      Normal (if String.eqb key "length" then Some (VNum (Z.of_nat (length items))) else None)
  | VStr s =>
      Normal (if String.eqb key "length" then Some (VNum (Z.of_nat (String.length s))) else None)
  | VBool _ | VNum _ => Normal None
  end.

Definition hexDigit (n : N) : ascii :=
  ascii_of_N (if (n <? 10)%N then 48 + n else 87 + n)%N.

(** The escape [JSON.stringify] writes for one character of a string. *)
Definition jsonEscape (c : ascii) : string :=
  let n := N_of_ascii c in
  if (n =? 34)%N then Js.backslash +:+ Js.dq
  else if (n =? 92)%N then Js.backslash +:+ Js.backslash
  else if (n =? 8)%N then Js.backslash +:+ "b"
  else if (n =? 12)%N then Js.backslash +:+ "f"
  else if (n =? 10)%N then Js.backslash +:+ "n"
  else if (n =? 13)%N then Js.backslash +:+ "r"
  else if (n =? 9)%N then Js.backslash +:+ "t"
  else if (n <? 32)%N then
    Js.backslash +:+ "u00" +:+ String (hexDigit (n / 16)) (String (hexDigit (n mod 16)) EmptyString)
  else String c EmptyString.

Fixpoint jsonString (s : string) : string :=
  match s with
  | EmptyString => EmptyString
  | String c s' => jsonEscape c +:+ jsonString s'
  end.

Definition quoted (s : string) : string := Js.dq +:+ jsonString s +:+ Js.dq.

(** [JSON.stringify(v)]. *)
Fixpoint stringify (v : Value) : string :=
  match v with
  | VNull => "null"
  | VBool true => "true"
  | VBool false => "false"
  | VNum n => Js.ofZ n
  | VStr s => quoted s
  | VArr items => "[" +:+ String.concat "," (List.map stringify items) +:+ "]"
  | VObj fields =>
      "{" +:+ String.concat ","
                (List.map (fun kv => quoted (fst kv) +:+ ":" +:+ stringify (snd kv)) fields)
          +:+ "}"
  end.

End JsValue.

Definition isConnectionError (e : Exn) : bool :=
  match e with NeovimConnectionError _ _ => true | _ => false end.

Definition isCommandError (e : Exn) : bool :=
  match e with NeovimCommandError _ _ => true | _ => false end.

Definition isValidationError (e : Exn) : bool :=
  match e with NeovimValidationError _ => true | _ => false end.

(** [error instanceof Error ? error.message : fallback]. *)
Definition errorMessage (fallback : string) (e : Exn) : string :=
  match e with
  | NeovimConnectionError socketPath _ =>
      "Failed to connect to Neovim at " +:+ socketPath
        +:+ ". Is Neovim running with --listen " +:+ socketPath +:+ "?"
  | NeovimCommandError command originalError =>
      "Failed to execute command '" +:+ command +:+ "': " +:+ originalError
  | NeovimValidationError message => message
  | JsError message => message
  | JsThrown _ => fallback
  end.

(** ** The remote editor as seen through the client library *)

Record Buffer : Type := { bufferId : Z }.
Record Window : Type := { windowId : Z }.
Record Tabpage : Type := { tabpageId : Z }.
Record ModeInfo : Type := { mode : string; blocking : bool }.

(** One constructor per client call the bridge makes, indexed by the type of
    the value the call resolves to. *)
Inductive Request : Type -> Type :=
| Eval (expr : string) : Request Value
| Command (cmd : string) : Request unit
| Call (fname : string) (args : list Value) : Request Value
| Lua (code : string) : Request Value
| SetVvar (name : string) (value : Value) : Request unit
| GetVvar (name : string) : Request Value
| GetMode : Request ModeInfo
| CurrentBuffer : Request Buffer
| CurrentWindow : Request Window
| CurrentTabpage : Request Tabpage
| Buffers : Request (list Buffer)
| BufferName (b : Buffer) : Request string
| BufferLength (b : Buffer) : Request Z
| BufferLines (b : Buffer) : Request (list string)
| BufferRemove (b : Buffer) (start end_ : Z) (strictIndexing : bool) : Request unit
| BufferInsert (b : Buffer) (lines : list string) (start : Z) : Request unit
| BufferReplace (b : Buffer) (lines : list string) (start : Z) : Request unit
| WindowCursor (w : Window) : Request (Z * Z)
| SetWindowCursor (w : Window) (pos : Z * Z) : Request unit
| TabpageNumber (t : Tabpage) : Request Z
| Input (keys : string) : Request Z
| Windows : Request (list Window)
| WindowBuffer (w : Window) : Request Buffer
| WindowWidth (w : Window) : Request Z
| WindowHeight (w : Window) : Request Z
| WindowPosition (w : Window) : Request (Z * Z)
| BufferLoaded (b : Buffer) : Request bool
| BufferGetOption (b : Buffer) (name : string) : Request Value
| Tabpages : Request (list Tabpage)
| TabpageWindow (t : Tabpage) : Request Window.

Inductive AnyRequest : Type :=
| Sent {A : Type} (r : Request A).

(** A remote call resolves to a value or is rejected with an [Error]. *)
Inductive Reply (A : Type) : Type :=
| Resolved (a : A)
| Rejected (message : string).
Arguments Resolved {A} a.
Arguments Rejected {A} message.

Record ProcessEnv : Type := {
  NVIM_SOCKET_PATH : option string;
  ALLOW_SHELL_COMMANDS : option string
}.

(** The result of [getNeovimStatus]. *)
Record NeovimStatus : Type := {
  cursorPosition : Z * Z;
  statusMode : string;
  visualSelection : string;
  fileName : string;
  windowLayout : string;
  currentTab : Z;
  marks : gmap string (Value * Value);
  registers : gmap string string;
  cwd : Value;
  lspInfo : string;
  pluginInfo : string
}.

Inductive StatusResult : Type :=
| StatusObject (status : NeovimStatus)
| StatusText (text : string).

(** An entry of the result of [getWindows]. *)
Module WindowInfo.
Record t : Type := {
  id : Z;
  bufferId : Z;
  width : Z;
  height : Z;
  row : Z;
  col : Z
}.
End WindowInfo.

(** An entry of the result of [getOpenBuffers]. *)
Module BufferInfo.
Record t : Type := {
  number : Z;
  name : string;
  isListed : bool;
  isLoaded : bool;
  modified : bool;
  syntax : string;
  windowIds : list Z
}.
End BufferInfo.

(** The options of the search operations; an absent option is [false]. *)
Record SearchOptions : Type := {
  ignoreCase : bool;
  wholeWord : bool;
  global : bool;
  confirm : bool
}.

Definition noOptions : SearchOptions :=
  {| ignoreCase := false; wholeWord := false; global := false; confirm := false |}.

Inductive EditMode : Type :=
| insert
| replace
| replaceAll
| otherMode (name : string).

Section Bridge.

(** The remote editor: its state and how it answers a call.  [attach]
    tells whether attaching to a socket path throws. *)
Context {St : Type}.
Variable rpc : forall A : Type, Request A -> St -> Reply A * St.
Variable attach : string -> option Exn.

(** Whether two tab page handles decoded from separate replies are the same
    object is decided by the client library. *)
Variable sameTabpage : Tabpage -> Tabpage -> bool.

Record World : Type := {
  env : ProcessEnv;
  remote : St;
  sockets : list string;
  calls : list AnyRequest;
  console : list string
}.

Definition M (A : Type) : Type := World -> Completion A * World.

#[global] Instance M_ret : MRet M := fun A a w => (Normal a, w).

#[global] Instance M_bind : MBind M := fun A B k m w =>
  match m w with
  | (Normal a, w') => k a w'
  | (Throw e, w') => (Throw e, w')
  end.

Definition throw {A : Type} (e : Exn) : M A := fun w => (Throw e, w).

Definition tryCatch {A : Type} (body : M A) (handler : Exn -> M A) : M A := fun w =>
  match body w with
  | (Normal a, w') => (Normal a, w')
  | (Throw e, w') => handler e w'
  end.

Definition lift {A : Type} (c : Completion A) : M A := fun w => (c, w).

Definition processEnv : M ProcessEnv := fun w => (Normal (env w), w).

Definition consoleError (label : string) : M unit := fun w =>
  (Normal (),
   {| env := env w; remote := remote w; sockets := sockets w; calls := calls w;
      console := console w ++ [label] |}).

(** [attach({ socket: socketPath })]. *)
Definition attachSocket (socketPath : string) : M unit := fun w =>
  let w' := {| env := env w; remote := remote w; sockets := sockets w ++ [socketPath];
               calls := calls w; console := console w |} in
  match attach socketPath with
  | Some e => (Throw e, w')
  | None => (Normal (), w')
  end.

Definition send {A : Type} (r : Request A) (w : World) : Reply A * World :=
  let (reply, st) := rpc A r (remote w) in
  (reply, {| env := env w; remote := st; sockets := sockets w;
             calls := calls w ++ [Sent r]; console := console w |}).

(** [await] of a client call. *)
Definition request {A : Type} (r : Request A) : M A := fun w =>
  match send r w with
  | (Resolved a, w') => (Normal a, w')
  | (Rejected message, w') => (Throw (JsError message), w')
  end.

(** The calls of a [Promise.all]: every call of the array is sent, then the
    replies are awaited in the order of the array. *)
Definition settle {A : Type} (r : Request A) : M (Reply A) := fun w =>
  (Normal (fst (send r w)), snd (send r w)).

Definition awaitReply {A : Type} (reply : Reply A) : M A :=
  match reply with
  | Resolved a => mret a
  | Rejected message => throw (JsError message)
  end.

(** A client call whose promise is dropped: the call is sent, its outcome
    is not observed. *)
Definition fire {A : Type} (r : Request A) : M unit := fun w =>
  (Normal (), snd (send r w)).

(** *** connect *)

Definition validateSocketPath (path : string) : M unit :=
  if Js.isBlank path
  then throw (NeovimValidationError "Socket path cannot be empty")
  else mret ().

Definition defaultSocketPath : string := "/tmp/nvim".

(** [process.env.NVIM_SOCKET_PATH || '/tmp/nvim'] *)
Definition socketPathOf (e : ProcessEnv) : string :=
  match NVIM_SOCKET_PATH e with
  | Some p => if Js.nonEmpty p then p else defaultSocketPath
  | None => defaultSocketPath
  end.

Definition connect : M unit :=
  e ← processEnv;
  let socketPath := socketPathOf e in
  validateSocketPath socketPath;;
  tryCatch (attachSocket socketPath)
    (fun error =>
       consoleError "Error connecting to Neovim:";;
       throw (NeovimConnectionError socketPath error)).

Definition healthCheck : M bool :=
  tryCatch (connect;; request (Eval "1");; mret true) (fun _ => mret false).

(** *** getBufferContents *)

Fixpoint findBuffer (filename : string) (buffers : list Buffer) : M (option Buffer) :=
  match buffers with
  | [] => mret None
  | buf :: rest =>
      bufName ← request (BufferName buf);
      if String.eqb bufName filename || Js.endsWith bufName filename
      then mret (Some buf)
      else findBuffer filename rest
  end.

(** The [Map] built from the lines: entries in insertion order. *)
Definition lineMap (lines : list string) : list (Z * string) :=
  imap (fun index line => (Z.of_nat index + 1, line)) lines.

(** An optional file name that is given: neither [undefined] nor empty. *)
Definition givenName (filename : option string) : option string :=
  match filename with
  | Some (String c f) => Some (String c f)
  | _ => None
  end.

Definition getBufferContents_try (filename : option string) : M (list (Z * string)) :=
  connect;;
  buffer ← match givenName filename with
           | Some f =>
               buffers ← request Buffers;
               targetBuffer ← findBuffer f buffers;
               match targetBuffer with
               | None => throw (NeovimValidationError ("Buffer not found: " +:+ f))
               | Some b => mret b
               end
           | None => request CurrentBuffer
           end;
  lines ← request (BufferLines buffer);
  mret (lineMap lines).

Definition getBufferContents (filename : option string) : M (list (Z * string)) :=
  tryCatch (getBufferContents_try filename)
    (fun error =>
       if isValidationError error then throw error
       else consoleError "Error getting buffer contents:";; mret []).

(** *** sendCommand *)

Definition shellDisabledMessage : string :=
  "Shell command execution is disabled. Set ALLOW_SHELL_COMMANDS=true environment variable to enable shell commands.".

Definition shellAllowed (e : ProcessEnv) : bool :=
  match ALLOW_SHELL_COMMANDS e with
  | Some v => String.eqb v "true"
  | None => false
  end.

Definition normalizeCommand (command : string) : string :=
  if Js.startsWith command ":" then Js.substringFrom 1 command else command.

Definition sendCommand_try (command : string) : M string :=
  connect;;
  let normalizedCommand := normalizeCommand command in
  if Js.startsWith normalizedCommand "!" then
    e ← processEnv;
    if negb (shellAllowed e) then mret shellDisabledMessage
    else
      let shellCommand := Js.trim (Js.substringFrom 1 normalizedCommand) in
      if negb (Js.nonEmpty shellCommand)
      then throw (NeovimValidationError "Shell command cannot be empty")
      else
        tryCatch
          (output ← request (Eval ("system('" +:+ Js.replaceAll "'" "''" shellCommand +:+ "')"));
           if JsValue.truthy output then mret (Js.trim (JsValue.toString output))
           else mret "No output from command")
          (fun error =>
             consoleError "Shell command error:";;
             throw (NeovimCommandError ("!" +:+ shellCommand)
                      (errorMessage "Unknown error occurred" error)))
  else
    request (SetVvar "errmsg" (VStr EmptyString));;
    output ← request (Call "execute" [VStr normalizedCommand]);
    vimerr ← request (GetVvar "errmsg");
    if JsValue.truthy vimerr then
      consoleError "Vim error:";;
      throw (NeovimCommandError normalizedCommand (JsValue.toString vimerr))
    else
      mret (if JsValue.truthy output then Js.trim (JsValue.toString output)
            else "Command executed (no output)").

Definition sendCommand (command : string) : M string :=
  if Js.isBlank command
  then throw (NeovimValidationError "Command cannot be empty")
  else
    tryCatch (sendCommand_try command)
      (fun error =>
         if isCommandError error || isValidationError error then throw error
         else
           consoleError "Error sending command:";;
           throw (NeovimCommandError command (errorMessage "Unknown error" error))).

(** *** getNeovimStatus *)

Definition letters : list string :=
  List.map (fun c => String c EmptyString) (list_ascii_of_string "abcdefghijklmnopqrstuvwxyz").

Definition getposExpr (mark : string) : string :=
  "getpos(" +:+ Js.dq +:+ "'" +:+ mark +:+ Js.dq +:+ ")".

Definition getregExpr (reg : string) : string := "getreg('" +:+ reg +:+ "')".

(** The letters, the double quote and the keys of [Array(10)], each name as
    the template literal writes it. *)
Definition registerNames : list string :=
  letters ++ [Js.dq] ++ List.map Js.ofNat (seq 0 10).

Definition readMark (mark : string) (marks : gmap string (Value * Value))
  : M (gmap string (Value * Value)) :=
  pos ← request (Eval (getposExpr mark));
  line ← lift (JsValue.index pos 1);
  if JsValue.gtZero line then
    col ← lift (JsValue.index pos 2);
    if JsValue.gtZero col then
      match line, col with
      | Some l, Some c => mret (<[mark := (l, c)]> marks)
      | _, _ => mret marks
      end
    else mret marks
  else mret marks.

Fixpoint readMarks (names : list string) (marks : gmap string (Value * Value))
  : M (gmap string (Value * Value)) :=
  match names with
  | [] => mret marks
  | mark :: rest =>
      marks' ← tryCatch (readMark mark marks) (fun _ => mret marks);
      readMarks rest marks'
  end.

Definition readRegister (reg : string) (registers : gmap string string)
  : M (gmap string string) :=
  value ← request (Eval (getregExpr reg));
  let content := JsValue.toString value in
  if Js.nonEmpty content && (0 <? String.length (Js.trim content))%nat
  then mret (<[reg := content]> registers)
  else mret registers.

Fixpoint readRegisters (names : list string) (registers : gmap string string)
  : M (gmap string string) :=
  match names with
  | [] => mret registers
  | reg :: rest =>
      registers' ← tryCatch (readRegister reg registers) (fun _ => mret registers);
      readRegisters rest registers'
  end.

(** [client.name || 'unknown'], as [join] writes it. *)
Definition clientName (client : Value) : Completion string :=
  match JsValue.get client "name" with
  | Throw e => Throw e
  | Normal (Some v) => Normal (if JsValue.truthy v then JsValue.toString v else "unknown")
  | Normal None => Normal "unknown"
  end.

Fixpoint clientNames (clients : list Value) : Completion (list string) :=
  match clients with
  | [] => Normal []
  | client :: rest =>
      match clientName client with
      | Throw e => Throw e
      | Normal n =>
          match clientNames rest with
          | Throw e => Throw e
          | Normal ns => Normal (n :: ns)
          end
      end
  end.

Definition lspClientsExpr : string :=
  "luaeval(" +:+ Js.dq +:+ "vim.lsp.get_clients()" +:+ Js.dq +:+ ")".

Definition lspUnavailable : string := "LSP information unavailable".
Definition pluginUnavailable : string := "Plugin information unavailable".

Definition lspLookup : M string :=
  lspClients ← request (Eval lspClientsExpr);
  match lspClients with
  | VArr (client :: rest) =>
      names ← lift (clientNames (client :: rest));
      mret ("Active LSP clients: " +:+ String.concat ", " names)
  | _ => mret "No active LSP clients"
  end.

Definition existsExpr (name : string) : string :=
  "exists(" +:+ Js.dq +:+ name +:+ Js.dq +:+ ")".

Definition probedNames : list string :=
  [":LspInfo"; ":Telescope"; "g:loaded_nvim_treesitter"; "g:loaded_completion"].

Definition pluginLookup : M string :=
  hasLsp ← request (Eval (existsExpr ":LspInfo"));
  hasTelescope ← request (Eval (existsExpr ":Telescope"));
  hasTreesitter ← request (Eval (existsExpr "g:loaded_nvim_treesitter"));
  hasCompletion ← request (Eval (existsExpr "g:loaded_completion"));
  let plugins :=
    (if JsValue.truthy hasLsp then ["LSP"] else [])
    ++ (if JsValue.truthy hasTelescope then ["Telescope"] else [])
    ++ (if JsValue.truthy hasTreesitter then ["TreeSitter"] else [])
    ++ (if JsValue.truthy hasCompletion then ["Completion"] else []) in
  mret (match plugins with
        | [] => "No common plugins detected"
        | _ => "Detected plugins: " +:+ String.concat ", " plugins
        end).

Definition visualSelectionLua : string :=
  String.concat (String Js.newline EmptyString)
    [ EmptyString;
      "            local mode = vim.fn.visualmode()";
      "            if mode == '' then";
      "              return ''";
      "            end";
      "            ";
      "            -- Save current register content";
      "            local save_reg = vim.fn.getreg('" +:+ Js.dq +:+ "')";
      "            local save_regtype = vim.fn.getregtype('" +:+ Js.dq +:+ "')";
      "            ";
      "            -- Yank the visual selection to unnamed register";
      "            vim.cmd('normal! " +:+ Js.dq +:+ "vy')";
      "            ";
      "            -- Get the yanked text";
      "            local selected_text = vim.fn.getreg('" +:+ Js.dq +:+ "')";
      "            ";
      "            -- Restore the register";
      "            vim.fn.setreg('" +:+ Js.dq +:+ "', save_reg, save_regtype)";
      "            ";
      "            return selected_text";
      "          " ].

(** [${v}] in a template literal. *)
Definition interpolate (v : option Value) : string :=
  match v with
  | None => "undefined"
  | Some x => JsValue.toString x
  end.

(** [v.substring(a, b)]: only a string has the method. *)
Definition substringOf (v : option Value) (a : option Z) (b : option (option Z))
  : Completion string :=
  match v with
  | Some (VStr s) => Normal (Js.substring s a b)
  | None => Throw (JsError "Cannot read properties of undefined (reading 'substring')")
  | Some VNull => Throw (JsError "Cannot read properties of null (reading 'substring')")
  | Some _ => Throw (JsError "substring is not a function")
  end.

Definition minusOne (n : option Z) : option Z := option_map (fun z => z - 1) n.

(** An argument of [substring]: [undefined] is an absent argument. *)
Definition asArgument (v : option Value) : option (option Z) :=
  match v with
  | None => None
  | Some x => Some (JsValue.toNumber (Some x))
  end.

(** [for (let i = from; i < lines.length - 1; i++) result.push(lines[i])] *)
Fixpoint middleLines (lines : Value) (from count : nat) : Completion (list string) :=
  match count with
  | O => Normal []
  | S count' =>
      match JsValue.index lines from with
      | Throw e => Throw e
      | Normal item =>
          match middleLines lines (S from) count' with
          | Throw e => Throw e
          | Normal rest => Normal (JsValue.joinItem item :: rest)
          end
      end
  end.

Definition multiLineSelection (lines : Value) (start2 end2 : option Value)
  : Completion (option string) :=
  if negb (JsValue.truthy lines) then Normal None
  else
    match JsValue.get lines "length" with
    | Throw e => Throw e
    | Normal len =>
        if negb (JsValue.gtZero len) then Normal None
        else
          let n := Z.to_nat (default 0 (JsValue.toNumber len)) in
          let startCol := minusOne (JsValue.toNumber start2) in
          match JsValue.index lines 0 with
          | Throw e => Throw e
          | Normal first =>
              match substringOf first startCol None with
              | Throw e => Throw e
              | Normal head =>
                  match middleLines lines 1 (n - 2) with
                  | Throw e => Throw e
                  | Normal middle =>
                      if (1 <? n)%nat then
                        match JsValue.index lines (n - 1) with
                        | Throw e => Throw e
                        | Normal last =>
                            match substringOf last (Some 0) (asArgument end2) with
                            | Throw e => Throw e
                            | Normal tail =>
                                Normal (Some (String.concat (String Js.newline EmptyString)
                                                (head :: middle ++ [tail])))
                            end
                        end
                      else
                        Normal (Some (String.concat (String Js.newline EmptyString)
                                        (head :: middle)))
                  end
              end
          end
    end.

Definition visualFallback : M (option string) :=
  start ← request (Eval (getposExpr "<"));
  end_ ← request (Eval (getposExpr ">"));
  start1 ← lift (JsValue.index start 1);
  end1 ← lift (JsValue.index end_ 1);
  if JsValue.strictEq start1 end1 then
    line ← request (Eval ("getline(" +:+ interpolate start1 +:+ ")"));
    start2 ← lift (JsValue.index start 2);
    end2 ← lift (JsValue.index end_ 2);
    text ← lift (substringOf (Some line) (minusOne (JsValue.toNumber start2)) (asArgument end2));
    mret (Some text)
  else
    lines ← request (Eval ("getline(" +:+ interpolate start1 +:+ ", " +:+ interpolate end1 +:+ ")"));
    start2 ← lift (JsValue.index start 2);
    end2 ← lift (JsValue.index end_ 2);
    lift (multiLineSelection lines start2 end2).

Definition withVisualSelection (s : NeovimStatus) (text : string) : NeovimStatus :=
  {| cursorPosition := cursorPosition s; statusMode := statusMode s;
     visualSelection := text; fileName := fileName s;
     windowLayout := windowLayout s; currentTab := currentTab s;
     marks := marks s; registers := registers s; cwd := cwd s;
     lspInfo := lspInfo s; pluginInfo := pluginInfo s |}.

Definition readVisualSelection (s : NeovimStatus) : M NeovimStatus :=
  tryCatch
    (visualText ← request (Lua visualSelectionLua);
     mret (withVisualSelection s
             (if JsValue.truthy visualText then JsValue.toString visualText
              else EmptyString)))
    (fun _ =>
       tryCatch
         (selection ← visualFallback;
          mret (match selection with
                | Some text => withVisualSelection s text
                | None => s
                end))
         (fun _ => mret (withVisualSelection s EmptyString))).

Definition getNeovimStatus_try : M NeovimStatus :=
  connect;;
  window ← request CurrentWindow;
  cursor ← request (WindowCursor window);
  modeInfo ← request GetMode;
  buffer ← request CurrentBuffer;
  layout ← request (Eval "winlayout()");
  tabpage ← request CurrentTabpage;
  tabNumber ← request (TabpageNumber tabpage);
  marks ← readMarks letters ∅;
  registers ← readRegisters registerNames ∅;
  cwd ← request (Call "getcwd" []);
  lspInfo ← tryCatch lspLookup (fun _ => mret lspUnavailable);
  pluginInfo ← tryCatch pluginLookup (fun _ => mret pluginUnavailable);
  name ← request (BufferName buffer);
  let neovimStatus :=
    {| cursorPosition := cursor; statusMode := mode modeInfo;
       visualSelection := EmptyString; fileName := name;
       windowLayout := JsValue.stringify layout; currentTab := tabNumber;
       marks := marks; registers := registers; cwd := cwd;
       lspInfo := lspInfo; pluginInfo := pluginInfo |} in
  if Js.startsWith (mode modeInfo) "v" then readVisualSelection neovimStatus
  else mret neovimStatus.

Definition getNeovimStatus : M StatusResult :=
  tryCatch (status ← getNeovimStatus_try; mret (StatusObject status))
    (fun _ =>
       consoleError "Error getting Neovim status:";;
       mret (StatusText "Error getting Neovim status")).

(** *** editLines *)

Definition editLines_try (startLine : Z) (editMode : EditMode) (newText : string)
  : M string :=
  connect;;
  let splitByLines := Js.split Js.newline newText in
  buffer ← request CurrentBuffer;
  match editMode with
  | replaceAll =>
      lineCount ← request (BufferLength buffer);
      request (BufferRemove buffer 0 lineCount true);;
      request (BufferInsert buffer splitByLines 0);;
      mret "Buffer completely replaced"
  | replace =>
      request (BufferReplace buffer splitByLines (startLine - 1));;
      mret "Lines replaced successfully"
  | insert =>
      request (BufferInsert buffer splitByLines (startLine - 1));;
      mret "Lines inserted successfully"
  | otherMode _ => mret "Invalid mode specified"
  end.

Definition editLines (startLine : Z) (editMode : EditMode) (newText : string)
  : M string :=
  tryCatch (editLines_try startLine editMode newText)
    (fun _ => consoleError "Error editing lines:";; mret "Error editing lines").

(** *** manipulateWindow *)

Definition validCommands : list string :=
  ["split"; "vsplit"; "only"; "close"; "wincmd h"; "wincmd j"; "wincmd k"; "wincmd l"].

Definition manipulateWindow (command : string) : M string :=
  if negb (existsb (fun cmd => Js.startsWith command cmd) validCommands)
  then mret "Invalid window command"
  else
    tryCatch (connect;; request (Command command);; mret "Window command executed")
      (fun _ =>
         consoleError "Error manipulating window:";;
         mret "Error executing window command").

(** *** setMark *)

Definition invalidMarkMessage : string := "Invalid mark name (must be a-z)".

(** The cursor is assigned through the window's setter and the value
    awaited is the assigned pair, so the outcome of the call is dropped. *)
Definition setMark (mark : string) (line col : Z) : M string :=
  if negb (Js.matchesLowerLetter mark) then mret invalidMarkMessage
  else
    tryCatch
      (connect;;
       request (Command ("mark " +:+ mark));;
       window ← request CurrentWindow;
       fire (SetWindowCursor window (line, col));;
       mret ("Mark " +:+ mark +:+ " set at line " +:+ Js.ofZ line
               +:+ ", column " +:+ Js.ofZ col))
      (fun _ => consoleError "Error setting mark:";; mret "Error setting mark").

(** *** setRegister *)

Definition validRegisters : list string := letters ++ [Js.dq].

Definition setRegister (register content : string) : M string :=
  if negb (existsb (String.eqb register) validRegisters)
  then mret "Invalid register name"
  else
    tryCatch
      (connect;;
       request (Eval ("setreg('" +:+ register +:+ "', '"
                        +:+ Js.replaceAll "'" "''" content +:+ "')"));;
       mret ("Register " +:+ register +:+ " set"))
      (fun _ => consoleError "Error setting register:";; mret "Error setting register").

(** *** visualSelect *)

Definition visualSelect (startLine startCol endLine endCol : Z) : M string :=
  tryCatch
    (connect;;
     window ← request CurrentWindow;
     request (Command "normal! v");;
     fire (SetWindowCursor window (startLine, startCol));;
     fire (SetWindowCursor window (endLine, endCol));;
     mret "Visual selection made")
    (fun _ =>
       consoleError "Error making visual selection:";;
       mret "Error making visual selection").

(** *** switchBuffer *)

Fixpoint switchToNamed (identifier : string) (buffers : list Buffer) : M string :=
  match buffers with
  | [] => throw (NeovimValidationError ("Buffer not found: " +:+ identifier))
  | buffer :: rest =>
      bufName ← request (BufferName buffer);
      if String.eqb bufName identifier || Js.endsWith bufName identifier then
        request (Command ("buffer " +:+ Js.ofZ (bufferId buffer)));;
        mret ("Switched to buffer: " +:+ bufName)
      else switchToNamed identifier rest
  end.

Definition identifierText (identifier : Z + string) : string :=
  match identifier with
  | inl n => Js.ofZ n
  | inr name => name
  end.

Definition switchBuffer (identifier : Z + string) : M string :=
  tryCatch
    (connect;;
     match identifier with
     | inl n =>
         request (Command ("buffer " +:+ Js.ofZ n));;
         mret ("Switched to buffer " +:+ Js.ofZ n)
     | inr name =>
         buffers ← request Buffers;
         switchToNamed name buffers
     end)
    (fun error =>
       if isValidationError error then throw error
       else
         consoleError "Error switching buffer:";;
         throw (NeovimCommandError ("buffer switch to " +:+ identifierText identifier)
                  (errorMessage "Unknown error" error))).

(** *** saveBuffer *)

Definition saveBuffer (filename : option string) : M string :=
  tryCatch
    (connect;;
     match givenName filename with
     | Some f =>
         request (Command ("write " +:+ f));;
         mret ("Buffer saved to: " +:+ f)
     | None =>
         buffer ← request CurrentBuffer;
         bufferName ← request (BufferName buffer);
         if negb (Js.nonEmpty bufferName)
         then throw (NeovimValidationError
                       "Cannot save unnamed buffer without specifying filename")
         else
           request (Command "write");;
           mret ("Buffer saved: " +:+ bufferName)
     end)
    (fun error =>
       if isValidationError error then throw error
       else
         consoleError "Error saving buffer:";;
         throw (NeovimCommandError
                  ("save " +:+ default "current buffer" (givenName filename))
                  (errorMessage "Unknown error" error))).

(** *** openFile *)

Definition openFile (filename : string) : M string :=
  if Js.isBlank filename then throw (NeovimValidationError "Filename cannot be empty")
  else
    tryCatch
      (connect;;
       request (Command ("edit " +:+ filename));;
       mret ("Opened file: " +:+ filename))
      (fun error =>
         consoleError "Error opening file:";;
         throw (NeovimCommandError ("edit " +:+ filename)
                  (errorMessage "Unknown error" error))).

(** *** searchInBuffer *)

Definition searchPatternOf (pattern : string) (options : SearchOptions) : string :=
  if wholeWord options
  then Js.backslash +:+ "<" +:+ pattern +:+ Js.backslash +:+ ">"
  else pattern.

Definition searchcountExpr (searchPattern : string) : string :=
  "searchcount({" +:+ Js.dq +:+ "pattern" +:+ Js.dq +:+ ": " +:+ Js.dq
    +:+ Js.replaceAll "034" (Js.backslash +:+ Js.dq) searchPattern
    +:+ Js.dq +:+ ", " +:+ Js.dq +:+ "maxcount" +:+ Js.dq +:+ ": 100})".

Definition noMatchesMessage (pattern : string) : string :=
  "No matches found for: " +:+ pattern.

Definition searchInBuffer_try (pattern : string) (options : SearchOptions) : M string :=
  connect;;
  let searchPattern := searchPatternOf pattern options in
  (if ignoreCase options then request (Command "set ignorecase")
   else request (Command "set noignorecase"));;
  matchInfo ← request (Eval (searchcountExpr searchPattern));
  total ← lift (JsValue.get matchInfo "total");
  if JsValue.strictEq total (Some (VNum 0)) then mret (noMatchesMessage pattern)
  else
    request (Command ("/" +:+ searchPattern));;
    incomplete ← lift (JsValue.get matchInfo "incomplete");
    mret ("Found " +:+ interpolate total +:+ " matches for: " +:+ pattern
            +:+ (if from_option JsValue.truthy false incomplete
                 then " (showing first 100)" else EmptyString)).

Definition searchInBuffer (pattern : string) (options : SearchOptions) : M string :=
  if Js.isBlank pattern then throw (NeovimValidationError "Search pattern cannot be empty")
  else
    tryCatch (searchInBuffer_try pattern options)
      (fun error =>
         consoleError "Error searching in buffer:";;
         throw (NeovimCommandError ("search for " +:+ pattern)
                  (errorMessage "Unknown error" error))).

(** *** searchAndReplace *)

Definition substituteFlags (options : SearchOptions) : string :=
  (if global options then "g" else EmptyString)
    +:+ (if ignoreCase options then "i" else EmptyString)
    +:+ (if confirm options then "c" else EmptyString).

Definition escapeSlashes (s : string) : string :=
  Js.replaceAll "/" (Js.backslash +:+ "/") s.

Definition substituteCommand (pattern replacement : string) (options : SearchOptions)
  : string :=
  "%s/" +:+ escapeSlashes pattern +:+ "/" +:+ escapeSlashes replacement +:+ "/"
    +:+ substituteFlags options.

Definition searchAndReplace_try (pattern replacement : string) (options : SearchOptions)
  : M string :=
  connect;;
  let command := substituteCommand pattern replacement options in
  result ← request (Call "execute" [VStr command]);
  mret (if JsValue.truthy result then Js.trim (JsValue.toString result)
        else "Search and replace completed").

Definition searchAndReplace (pattern replacement : string) (options : SearchOptions)
  : M string :=
  if Js.isBlank pattern then throw (NeovimValidationError "Search pattern cannot be empty")
  else
    tryCatch (searchAndReplace_try pattern replacement options)
      (fun error =>
         consoleError "Error in search and replace:";;
         throw (NeovimCommandError ("substitute " +:+ pattern +:+ " -> " +:+ replacement)
                  (errorMessage "Unknown error" error))).

(** *** getWindows *)

Fixpoint windowInfos (windows : list Window) : M (list WindowInfo.t) :=
  match windows with
  | [] => mret []
  | win :: rest =>
      buffer ← request (WindowBuffer win);
      width ← settle (WindowWidth win);
      height ← settle (WindowHeight win);
      width ← awaitReply width;
      height ← awaitReply height;
      position ← request (WindowPosition win);
      infos ← windowInfos rest;
      mret ({| WindowInfo.id := windowId win; WindowInfo.bufferId := bufferId buffer;
               WindowInfo.width := width; WindowInfo.height := height;
               WindowInfo.row := fst position; WindowInfo.col := snd position |} :: infos)
  end.

Definition getWindows : M (list WindowInfo.t) :=
  tryCatch (connect;; windows ← request Windows; windowInfos windows)
    (fun _ => consoleError "Error getting windows:";; mret []).

(** *** grepInProject *)

(** [item.text.trim()] *)
Definition trimmedText (item : Value) : Completion string :=
  match JsValue.get item "text" with
  | Throw e => Throw e
  | Normal (Some (VStr text)) => Normal (Js.trim text)
  | Normal None => Throw (JsError "Cannot read properties of undefined (reading 'trim')")
  | Normal (Some VNull) => Throw (JsError "Cannot read properties of null (reading 'trim')")
  | Normal (Some _) => Throw (JsError "item.text.trim is not a function")
  end.

Definition grepLine (item : Value) : Completion string :=
  match JsValue.get item "filename" with
  | Throw e => Throw e
  | Normal filename =>
      match JsValue.get item "lnum" with
      | Throw e => Throw e
      | Normal lnum =>
          match trimmedText item with
          | Throw e => Throw e
          | Normal text =>
              Normal (interpolate filename +:+ ":" +:+ interpolate lnum +:+ ": " +:+ text)
          end
      end
  end.

Fixpoint grepLines (items : list Value) : Completion (list string) :=
  match items with
  | [] => Normal []
  | item :: rest =>
      match grepLine item with
      | Throw e => Throw e
      | Normal line =>
          match grepLines rest with
          | Throw e => Throw e
          | Normal lines => Normal (line :: lines)
          end
      end
  end.

(** The summary of a quickfix list; only an array has [slice] and [map]. *)
Definition grepSummary (pattern : string) (results : Value) : Completion string :=
  match JsValue.get results "length" with
  | Throw e => Throw e
  | Normal len =>
      if JsValue.strictEq len (Some (VNum 0)) then Normal ("No matches found for: " +:+ pattern)
      else
        match results with
        | VArr items =>
            match grepLines (take 10 items) with
            | Throw e => Throw e
            | Normal lines =>
                let count := length items in
                Normal ("Found " +:+ Js.ofNat count +:+ " matches for: " +:+ pattern
                          +:+ String Js.newline EmptyString
                          +:+ String.concat (String Js.newline EmptyString) lines
                          +:+ (if (10 <? count)%nat
                               then String Js.newline EmptyString +:+ "... and "
                                      +:+ Js.ofNat (count - 10) +:+ " more matches"
                               else EmptyString))
            end
        | _ => Throw (JsError "results.slice(...).map is not a function")
        end
  end.

Definition grepInProject (pattern filePattern : string) : M string :=
  if Js.isBlank pattern then throw (NeovimValidationError "Grep pattern cannot be empty")
  else
    tryCatch
      (connect;;
       request (Command ("vimgrep /" +:+ pattern +:+ "/ " +:+ filePattern));;
       results ← request (Eval "getqflist()");
       lift (grepSummary pattern results))
      (fun error =>
         consoleError "Error in grep:";;
         throw (NeovimCommandError ("grep " +:+ pattern)
                  (errorMessage "Unknown error" error))).

(** *** getOpenBuffers *)

Fixpoint windowsShowing (buffer : Buffer) (windows : list Window) : M (list Z) :=
  match windows with
  | [] => mret []
  | win :: rest =>
      winBuffer ← request (WindowBuffer win);
      ids ← windowsShowing buffer rest;
      mret (if bufferId winBuffer =? bufferId buffer then windowId win :: ids else ids)
  end.

Fixpoint bufferInfos (windows : list Window) (buffers : list Buffer)
  : M (list BufferInfo.t) :=
  match buffers with
  | [] => mret []
  | buffer :: rest =>
      isLoaded ← settle (BufferLoaded buffer);
      isListedOption ← settle (BufferGetOption buffer "buflisted");
      modified ← settle (BufferGetOption buffer "modified");
      syntax ← settle (BufferGetOption buffer "syntax");
      isLoaded ← awaitReply isLoaded;
      isListedOption ← awaitReply isListedOption;
      modified ← awaitReply modified;
      syntax ← awaitReply syntax;
      windowIds ← windowsShowing buffer windows;
      name ← request (BufferName buffer);
      infos ← bufferInfos windows rest;
      mret ({| BufferInfo.number := bufferId buffer; BufferInfo.name := name;
               BufferInfo.isListed := JsValue.truthy isListedOption;
               BufferInfo.isLoaded := isLoaded;
               BufferInfo.modified := JsValue.truthy modified;
               BufferInfo.syntax := JsValue.toString syntax;
               BufferInfo.windowIds := windowIds |} :: infos)
  end.

Definition getOpenBuffers : M (list BufferInfo.t) :=
  tryCatch
    (connect;;
     buffers ← request Buffers;
     windows ← request Windows;
     bufferInfos windows buffers)
    (fun _ => consoleError "Error getting open buffers:";; mret []).

(** *** manageMacro *)

(** [!register || register.length !== 1 || !/[a-z]/.test(register)] *)
Definition badMacroRegister (register : option string) : bool :=
  match givenName register with
  | Some r => negb (String.length r =? 1)%nat || negb (Js.containsLowerLetter r)
  | None => true
  end.

Definition manageMacro_try (action : string) (register : option string) (count : Z)
  : M string :=
  connect;;
  if String.eqb action "record" then
    if badMacroRegister register
    then throw (NeovimValidationError "Register must be a single letter a-z for recording")
    else
      request (Input ("q" +:+ default EmptyString register));;
      mret ("Started recording macro in register '" +:+ default EmptyString register +:+ "'")
  else if String.eqb action "stop" then
    request (Input "q");;
    mret "Stopped recording macro"
  else if String.eqb action "play" then
    if badMacroRegister register
    then throw (NeovimValidationError "Register must be a single letter a-z for playing")
    else
      let playCommand :=
        if 1 <? count
        then Js.ofZ count +:+ "@" +:+ default EmptyString register
        else "@" +:+ default EmptyString register in
      request (Input playCommand);;
      mret ("Played macro from register '" +:+ default EmptyString register +:+ "' "
              +:+ Js.ofZ count +:+ " time(s)")
  else throw (NeovimValidationError ("Unknown macro action: " +:+ action)).

Definition manageMacro (action : string) (register : option string) (count : Z)
  : M string :=
  tryCatch (manageMacro_try action register count)
    (fun error =>
       if isValidationError error then throw error
       else
         consoleError "Error managing macro:";;
         throw (NeovimCommandError ("macro " +:+ action)
                  (errorMessage "Unknown error" error))).

(** *** manageTab *)

Fixpoint tabLines (i : nat) (tabs : list Tabpage) : M (list string) :=
  match tabs with
  | [] => mret []
  | tab :: rest =>
      win ← request (TabpageWindow tab);
      buf ← request (WindowBuffer win);
      name ← request (BufferName buf);
      current ← request CurrentTabpage;
      let isCurrent := sameTabpage tab current in
      lines ← tabLines (S i) rest;
      mret (((if isCurrent then "*" else " ") +:+ Js.ofNat (i + 1) +:+ ": "
               +:+ (if Js.nonEmpty name then name else "[No Name]")) :: lines)
  end.

Definition manageTab_try (action : string) (filename : option string) : M string :=
  connect;;
  if String.eqb action "new" then
    match givenName filename with
    | Some f =>
        request (Command ("tabnew " +:+ f));;
        mret ("Created new tab with file: " +:+ f)
    | None =>
        request (Command "tabnew");;
        mret "Created new empty tab"
    end
  else if String.eqb action "close" then
    request (Command "tabclose");; mret "Closed current tab"
  else if String.eqb action "next" then
    request (Command "tabnext");; mret "Moved to next tab"
  else if String.eqb action "prev" then
    request (Command "tabprev");; mret "Moved to previous tab"
  else if String.eqb action "first" then
    request (Command "tabfirst");; mret "Moved to first tab"
  else if String.eqb action "last" then
    request (Command "tablast");; mret "Moved to last tab"
  else if String.eqb action "list" then
    tabs ← request Tabpages;
    tabInfo ← tabLines 0 tabs;
    mret ("Tabs:" +:+ String Js.newline EmptyString
            +:+ String.concat (String Js.newline EmptyString) tabInfo)
  else throw (NeovimValidationError ("Unknown tab action: " +:+ action)).

Definition manageTab (action : string) (filename : option string) : M string :=
  tryCatch (manageTab_try action filename)
    (fun error =>
       if isValidationError error then throw error
       else
         consoleError "Error managing tab:";;
         throw (NeovimCommandError ("tab " +:+ action)
                  (errorMessage "Unknown error" error))).

(** *** manageFold *)

Definition manageFold_try (action : string) (startLine endLine : option Z) : M string :=
  connect;;
  if String.eqb action "create" then
    match startLine, endLine with
    | Some first, Some last =>
        request (Command (Js.ofZ first +:+ "," +:+ Js.ofZ last +:+ "fold"));;
        mret ("Created fold from line " +:+ Js.ofZ first +:+ " to " +:+ Js.ofZ last)
    | _, _ =>
        throw (NeovimValidationError
                 "Start line and end line are required for creating folds")
    end
  else if String.eqb action "open" then
    request (Input "zo");; mret "Opened fold at cursor"
  else if String.eqb action "close" then
    request (Input "zc");; mret "Closed fold at cursor"
  else if String.eqb action "toggle" then
    request (Input "za");; mret "Toggled fold at cursor"
  else if String.eqb action "openall" then
    request (Command "normal! zR");; mret "Opened all folds"
  else if String.eqb action "closeall" then
    request (Command "normal! zM");; mret "Closed all folds"
  else if String.eqb action "delete" then
    request (Input "zd");; mret "Deleted fold at cursor"
  else throw (NeovimValidationError ("Unknown fold action: " +:+ action)).

Definition manageFold (action : string) (startLine endLine : option Z) : M string :=
  tryCatch (manageFold_try action startLine endLine)
    (fun error =>
       if isValidationError error then throw error
       else
         consoleError "Error managing fold:";;
         throw (NeovimCommandError ("fold " +:+ action)
                  (errorMessage "Unknown error" error))).

(** *** navigateJumpList *)

Definition navigateJumpList_try (direction : string) : M string :=
  connect;;
  if String.eqb direction "back" then
    request (Input (String "015" EmptyString));; mret "Jumped back in jump list"
  else if String.eqb direction "forward" then
    request (Input (String "009" EmptyString));; mret "Jumped forward in jump list"
  else if String.eqb direction "list" then
    request (Command "jumps");;
    output ← request (Eval ("execute(" +:+ Js.dq +:+ "jumps" +:+ Js.dq +:+ ")"));
    mret ("Jump list:" +:+ String Js.newline EmptyString +:+ JsValue.toString output)
  else throw (NeovimValidationError ("Unknown jump direction: " +:+ direction)).

Definition navigateJumpList (direction : string) : M string :=
  tryCatch (navigateJumpList_try direction)
    (fun error =>
       if isValidationError error then throw error
       else
         consoleError "Error navigating jump list:";;
         throw (NeovimCommandError ("jump " +:+ direction)
                  (errorMessage "Unknown error" error))).

(** *** The vim_command tool (index.ts) *)

Definition vim_command (command : string) : M string :=
  tryCatch
    (e ← processEnv;
     if Js.startsWith command "!" && negb (shellAllowed e)
     then mret shellDisabledMessage
     else sendCommand command)
    (fun error => mret (errorMessage "Error executing command" error)).

End Bridge.

Arguments World : clear implicits.
Arguments M : clear implicits.

(** ** A model of the editor

    One buffer, one window, one tab page.  The calls follow the editor's
    API: indices of a line range are zero-based and end-exclusive, a
    negative index counts from the end, the cursor is (1-based line,
    0-based column), [getpos] reports 1-based columns, [:mark] records the
    cursor line at column 0, and a buffer never has fewer than one line:
    when its last line is removed an empty line stays.  Patterns are taken
    literally and only when made of letters and digits; marks are not moved
    by edits; calls the model does not know are rejected. *)

Module Nvim.

Record State : Type := {
  lines : list string;
  cursor : Z * Z;
  name : string;
  lowerMarks : gmap string (Z * Z);
  ignorecase : bool
}.

Definition theBuffer : Buffer := {| bufferId := 1 |}.
Definition theWindow : Window := {| windowId := 1000 |}.
Definition theTabpage : Tabpage := {| tabpageId := 1 |}.

Definition lineCount (s : State) : Z := Z.of_nat (length (lines s)).

Definition normalizeIndex (count index : Z) : Z :=
  if index <? 0 then count + index + 1 else index.

Definition outOfBounds (count index : Z) : bool :=
  (index <? 0) || (count <? index).

Definition clamp (count index : Z) : Z := Z.max 0 (Z.min count index).

Definition hasNewline (line : string) : bool :=
  existsb (Ascii.eqb Js.newline) (list_ascii_of_string line).

Definition withLines (s : State) (ls : list string) : State :=
  {| lines := ls;
     cursor := (Z.max 1 (Z.min (Z.of_nat (length ls)) (fst (cursor s))), snd (cursor s));
     name := name s; lowerMarks := lowerMarks s; ignorecase := ignorecase s |}.

Definition withCursor (s : State) (pos : Z * Z) : State :=
  {| lines := lines s; cursor := pos; name := name s; lowerMarks := lowerMarks s;
     ignorecase := ignorecase s |}.

Definition withMark (s : State) (m : string) (pos : Z * Z) : State :=
  {| lines := lines s; cursor := cursor s; name := name s;
     lowerMarks := <[m := pos]> (lowerMarks s); ignorecase := ignorecase s |}.

Definition withIgnorecase (s : State) (b : bool) : State :=
  {| lines := lines s; cursor := cursor s; name := name s; lowerMarks := lowerMarks s;
     ignorecase := b |}.

(** The buffer is never left without a line. *)
Definition atLeastOneLine (ls : list string) : list string :=
  match ls with
  | [] => [EmptyString]
  | _ => ls
  end.

(** Replace the lines [start, end_) by [replacement]. *)
Definition setLines (start end_ : Z) (strictIndexing : bool) (replacement : list string)
    (s : State) : Reply unit * State :=
  let count := lineCount s in
  let i := normalizeIndex count start in
  let j := normalizeIndex count end_ in
  if strictIndexing && (outOfBounds count i || outOfBounds count j)
  then (Rejected "Index out of bounds", s)
  else
    let i := clamp count i in
    let j := clamp count j in
    if j <? i then (Rejected "'start' is higher than 'end'", s)
    else if existsb hasNewline replacement
    then (Rejected "String cannot contain newlines", s)
    else
      (Resolved (),
       withLines s
         (atLeastOneLine
            (take (Z.to_nat i) (lines s) ++ replacement ++ drop (Z.to_nat j) (lines s)))).

Definition lineLength (s : State) (line : Z) : Z :=
  Z.of_nat (String.length (default EmptyString (lines s !! Z.to_nat (line - 1)))).

Definition setCursor (pos : Z * Z) (s : State) : Reply unit * State :=
  let (line, col) := pos in
  if (line <? 1) || (lineCount s <? line)
  then (Rejected "Cursor position outside buffer", s)
  else if col <? 0 then (Rejected "Column value outside range", s)
  else (Resolved (), withCursor s (line, Z.min col (Z.max 0 (lineLength s line - 1)))).

(** Literal matching. *)
Definition isAlnum (c : ascii) : bool :=
  let n := N_of_ascii c in
  ((48 <=? n) && (n <=? 57) || (65 <=? n) && (n <=? 90) || (97 <=? n) && (n <=? 122))%N.

Definition isPlain (p : string) : bool :=
  Js.nonEmpty p && forallb isAlnum (list_ascii_of_string p).

Definition lower (c : ascii) : ascii :=
  let n := N_of_ascii c in
  if ((65 <=? n) && (n <=? 90))%N then ascii_of_N (n + 32) else c.

Definition sameChar (ic : bool) (a b : ascii) : bool :=
  if ic then Ascii.eqb (lower a) (lower b) else Ascii.eqb a b.

Fixpoint matchesAt (ic : bool) (p s : string) : bool :=
  match p, s with
  | EmptyString, _ => true
  | String a p', String b s' => sameChar ic a b && matchesAt ic p' s'
  | String _ _, EmptyString => false
  end.

(** The occurrences of [p] in [s], left to right, without overlap. *)
Fixpoint occurrences (ic : bool) (p : string) (skip : nat) (s : string) : nat :=
  match s with
  | EmptyString => O
  | String _ s' =>
      match skip with
      | S k => occurrences ic p k s'
      | O =>
          if matchesAt ic p s then S (occurrences ic p (String.length p - 1) s')
          else occurrences ic p O s'
      end
  end.

(** Replace the first occurrence of [p] in [s], or every one. *)
Fixpoint substitute (ic every : bool) (p r : string) (skip : nat) (done : bool) (s : string)
  : string :=
  match s with
  | EmptyString => EmptyString
  | String c s' =>
      match skip with
      | S k => substitute ic every p r k done s'
      | O =>
          if negb done && matchesAt ic p s
          then r +:+ substitute ic every p r (String.length p - 1) (negb every) s'
          else String c (substitute ic every p r O done s')
      end
  end.

Definition totalMatches (s : State) (p : string) : nat :=
  list_sum (List.map (occurrences (ignorecase s) p O) (lines s)).

(** [:mark x] *)
Definition markCommand (cmd : string) : option string :=
  List.find (fun m => String.eqb cmd ("mark " +:+ m)) letters.

(** [:%s/p/r/flags] with a plain pattern and replacement. *)
Definition hasFlag (c : ascii) (flags : string) : bool :=
  existsb (Ascii.eqb c) (list_ascii_of_string flags).

Definition substituteCommandParts (cmd : string) : option (string * string * string) :=
  match Js.split "/" cmd with
  | [head; p; r; flags] =>
      if String.eqb head "%s" && isPlain p && isPlain r
         && forallb (fun c => Ascii.eqb c "g" || Ascii.eqb c "i")
              (list_ascii_of_string flags)
      then Some (p, r, flags)
      else None
  | _ => None
  end.

Definition runSubstitute (p r flags : string) (s : State) : Reply unit * State :=
  let ic := ignorecase s || hasFlag "i" flags in
  if (list_sum (List.map (occurrences ic p O) (lines s)) =? 0)%nat
  then (Rejected ("E486: Pattern not found: " +:+ p), s)
  else
    (Resolved (),
     withLines s (List.map (substitute ic (hasFlag "g" flags) p r O false) (lines s))).

Definition command (cmd : string) (s : State) : Reply unit * State :=
  match markCommand cmd with
  | Some m => (Resolved (), withMark s m (fst (cursor s), 0))
  | None =>
      if String.eqb cmd "set ignorecase" then (Resolved (), withIgnorecase s true)
      else if String.eqb cmd "set noignorecase" then (Resolved (), withIgnorecase s false)
      else
        match substituteCommandParts cmd with
        | Some (p, r, flags) => runSubstitute p r flags s
        | None => (Rejected ("Command not modelled: " +:+ cmd), s)
        end
  end.

Definition getpos (s : State) (m : string) : Value :=
  match lowerMarks s !! m with
  | Some (line, col) => VArr [VNum 0; VNum line; VNum (col + 1); VNum 0]
  | None => VArr [VNum 0; VNum 0; VNum 0; VNum 0]
  end.

(** The pattern of a [searchcount] expression, when it is plain. *)
Definition searchcountPattern (expr : string) : option string :=
  match Js.split "034" expr with
  | [_; _; _; p; _; _; _] =>
      if isPlain p && String.eqb expr (searchcountExpr p) then Some p else None
  | _ => None
  end.

Definition searchcount (s : State) (p : string) : Value :=
  let total := Z.of_nat (totalMatches s p) in
  VObj [("current", VNum 0); ("exact_match", VNum 0); ("incomplete", VNum 0);
        ("maxcount", VNum 100); ("total", VNum (Z.min total 100))].

Definition eval (introspection : bool) (expr : string) (s : State) : Reply Value :=
  match List.find (fun m => String.eqb expr (getposExpr m)) letters with
  | Some m => Resolved (getpos s m)
  | None =>
      if String.eqb expr "winlayout()"
      then Resolved (VArr [VStr "leaf"; VNum (windowId theWindow)])
      else if String.eqb expr "1" then Resolved (VNum 1)
      else if existsb (fun r => String.eqb expr (getregExpr r)) registerNames
      then Resolved (VStr EmptyString)
      else if String.eqb expr lspClientsExpr
      then if introspection then Resolved (VArr []) else Rejected "E5108: attempt to index field 'lsp'"
      else if existsb (fun n => String.eqb expr (existsExpr n)) probedNames
      then if introspection then Resolved (VNum 0) else Rejected "E117: Unknown function: exists"
      else
        match searchcountPattern expr with
        | Some p => Resolved (searchcount s p)
        | None => Rejected ("Expression not modelled: " +:+ expr)
        end
  end.

Definition onBuffer {A : Type} (b : Buffer) (s : State) (k : Reply A * State)
  : Reply A * State :=
  if bufferId b =? bufferId theBuffer then k else (Rejected "Invalid buffer id", s).

Definition onWindow {A : Type} (w : Window) (s : State) (k : Reply A * State)
  : Reply A * State :=
  if windowId w =? windowId theWindow then k else (Rejected "Invalid window id", s).

Definition execute (args : list Value) (s : State) : Reply Value * State :=
  match args with
  | [VStr cmd] =>
      match command cmd s with
      | (Resolved _, s') => (Resolved (VStr EmptyString), s')
      | (Rejected message, s') => (Rejected message, s')
      end
  | _ => (Rejected "E118: Too many arguments for function: execute", s)
  end.

(** [introspection] tells whether the editor answers the LSP and plugin
    lookups. *)
Definition rpcWith (introspection : bool) (A : Type) (r : Request A) (s : State)
  : Reply A * State :=
  match r in Request T return Reply T * State with
  | Eval expr => (eval introspection expr s, s)
  | Command cmd => command cmd s
  | Call fname args =>
      if String.eqb fname "getcwd" then (Resolved (VStr "/"), s)
      else if String.eqb fname "execute" then execute args s
      else (Rejected ("Function not modelled: " +:+ fname), s)
  | Lua _ => (Rejected "Lua not modelled", s)
  | SetVvar _ _ => (Rejected "Variable not modelled", s)
  | GetVvar _ => (Rejected "Variable not modelled", s)
  | GetMode => (Resolved {| mode := "n"; blocking := false |}, s)
  | CurrentBuffer => (Resolved theBuffer, s)
  | CurrentWindow => (Resolved theWindow, s)
  | CurrentTabpage => (Resolved theTabpage, s)
  | Buffers => (Resolved [theBuffer], s)
  | BufferName b => onBuffer b s (Resolved (name s), s)
  | BufferLength b => onBuffer b s (Resolved (lineCount s), s)
  | BufferLines b => onBuffer b s (Resolved (lines s), s)
  | BufferRemove b start end_ strictIndexing =>
      onBuffer b s (setLines start end_ strictIndexing [] s)
  | BufferInsert b ls start => onBuffer b s (setLines start start true ls s)
  | BufferReplace b ls start =>
      onBuffer b s (setLines start (start + Z.of_nat (length ls)) false ls s)
  | WindowCursor w => onWindow w s (Resolved (cursor s), s)
  | SetWindowCursor w pos => onWindow w s (setCursor pos s)
  | TabpageNumber t =>
      if tabpageId t =? tabpageId theTabpage then (Resolved 1, s)
      else (Rejected "Invalid tabpage id", s)
  | Input _ => (Rejected "Input not modelled", s)
  | Windows => (Resolved [theWindow], s)
  | WindowBuffer w => onWindow w s (Resolved theBuffer, s)
  | WindowWidth w => onWindow w s (Resolved 80, s)
  | WindowHeight w => onWindow w s (Resolved 24, s)
  | WindowPosition w => onWindow w s (Resolved (0, 0), s)
  | BufferLoaded b => onBuffer b s (Resolved true, s)
  | BufferGetOption b _ => onBuffer b s (Rejected "Option not modelled", s)
  | Tabpages => (Resolved [theTabpage], s)
  | TabpageWindow t =>
      if tabpageId t =? tabpageId theTabpage then (Resolved theWindow, s)
      else (Rejected "Invalid tabpage id", s)
  end.

Definition rpc : forall A : Type, Request A -> State -> Reply A * State := rpcWith true.

(** Every socket can be attached to. *)
Definition attach (socketPath : string) : option Exn := None.

(** An attach that throws at once, the case the catch of [connect] is
    written for.  For a socket that does not exist the client of the source
    returns normally and reports the failure later: that case is not this
    one. *)
Definition unreachable (socketPath : string) : option Exn :=
  Some (JsError ("connect ENOENT " +:+ socketPath)).

Definition defaultEnv : ProcessEnv :=
  {| NVIM_SOCKET_PATH := None; ALLOW_SHELL_COMMANDS := None |}.

Definition blankSocketEnv : ProcessEnv :=
  {| NVIM_SOCKET_PATH := Some "   "; ALLOW_SHELL_COMMANDS := None |}.

Definition world (e : ProcessEnv) (s : State) : World State :=
  {| env := e; remote := s; sockets := []; calls := []; console := [] |}.

(** A four-line buffer, the cursor on its first line, no mark set. *)
Definition sample : State :=
  {| lines := ["one"; "two"; "three"; "four"]; cursor := (1, 0);
     name := "/tmp/sample.txt"; lowerMarks := ∅; ignorecase := false |}.

End Nvim.

(** ** Vocabulary of the properties *)

(** Every exception that escapes [m] satisfies [P]. *)
Definition raises {St A : Type} (m : M St A) (P : Exn -> Prop) : Prop :=
  forall w, match fst (m w) with Normal _ => True | Throw e => P e end.

(** Every value [m] completes with satisfies [Q]. *)
Definition ensures {St A : Type} (m : M St A) (Q : A -> Prop) : Prop :=
  forall w, match fst (m w) with Normal a => Q a | Throw _ => True end.

(** [m] completes normally, from every world, with a value in [Q]. *)
Definition returns {St A : Type} (m : M St A) (Q : A -> Prop) : Prop :=
  forall w, match fst (m w) with Normal a => Q a | Throw _ => False end.

(** What a computation that sends nothing leaves as it was. *)
Definition untouched {St : Type} (w w' : World St) : Prop :=
  env w' = env w /\ remote w' = remote w /\ calls w' = calls w.

(** One of the three error kinds of the bridge. *)
Definition classified (e : Exn) : bool :=
  isConnectionError e || isCommandError e || isValidationError e.

(** The public operations of the bridge, with their arguments. *)
Inductive Operation : Type :=
| OpConnect
| OpHealthCheck
| OpGetBufferContents (filename : option string)
| OpSendCommand (command : string)
| OpGetNeovimStatus
| OpEditLines (startLine : Z) (editMode : EditMode) (newText : string)
| OpManipulateWindow (command : string)
| OpSetMark (mark : string) (line col : Z)
| OpSetRegister (register content : string)
| OpVisualSelect (startLine startCol endLine endCol : Z)
| OpSwitchBuffer (identifier : Z + string)
| OpSaveBuffer (filename : option string)
| OpOpenFile (filename : string)
| OpSearchInBuffer (pattern : string) (options : SearchOptions)
| OpSearchAndReplace (pattern replacement : string) (options : SearchOptions)
| OpGetWindows
| OpGrepInProject (pattern filePattern : string)
| OpGetOpenBuffers
| OpManageMacro (action : string) (register : option string) (count : Z)
| OpManageTab (action : string) (filename : option string)
| OpManageFold (action : string) (startLine endLine : option Z)
| OpNavigateJumpList (direction : string).

Definition discard {St A : Type} (m : M St A) : M St unit := m ≫= fun _ => mret ().

Definition perform {St : Type} (rpc : forall A : Type, Request A -> St -> Reply A * St)
    (attach : string -> option Exn) (sameTabpage : Tabpage -> Tabpage -> bool)
    (op : Operation) : M St unit :=
  match op with
  | OpConnect => connect attach
  | OpHealthCheck => discard (healthCheck rpc attach)
  | OpGetBufferContents filename => discard (getBufferContents rpc attach filename)
  | OpSendCommand command => discard (sendCommand rpc attach command)
  | OpGetNeovimStatus => discard (getNeovimStatus rpc attach)
  | OpEditLines startLine editMode newText =>
      discard (editLines rpc attach startLine editMode newText)
  | OpManipulateWindow command => discard (manipulateWindow rpc attach command)
  | OpSetMark mark line col => discard (setMark rpc attach mark line col)
  | OpSetRegister register content => discard (setRegister rpc attach register content)
  | OpVisualSelect startLine startCol endLine endCol =>
      discard (visualSelect rpc attach startLine startCol endLine endCol)
  | OpSwitchBuffer identifier => discard (switchBuffer rpc attach identifier)
  | OpSaveBuffer filename => discard (saveBuffer rpc attach filename)
  | OpOpenFile filename => discard (openFile rpc attach filename)
  | OpSearchInBuffer pattern options => discard (searchInBuffer rpc attach pattern options)
  | OpSearchAndReplace pattern replacement options =>
      discard (searchAndReplace rpc attach pattern replacement options)
  | OpGetWindows => discard (getWindows rpc attach)
  | OpGrepInProject pattern filePattern =>
      discard (grepInProject rpc attach pattern filePattern)
  | OpGetOpenBuffers => discard (getOpenBuffers rpc attach)
  | OpManageMacro action register count =>
      discard (manageMacro rpc attach action register count)
  | OpManageTab action filename =>
      discard (manageTab rpc attach sameTabpage action filename)
  | OpManageFold action startLine endLine =>
      discard (manageFold rpc attach action startLine endLine)
  | OpNavigateJumpList direction => discard (navigateJumpList rpc attach direction)
  end.

(** The boundary as the specification words it: an exception of a
    recognized kind leaves the operation unchanged, any other leaves it
    wrapped as a command error carrying the operation's context. *)
Definition normalizedBoundary {St A : Type} (body operation : M St A) (context : string)
  : Prop :=
  forall w e, fst (body w) = Throw e ->
    fst (operation w) =
    Throw (if classified e then e
           else NeovimCommandError context (errorMessage "Unknown error" e)).

(** The editor answers the call [r] in every state; rejects it in every
    state; may answer it with [a]. *)
Definition answers {St A : Type} (rpc : forall A : Type, Request A -> St -> Reply A * St)
    (r : Request A) : Prop :=
  forall st, exists a, fst (rpc A r st) = Resolved a.

Definition rejects {St A : Type} (rpc : forall A : Type, Request A -> St -> Reply A * St)
    (r : Request A) : Prop :=
  forall st, exists message, fst (rpc A r st) = Rejected message.

Definition issued {St A : Type} (rpc : forall A : Type, Request A -> St -> Reply A * St)
    (r : Request A) (a : A) : Prop :=
  exists st, fst (rpc A r st) = Resolved a.

(** The lookups of [getNeovimStatus] outside its inner try blocks are
    always answered. *)
Record coreAnswers {St : Type} (rpc : forall A : Type, Request A -> St -> Reply A * St)
  : Prop := {
  answers_window : answers rpc CurrentWindow;
  answers_cursor : forall win, issued rpc CurrentWindow win -> answers rpc (WindowCursor win);
  answers_mode : answers rpc GetMode;
  answers_buffer : answers rpc CurrentBuffer;
  answers_layout : answers rpc (Eval "winlayout()");
  answers_tabpage : answers rpc CurrentTabpage;
  answers_number : forall tab, issued rpc CurrentTabpage tab -> answers rpc (TabpageNumber tab);
  answers_cwd : answers rpc (Call "getcwd" []);
  answers_name : forall buf, issued rpc CurrentBuffer buf -> answers rpc (BufferName buf)
}.

(** The validation errors [getBufferContents] can raise. *)
Definition contentsValidation (filename : option string) (e : Exn) : Prop :=
  e = NeovimValidationError "Socket path cannot be empty"
  \/ exists f, givenName filename = Some f
               /\ e = NeovimValidationError ("Buffer not found: " +:+ f).

(** The position a status reports for a mark. *)
Definition reportedMark (r : Completion StatusResult) (mark : string)
  : option (Value * Value) :=
  match r with
  | Normal (StatusObject status) => marks status !! mark
  | _ => None
  end.

(** Some character of the string is not white space. *)
Fixpoint hasInk (s : string) : bool :=
  match s with
  | EmptyString => false
  | String c s' => negb (Js.isWhiteSpace c) || hasInk s'
  end.


(** No character of the string is a slash. *)
Fixpoint slashFree (s : string) : bool :=
  match s with
  | EmptyString => true
  | String c s' => negb (Ascii.eqb c "/") && slashFree s'
  end.

Definition plainWorld : World Nvim.State := Nvim.world Nvim.defaultEnv Nvim.sample.

Definition blankSocketWorld : World Nvim.State := Nvim.world Nvim.blankSocketEnv Nvim.sample.


(** ** The tools and resources of index.ts *)

Section Tools.

Context {St : Type}.
Variable rpc : forall A : Type, Request A -> St -> Reply A * St.
Variable attach : string -> option Exn.
Variable sameTabpage : Tabpage -> Tabpage -> bool.

(** [JSON.stringify(status, null, 2)]: the text is the library's. *)
Variable stringifyStatus : StatusResult -> Completion string.

(** The body shared by the tool handlers: the result of the operation, or
    the message of what it threw. *)
Definition toolText (fallback : string) (operation : M St string) : M St string :=
  tryCatch operation (fun error => mret (errorMessage fallback error)).

(** [Array.from(entries).map(([lineNum, lineText]) => ...).join('\n')] *)
Definition formatEntries (entries : list (Z * string)) : string :=
  String.concat (String Js.newline EmptyString)
    (List.map (fun entry => Js.ofZ (fst entry) +:+ ": " +:+ snd entry) entries).

(** The nvim://session resource: no try block around the read. *)
Definition sessionResource : M St string :=
  bufferContents ← getBufferContents rpc attach None;
  mret (formatEntries bufferContents).

Definition vim_buffer (filename : option string) : M St string :=
  toolText "Error getting buffer contents"
    (bufferContents ← getBufferContents rpc attach filename;
     mret (formatEntries bufferContents)).

Definition vim_status : M St string :=
  toolText "Error getting Neovim status"
    (status ← getNeovimStatus rpc attach;
     lift (stringifyStatus status)).

Definition vim_edit (startLine : Z) (editMode : EditMode) (lines : string) : M St string :=
  toolText "Error editing buffer" (editLines rpc attach startLine editMode lines).

Definition vim_window (command : string) : M St string :=
  toolText "Error manipulating window" (manipulateWindow rpc attach command).

Definition vim_mark (mark : string) (line column : Z) : M St string :=
  toolText "Error setting mark" (setMark rpc attach mark line column).

Definition vim_register (register content : string) : M St string :=
  toolText "Error setting register" (setRegister rpc attach register content).

Definition vim_visual (startLine startColumn endLine endColumn : Z) : M St string :=
  toolText "Error creating visual selection"
    (visualSelect rpc attach startLine startColumn endLine endColumn).

Definition vim_buffer_switch (identifier : Z + string) : M St string :=
  toolText "Error switching buffer" (switchBuffer rpc attach identifier).

Definition vim_buffer_save (filename : option string) : M St string :=
  toolText "Error saving buffer" (saveBuffer rpc attach filename).

Definition vim_file_open (filename : string) : M St string :=
  toolText "Error opening file" (openFile rpc attach filename).

(** An optional flag of a tool: absent is [false]. *)
Definition flag (b : option bool) : bool := default false b.

Definition vim_search (pattern : string) (ignoreCase wholeWord : option bool) : M St string :=
  toolText "Error searching in buffer"
    (searchInBuffer rpc attach pattern
       {| ignoreCase := flag ignoreCase; wholeWord := flag wholeWord;
          global := false; confirm := false |}).

Definition vim_search_replace (pattern replacement : string)
    (global ignoreCase confirm : option bool) : M St string :=
  toolText "Error in search and replace"
    (searchAndReplace rpc attach pattern replacement
       {| ignoreCase := flag ignoreCase; wholeWord := false;
          global := flag global; confirm := flag confirm |}).

Definition vim_grep (pattern : string) (filePattern : option string) : M St string :=
  toolText "Error in grep search"
    (grepInProject rpc attach pattern (default "**/*" filePattern)).

Definition vim_health : M St string :=
  healthCheck rpc attach ≫= fun isHealthy : bool =>
  mret (if isHealthy then "Neovim connection is healthy" else "Neovim connection failed").

Definition vim_macro (action : string) (register : option string) (count : option Z)
  : M St string :=
  toolText "Error managing macro" (manageMacro rpc attach action register (default 1 count)).

Definition vim_tab (action : string) (filename : option string) : M St string :=
  toolText "Error managing tab" (manageTab rpc attach sameTabpage action filename).

Definition vim_fold (action : string) (startLine endLine : option Z) : M St string :=
  toolText "Error managing fold" (manageFold rpc attach action startLine endLine).

Definition vim_jump (direction : string) : M St string :=
  toolText "Error navigating jump list" (navigateJumpList rpc attach direction).

(** The tools that answer with a text, with their arguments. *)
Inductive Tool : Type :=
| ToolBuffer (filename : option string)
| ToolCommand (command : string)
| ToolStatus
| ToolEdit (startLine : Z) (editMode : EditMode) (lines : string)
| ToolWindow (command : string)
| ToolMark (mark : string) (line column : Z)
| ToolRegister (register content : string)
| ToolVisual (startLine startColumn endLine endColumn : Z)
| ToolBufferSwitch (identifier : Z + string)
| ToolBufferSave (filename : option string)
| ToolFileOpen (filename : string)
| ToolSearch (pattern : string) (ignoreCase wholeWord : option bool)
| ToolSearchReplace (pattern replacement : string) (global ignoreCase confirm : option bool)
| ToolGrep (pattern : string) (filePattern : option string)
| ToolHealth
| ToolMacro (action : string) (register : option string) (count : option Z)
| ToolTab (action : string) (filename : option string)
| ToolFold (action : string) (startLine endLine : option Z)
| ToolJump (direction : string).

Definition callTool (tool : Tool) : M St string :=
  match tool with
  | ToolBuffer filename => vim_buffer filename
  | ToolCommand command => vim_command rpc attach command
  | ToolStatus => vim_status
  | ToolEdit startLine editMode lines => vim_edit startLine editMode lines
  | ToolWindow command => vim_window command
  | ToolMark mark line column => vim_mark mark line column
  | ToolRegister register content => vim_register register content
  | ToolVisual startLine startColumn endLine endColumn =>
      vim_visual startLine startColumn endLine endColumn
  | ToolBufferSwitch identifier => vim_buffer_switch identifier
  | ToolBufferSave filename => vim_buffer_save filename
  | ToolFileOpen filename => vim_file_open filename
  | ToolSearch pattern ignoreCase wholeWord => vim_search pattern ignoreCase wholeWord
  | ToolSearchReplace pattern replacement global ignoreCase confirm =>
      vim_search_replace pattern replacement global ignoreCase confirm
  | ToolGrep pattern filePattern => vim_grep pattern filePattern
  | ToolHealth => vim_health
  | ToolMacro action register count => vim_macro action register count
  | ToolTab action filename => vim_tab action filename
  | ToolFold action startLine endLine => vim_fold action startLine endLine
  | ToolJump direction => vim_jump direction
  end.

(** What each tool does before its result is made into an answer, and the
    text its handler falls back on; the health check has no handler for
    errors. *)
Definition toolOperation (tool : Tool) : M St string :=
  match tool with
  | ToolBuffer filename =>
      bufferContents ← getBufferContents rpc attach filename;
      mret (formatEntries bufferContents)
  | ToolCommand command =>
      e ← processEnv;
      if Js.startsWith command "!" && negb (shellAllowed e)
      then mret shellDisabledMessage
      else sendCommand rpc attach command
  | ToolStatus =>
      status ← getNeovimStatus rpc attach;
      lift (stringifyStatus status)
  | ToolEdit startLine editMode lines => editLines rpc attach startLine editMode lines
  | ToolWindow command => manipulateWindow rpc attach command
  | ToolMark mark line column => setMark rpc attach mark line column
  | ToolRegister register content => setRegister rpc attach register content
  | ToolVisual startLine startColumn endLine endColumn =>
      visualSelect rpc attach startLine startColumn endLine endColumn
  | ToolBufferSwitch identifier => switchBuffer rpc attach identifier
  | ToolBufferSave filename => saveBuffer rpc attach filename
  | ToolFileOpen filename => openFile rpc attach filename
  | ToolSearch pattern ignoreCase wholeWord =>
      searchInBuffer rpc attach pattern
        {| ignoreCase := flag ignoreCase; wholeWord := flag wholeWord;
           global := false; confirm := false |}
  | ToolSearchReplace pattern replacement global ignoreCase confirm =>
      searchAndReplace rpc attach pattern replacement
        {| ignoreCase := flag ignoreCase; wholeWord := false;
           global := flag global; confirm := flag confirm |}
  | ToolGrep pattern filePattern =>
      grepInProject rpc attach pattern (default "**/*" filePattern)
  | ToolHealth =>
      healthCheck rpc attach ≫= fun isHealthy : bool =>
      mret (if isHealthy then "Neovim connection is healthy" else "Neovim connection failed")
  | ToolMacro action register count =>
      manageMacro rpc attach action register (default 1 count)
  | ToolTab action filename => manageTab rpc attach sameTabpage action filename
  | ToolFold action startLine endLine => manageFold rpc attach action startLine endLine
  | ToolJump direction => navigateJumpList rpc attach direction
  end.

Definition toolFallback (tool : Tool) : string :=
  match tool with
  | ToolBuffer _ => "Error getting buffer contents"
  | ToolCommand _ => "Error executing command"
  | ToolStatus => "Error getting Neovim status"
  | ToolEdit _ _ _ => "Error editing buffer"
  | ToolWindow _ => "Error manipulating window"
  | ToolMark _ _ _ => "Error setting mark"
  | ToolRegister _ _ => "Error setting register"
  | ToolVisual _ _ _ _ => "Error creating visual selection"
  | ToolBufferSwitch _ => "Error switching buffer"
  | ToolBufferSave _ => "Error saving buffer"
  | ToolFileOpen _ => "Error opening file"
  | ToolSearch _ _ _ => "Error searching in buffer"
  | ToolSearchReplace _ _ _ _ _ => "Error in search and replace"
  | ToolGrep _ _ => "Error in grep search"
  | ToolHealth => EmptyString
  | ToolMacro _ _ _ => "Error managing macro"
  | ToolTab _ _ => "Error managing tab"
  | ToolFold _ _ _ => "Error managing fold"
  | ToolJump _ => "Error navigating jump list"
  end.

(** *** findBufferByName and getGitStatus (the first listing of the class) *)

Fixpoint firstWithSuffix (filename : string) (buffers : list Buffer) : M St Buffer :=
  match buffers with
  | [] => throw (NeovimValidationError ("Buffer not found: " +:+ filename))
  | buffer :: rest =>
      name ← request rpc (BufferName buffer);
      if Js.endsWith name filename then mret buffer
      else firstWithSuffix filename rest
  end.

Definition findBufferByName (filename : string) : M St Buffer :=
  buffers ← request rpc Buffers;
  firstWithSuffix filename buffers.

Definition statusDescription (statusCode : string) : string :=
  if Js.includes "M" statusCode then "Modified"
  else if Js.includes "A" statusCode then "Added"
  else if Js.includes "D" statusCode then "Deleted"
  else if Js.includes "R" statusCode then "Renamed"
  else if Js.includes "C" statusCode then "Copied"
  else if Js.includes "U" statusCode then "Unmerged"
  else if Js.includes "?" statusCode then "Untracked"
  else "Unknown".

(** The text added to the result for one line of the porcelain output. *)
Definition gitStatusEntry (line : string) : string :=
  statusDescription (Js.substring line (Some 0) (Some (Some 2)))
    +:+ ": " +:+ Js.substring line (Some 3) None +:+ String Js.newline EmptyString.

Definition gitStatusReport (status : string) : string :=
  "Git Status:" +:+ String Js.newline (String Js.newline EmptyString)
    +:+ String.concat EmptyString
          (List.map gitStatusEntry
             (List.filter Js.nonEmpty (Js.split Js.newline status))).

Definition gitStatusExpr : string :=
  "system(" +:+ Js.dq +:+ "git status --porcelain 2>/dev/null" +:+ Js.dq +:+ ")".

Definition gitExecutableExpr : string :=
  "executable(" +:+ Js.dq +:+ "git" +:+ Js.dq +:+ ")".

(** What the status value gives: only a string has [trim] and [split]. *)
Definition gitStatusText (status : Value) : Completion string :=
  if negb (JsValue.truthy status) then Normal "Working tree clean"
  else
    match status with
    | VStr text =>
        if String.eqb (Js.trim text) EmptyString then Normal "Working tree clean"
        else Normal (gitStatusReport text)
    | _ => Throw (JsError "status.trim is not a function")
    end.

Definition getGitStatus : M St string :=
  tryCatch
    (connect attach;;
     hasGit ← request rpc (Eval gitExecutableExpr);
     if negb (JsValue.truthy hasGit) then mret "Git is not available"
     else
       status ← request rpc (Eval gitStatusExpr);
       shellError ← request rpc (Eval "v:shell_error");
       if negb (JsValue.strictEq (Some shellError) (Some (VNum 0)))
       then mret "Not a git repository or git not available"
       else lift (gitStatusText status))
    (fun _ => consoleError "Error getting git status:";; mret "Error getting git status").

End Tools.

(** ** String literals of the editor's expression language

    A literal string is written between single quotes and taken as it is;
    two single quotes stand for one.  A string between double quotes uses
    the backslash to escape; of its escapes only the double quote and the
    backslash are read here, any other makes the reading fail. *)

Module Vimscript.

Definition push (c : ascii) (r : option (string * string)) : option (string * string) :=
  match r with
  | Some (content, rest) => Some (String c content, rest)
  | None => None
  end.

(** The content of a literal string whose opening quote has been read, and
    what follows its closing quote. *)
Fixpoint literalBody (s : string) : option (string * string) :=
  match s with
  | EmptyString => None
  | String c rest =>
      if Ascii.eqb c "'" then
        match rest with
        | String d rest' =>
            if Ascii.eqb d "'" then push "'" (literalBody rest')
            else Some (EmptyString, rest)
        | EmptyString => Some (EmptyString, EmptyString)
        end
      else push c (literalBody rest)
  end.

Definition literalString (s : string) : option (string * string) :=
  match s with
  | String c body => if Ascii.eqb c "'" then literalBody body else None
  | EmptyString => None
  end.

Fixpoint stringBody (s : string) : option (string * string) :=
  match s with
  | EmptyString => None
  | String c rest =>
      if Ascii.eqb c "034" then Some (EmptyString, rest)
      else if Ascii.eqb c "092" then
        match rest with
        | String d rest' =>
            if Ascii.eqb d "034" || Ascii.eqb d "092" then push d (stringBody rest')
            else None
        | EmptyString => None
        end
      else push c (stringBody rest)
  end.

Definition doubleQuoted (s : string) : option (string * string) :=
  match s with
  | String c body => if Ascii.eqb c "034" then stringBody body else None
  | EmptyString => None
  end.



End Vimscript.

(** ** An editor that answers from a table

    Its replies do not depend on what was sent before. *)

Module Canned.

Definition rpc (answer : forall A : Type, Request A -> Reply A)
  : forall A : Type, Request A -> unit -> Reply A * unit :=
  fun A r st => (answer A r, st).

Definition world (e : ProcessEnv) : World unit :=
  {| env := e; remote := (); sockets := []; calls := []; console := [] |}.

Definition shellEnv : ProcessEnv :=
  {| NVIM_SOCKET_PATH := None; ALLOW_SHELL_COMMANDS := Some "true" |}.

(** The editor reports an error message after every command. *)
Definition complaining : forall A : Type, Request A -> Reply A := fun A r =>
  match r in Request T return Reply T with
  | SetVvar _ _ => Resolved ()
  | Call _ _ => Resolved (VStr EmptyString)
  | GetVvar _ => Resolved (VStr "E492: Not an editor command: bogus")
  | _ => Rejected "no reply"
  end.

(** The editor runs shell commands and prints a listing. *)
Definition listing : forall A : Type, Request A -> Reply A := fun A r =>
  match r in Request T return Reply T with
  | Eval _ => Resolved (VStr (" a.txt" +:+ String Js.newline EmptyString))
  | _ => Rejected "no reply"
  end.

(** Three buffers and what they are named. *)
Definition bufferNames : list (Z * string) :=
  [(1, "/src/main.ts"); (2, "/src/index.ts"); (3, "/test/index.ts")].

Definition threeBuffers : forall A : Type, Request A -> Reply A := fun A r =>
  match r in Request T return Reply T with
  | Buffers => Resolved (List.map (fun entry => {| bufferId := fst entry |}) bufferNames)
  | BufferName b =>
      match List.find (fun entry => fst entry =? bufferId b) bufferNames with
      | Some entry => Resolved (snd entry)
      | None => Rejected "Invalid buffer id"
      end
  | Command _ => Resolved ()
  | CurrentBuffer => Resolved {| bufferId := 1 |}
  | BufferLines b => Resolved [Js.ofZ (bufferId b)]
  | _ => Rejected "no reply"
  end.

Definition nameOf (b : Buffer) : string :=
  match List.find (fun entry => fst entry =? bufferId b) bufferNames with
  | Some entry => snd entry
  | None => EmptyString
  end.

(** The current buffer has no name. *)
Definition unnamed : forall A : Type, Request A -> Reply A := fun A r =>
  match r in Request T return Reply T with
  | CurrentBuffer => Resolved {| bufferId := 1 |}
  | BufferName _ => Resolved EmptyString
  | Command _ => Resolved ()
  | _ => Rejected "no reply"
  end.

(** Two windows on the same buffer; the second has no position. *)
Definition twoWindows (broken : bool) : forall A : Type, Request A -> Reply A := fun A r =>
  match r in Request T return Reply T with
  | Windows => Resolved [{| windowId := 1000 |}; {| windowId := 1001 |}]
  | WindowBuffer _ => Resolved {| bufferId := 1 |}
  | WindowWidth _ => Resolved 80
  | WindowHeight _ => Resolved 24
  | WindowPosition w =>
      if broken && (windowId w =? 1001) then Rejected "Invalid window id"
      else Resolved (0, windowId w - 1000)
  | _ => Rejected "no reply"
  end.

(** The editor counts three matches and accepts every command. *)
Definition threeMatches : forall A : Type, Request A -> Reply A := fun A r =>
  match r in Request T return Reply T with
  | Command _ => Resolved ()
  | Eval _ => Resolved (VObj [("total", VNum 3); ("incomplete", VNum 0)])
  | Input keys => Resolved (Z.of_nat (String.length keys))
  | _ => Rejected "no reply"
  end.

(** The editor runs git in a work tree with two changed files. *)
Definition repository : forall A : Type, Request A -> Reply A := fun A r =>
  match r in Request T return Reply T with
  | Eval expr =>
      if String.eqb expr gitExecutableExpr then Resolved (VNum 1)
      else if String.eqb expr gitStatusExpr
      then Resolved (VStr (" M src/index.ts" +:+ String Js.newline
                             ("?? notes.md" +:+ String Js.newline EmptyString)))
      else if String.eqb expr "v:shell_error" then Resolved (VNum 0)
      else Rejected "no reply"
  | _ => Rejected "no reply"
  end.

End Canned.

(** ** Vocabulary of the further properties *)

(** The validation errors that can leave [sendCommand] for a command that
    passed the guard. *)
Definition sendCommandFailure (e : Exn) : Prop :=
  isCommandError e = true
  \/ e = NeovimValidationError "Socket path cannot be empty"
  \/ e = NeovimValidationError "Shell command cannot be empty".

(** [m] makes no attach attempt and leaves the environment as it was. *)
Definition detached {St A : Type} (m : M St A) : Prop :=
  forall w, env (snd (m w)) = env w /\ sockets (snd (m w)) = sockets w.

(** [m] sends nothing: besides that, the editor and the record of calls are
    as they were. *)
Definition mute {St A : Type} (m : M St A) : Prop :=
  forall w, remote (snd (m w)) = remote w /\ calls (snd (m w)) = calls w.

(** The buffer names are read without effect and do not change. *)
Definition namesBuffers {St : Type} (rpc : forall A : Type, Request A -> St -> Reply A * St)
    (nameOf : Buffer -> string) (buffers : list Buffer) : Prop :=
  forall b st, In b buffers -> rpc string (BufferName b) st = (Resolved (nameOf b), st).

(** The first buffer of the list whose name ends with the file name. *)
Definition firstMatch (nameOf : Buffer -> string) (filename : string)
    (buffers : list Buffer) : option Buffer :=
  List.find (fun b => Js.endsWith (nameOf b) filename) buffers.

(** The requests among the calls. *)
Definition isCommand (call : AnyRequest) : bool :=
  match call with
  | Sent (Command _) => true
  | _ => false
  end.

(** No backslash in the string. *)
Fixpoint backslashFree (s : string) : bool :=
  match s with
  | EmptyString => true
  | String c s' => negb (Ascii.eqb c "092") && backslashFree s'
  end.


(** A register name that [setRegister] accepts: a lower-case letter or the
    double quote. *)
Definition registerName (register : string) : bool :=
  Js.matchesLowerLetter register || String.eqb register Js.dq.

(** The buffers whose names a lookup by name reads: up to the first one
    whose name ends with the file name. *)
Fixpoint examined (nameOf : Buffer -> string) (filename : string) (buffers : list Buffer)
  : list Buffer :=
  match buffers with
  | [] => []
  | b :: rest =>
      b :: (if Js.endsWith (nameOf b) filename then [] else examined nameOf filename rest)
  end.

(** The names of these buffers have been asked for. *)
Definition asked {St : Type} (w : World St) (buffers : list Buffer) : World St :=
  {| env := env w; remote := remote w; sockets := sockets w;
     calls := calls w ++ List.map (fun b => Sent (BufferName b)) buffers;
     console := console w |}.

(** [m] writes at most to the console. *)
Definition calm {St A : Type} (m : M St A) : Prop := mute m /\ detached m.

(** A failure of [connect] ends [m] at once, with the exception of
    [connect]. *)
Definition connectFirst {St A : Type} (attach : string -> option Exn) (m : M St A) : Prop :=
  forall w e, fst (connect attach w) = Throw e -> m w = (Throw e, snd (connect attach w)).

(** From [w], [m] does not reach the editor: nothing is sent, and with a
    blank socket path no attach is attempted. *)
Definition unreached {St A : Type} (w : World St) (m : M St A) : Prop :=
  remote (snd (m w)) = remote w
  /\ calls (snd (m w)) = calls w
  /\ env (snd (m w)) = env w
  /\ (Js.isBlank (socketPathOf (env w)) = true -> sockets (snd (m w)) = sockets w).

(** From [w], [m] attaches at most once, to the socket path of the
    environment, which it leaves as it was. *)
Definition oneAttach {St A : Type} (w : World St) (m : M St A) : Prop :=
  env (snd (m w)) = env w
  /\ (sockets (snd (m w)) = sockets w
      \/ sockets (snd (m w)) = sockets w ++ [socketPathOf (env w)]).

(** The actions each of the four managers knows. *)
Definition macroActions : list string := ["record"; "stop"; "play"].

Definition tabActions : list string :=
  ["new"; "close"; "next"; "prev"; "first"; "last"; "list"].

Definition foldActions : list string :=
  ["create"; "open"; "close"; "toggle"; "openall"; "closeall"; "delete"].

Definition jumpDirections : list string := ["back"; "forward"; "list"].


(** The content a status reports for a register. *)
Definition reportedRegister (r : Completion StatusResult) (register : string)
  : option string :=
  match r with
  | Normal (StatusObject status) => registers status !! register
  | _ => None
  end.

(** The editor answers the position of a lettered mark with an array of
    numbers, and the content of a register that the status reads with a
    string. *)
Definition numericPositions {St : Type}
    (rpc : forall A : Type, Request A -> St -> Reply A * St) : Prop :=
  forall mark st pos,
    In mark letters ->
    fst (rpc Value (Eval (getposExpr mark)) st) = Resolved pos ->
    exists ns, pos = VArr (VNum <$> ns).

Definition textRegisters {St : Type}
    (rpc : forall A : Type, Request A -> St -> Reply A * St) : Prop :=
  forall register st value,
    In register registerNames ->
    fst (rpc Value (Eval (getregExpr register)) st) = Resolved value ->
    exists text, value = VStr text.

(** The line and the column are those of a position the editor answered
    for the mark, both greater than zero. *)
Definition markAnswered {St : Type}
    (rpc : forall A : Type, Request A -> St -> Reply A * St)
    (mark : string) (line col : Value) : Prop :=
  exists ns l c,
    issued rpc (Eval (getposExpr mark)) (VArr (VNum <$> ns))
    /\ ns !! 1%nat = Some l /\ ns !! 2%nat = Some c
    /\ line = VNum l /\ col = VNum c /\ 0 < l /\ 0 < c.

(** The marks of a status are among the letters, each at a position the
    editor answered. *)
Definition marksSet {St : Type}
    (rpc : forall A : Type, Request A -> St -> Reply A * St)
    (marks : gmap string (Value * Value)) : Prop :=
  forall mark line col,
    marks !! mark = Some (line, col) ->
    In mark letters /\ markAnswered rpc mark line col.

(** The registers of a status are among the names read, each with the
    content the editor answered, which is not blank. *)
Definition registersFilled {St : Type}
    (rpc : forall A : Type, Request A -> St -> Reply A * St)
    (registers : gmap string string) : Prop :=
  forall register content,
    registers !! register = Some content ->
    In register registerNames
    /\ issued rpc (Eval (getregExpr register)) (VStr content)
    /\ Js.isBlank content = false.

(** A line of the porcelain output of git: two status characters, a space
    and a path. *)
Definition porcelainLine (entry : ascii * ascii * string) : string :=
  let '(x, y, path) := entry in String x (String y (String " " path)).

(** The porcelain output: each line ends with a newline. *)
Definition porcelain (entries : list (ascii * ascii * string)) : string :=
  String.concat EmptyString
    (List.map (fun entry => porcelainLine entry +:+ String Js.newline EmptyString) entries).

(** No newline among the status characters and in the path. *)
Definition oneLine (entry : ascii * ascii * string) : bool :=
  let '(x, y, path) := entry in
  negb (Ascii.eqb x Js.newline) && negb (Ascii.eqb y Js.newline)
  && negb (Nvim.hasNewline path).

(** The line of the report for an entry. *)
Definition reportLine (entry : ascii * ascii * string) : string :=
  let '(x, y, path) := entry in
  statusDescription (String x (String y EmptyString)) +:+ ": " +:+ path
    +:+ String Js.newline EmptyString.



(** ** Reasoning about bridge computations *)

Section Reasoning.

Context {St : Type}.
Variable rpc : forall A : Type, Request A -> St -> Reply A * St.
Variable attach : string -> option Exn.

Lemma bind_run {A B : Type} (m : M St A) (k : A -> M St B) (w : World St) :
  (m ≫= k) w =
  match m w with
  | (Normal a, w') => k a w'
  | (Throw e, w') => (Throw e, w')
  end.
Proof. reflexivity. Qed.

Lemma tryCatch_throw {A : Type} (body : M St A) (handler : Exn -> M St A)
    (w : World St) (e : Exn) :
  fst (body w) = Throw e -> tryCatch body handler w = handler e (snd (body w)).
Proof.
  unfold tryCatch. destruct (body w) as [[a | e'] w']; simpl; intros H.
  - discriminate.
  - congruence.
Qed.

Lemma request_resolved {A : Type} (r : Request A) (w : World St) (a : A) (st : St) :
  rpc A r (remote w) = (Resolved a, st) ->
  request rpc r w =
  (Normal a, {| env := env w; remote := st; sockets := sockets w;
                calls := calls w ++ [Sent r]; console := console w |}).
Proof.
  intros H. unfold request, send. rewrite H. reflexivity.
Qed.

Lemma raises_ret {A : Type} (a : A) (P : Exn -> Prop) : raises (mret a : M St A) P.
Proof. intros w. exact I. Qed.

Lemma raises_throw {A : Type} (e : Exn) (P : Exn -> Prop) :
  P e -> raises (throw e : M St A) P.
Proof. intros H w. exact H. Qed.

Lemma raises_bind {A B : Type} (m : M St A) (k : A -> M St B) (P : Exn -> Prop) :
  raises m P -> (forall a, raises (k a) P) -> raises (m ≫= k) P.
Proof.
  intros Hm Hk w. rewrite bind_run. specialize (Hm w).
  destruct (m w) as [[a | e] w']; simpl in *.
  - apply Hk.
  - exact Hm.
Qed.

Lemma raises_weaken {A : Type} (m : M St A) (P Q : Exn -> Prop) :
  raises m P -> (forall e, P e -> Q e) -> raises m Q.
Proof.
  intros Hm HPQ w. specialize (Hm w). destruct (fst (m w)); auto.
Qed.

(** Whatever the body throws, only what the handler throws escapes. *)
Lemma raises_tryCatch {A : Type} (body : M St A) (handler : Exn -> M St A)
    (P : Exn -> Prop) :
  (forall e, raises (handler e) P) -> raises (tryCatch body handler) P.
Proof.
  intros Hh w. unfold tryCatch.
  destruct (body w) as [[a | e] w']; simpl.
  - exact I.
  - apply Hh.
Qed.

Lemma raises_tryCatch_from {A : Type} (body : M St A) (handler : Exn -> M St A)
    (Q P : Exn -> Prop) :
  raises body Q -> (forall e, Q e -> raises (handler e) P) ->
  raises (tryCatch body handler) P.
Proof.
  intros Hb Hh w. unfold tryCatch. specialize (Hb w).
  destruct (body w) as [[a | e] w']; simpl in *.
  - exact I.
  - apply Hh, Hb.
Qed.

Lemma raises_request {A : Type} (r : Request A) (P : Exn -> Prop) :
  (forall message, P (JsError message)) -> raises (request rpc r) P.
Proof.
  intros HP w. unfold request, send.
  destruct (rpc A r (remote w)) as [[a | message] st]; simpl; auto.
Qed.

Lemma raises_fire {A : Type} (r : Request A) (P : Exn -> Prop) : raises (fire rpc r) P.
Proof. intros w. exact I. Qed.

Lemma raises_consoleError (label : string) (P : Exn -> Prop) :
  raises (consoleError label : M St unit) P.
Proof. intros w. exact I. Qed.

Lemma raises_processEnv (P : Exn -> Prop) : raises (processEnv : M St ProcessEnv) P.
Proof. intros w. exact I. Qed.

Lemma raises_if {A : Type} (b : bool) (m1 m2 : M St A) (P : Exn -> Prop) :
  raises m1 P -> raises m2 P -> raises (if b then m1 else m2) P.
Proof. destruct b; auto. Qed.

Lemma raises_lift {A : Type} (c : Completion A) (P : Exn -> Prop) :
  (forall e, c = Throw e -> P e) -> raises (lift c : M St A) P.
Proof. intros H w. unfold lift. simpl. destruct c; auto. Qed.

End Reasoning.

Ltac escape :=
  repeat first
    [ apply raises_ret
    | apply raises_consoleError
    | apply raises_processEnv
    | apply raises_fire
    | apply raises_throw; reflexivity
    | apply raises_request; intros; reflexivity
    | apply raises_bind; [ | intros ]
    | apply raises_if ].

Ltac handled :=
  apply raises_tryCatch;
  let e := fresh "e" in intros e; destruct e; simpl; escape.

(** ** The error taxonomy at the boundary of the bridge *)

Section Taxonomy.

Context {St : Type}.
Variable rpc : forall A : Type, Request A -> St -> Reply A * St.
Variable attach : string -> option Exn.
Variable sameTabpage : Tabpage -> Tabpage -> bool.

Lemma connect_classified :
  raises (connect attach : M St unit) (fun e => classified e = true).
Proof.
  unfold connect, validateSocketPath. escape. handled.
Qed.

Lemma discard_classified {A : Type} (m : M St A) :
  raises m (fun e => classified e = true) ->
  raises (discard m) (fun e => classified e = true).
Proof.
  intros H. unfold discard.
  apply raises_bind; [exact H | intros; apply raises_ret].
Qed.

Lemma perform_classified (op : Operation) :
  raises (perform rpc attach sameTabpage op) (fun e => classified e = true).
Proof.
  destruct op; simpl; try apply discard_classified.
  - apply connect_classified.
  - unfold healthCheck. handled.
  - unfold getBufferContents. handled.
  - unfold sendCommand. escape. handled.
  - unfold getNeovimStatus. handled.
  - unfold editLines. handled.
  - unfold manipulateWindow. escape. handled.
  - unfold setMark. escape. handled.
  - unfold setRegister. escape. handled.
  - unfold visualSelect. handled.
  - unfold switchBuffer. handled.
  - unfold saveBuffer. handled.
  - unfold openFile. escape. handled.
  - unfold searchInBuffer. escape. handled.
  - unfold searchAndReplace. escape. handled.
  - unfold getWindows. handled.
  - unfold grepInProject. escape. handled.
  - unfold getOpenBuffers. handled.
  - unfold manageMacro. handled.
  - unfold manageTab. handled.
  - unfold manageFold. handled.
  - unfold navigateJumpList. handled.
Qed.

(** C2, amended: no exception outside the three kinds escapes an operation;
    [sendCommand] lets a command or validation error through unchanged and
    wraps every other exception, a connection error included, as a command
    error carrying the command text; [editLines] lets nothing through and
    answers with the text "Error editing lines". *)
Theorem operations_boundary :
  (forall op, raises (perform rpc attach sameTabpage op) (fun e => classified e = true))
  /\ (forall command w e,
        Js.isBlank command = false ->
        fst (sendCommand_try rpc attach command w) = Throw e ->
        fst (sendCommand rpc attach command w) =
        Throw (if isCommandError e || isValidationError e then e
               else NeovimCommandError command (errorMessage "Unknown error" e)))
  /\ (forall startLine editMode newText w e,
        fst (editLines_try rpc attach startLine editMode newText w) = Throw e ->
        fst (editLines rpc attach startLine editMode newText w) = Normal "Error editing lines").
Proof.
  split; [| split].
  - intros op. apply perform_classified.
  - intros command w e Hblank Hthrow. unfold sendCommand. rewrite Hblank.
    rewrite (tryCatch_throw _ _ w e Hthrow).
    destruct (isCommandError e || isValidationError e); reflexivity.
  - intros startLine editMode newText w e Hthrow. unfold editLines.
    rewrite (tryCatch_throw _ _ w e Hthrow). reflexivity.
Qed.

End Taxonomy.

Lemma operations_boundary_witness :
  fst (sendCommand Nvim.rpc Nvim.attach "ls" blankSocketWorld) =
  Throw (NeovimValidationError "Socket path cannot be empty")
  /\ fst (editLines Nvim.rpc Nvim.attach 8 insert "z" plainWorld) =
     Normal "Error editing lines".
Proof.
  destruct (operations_boundary Nvim.rpc Nvim.attach (fun _ _ => false))
    as [_ [Hsend Hedit]].
  split.
  - exact (Hsend "ls" blankSocketWorld
             (NeovimValidationError "Socket path cannot be empty") eq_refl eq_refl).
  - exact (Hedit 8 insert "z" plainWorld (JsError "Index out of bounds") eq_refl).
Defined.

(** C2 as stated fails: inserting at line 8 of the four-line buffer makes
    the editor reject the call with "Index out of bounds"; [editLines]
    neither re-raises that exception nor wraps it as a command error, it
    answers with the text "Error editing lines". *)
Lemma boundary_not_normalized :
  fst (editLines_try Nvim.rpc Nvim.attach 8 insert "z" plainWorld) =
  Throw (JsError "Index out of bounds")
  /\ fst (editLines Nvim.rpc Nvim.attach 8 insert "z" plainWorld) =
     Normal "Error editing lines"
  /\ ~ exists context,
         normalizedBoundary (editLines_try Nvim.rpc Nvim.attach 8 insert "z")
           (editLines Nvim.rpc Nvim.attach 8 insert "z") context.
Proof.
  split; [reflexivity | split; [reflexivity |]].
  intros [context H].
  specialize (H plainWorld (JsError "Index out of bounds") eq_refl).
  vm_compute in H. discriminate H.
Qed.

(** ** connect *)

(** C3, amended: a configured socket path made only of white space makes
    [connect] fail with a validation error before any attach attempt; an
    unset or empty path falls back to the default path; when attaching
    throws, [connect] fails with a connection error that carries the path
    and the cause. *)
Theorem connect_failures {St : Type} (attach : string -> option Exn) (w : World St) :
  (NVIM_SOCKET_PATH (env w) = None \/ NVIM_SOCKET_PATH (env w) = Some EmptyString ->
   socketPathOf (env w) = defaultSocketPath)
  /\ (Js.isBlank (socketPathOf (env w)) = true ->
      connect attach w = (Throw (NeovimValidationError "Socket path cannot be empty"), w))
  /\ (forall cause,
        Js.isBlank (socketPathOf (env w)) = false ->
        attach (socketPathOf (env w)) = Some cause ->
        fst (connect attach w) = Throw (NeovimConnectionError (socketPathOf (env w)) cause)
        /\ sockets (snd (connect attach w)) = sockets w ++ [socketPathOf (env w)]).
Proof.
  split; [| split].
  - unfold socketPathOf. intros [H | H]; rewrite H; reflexivity.
  - intros Hblank. unfold connect. rewrite bind_run. simpl.
    unfold validateSocketPath. rewrite bind_run, Hblank. reflexivity.
  - intros cause Hblank Hattach. unfold connect. rewrite bind_run. simpl.
    unfold validateSocketPath. rewrite bind_run, Hblank. simpl.
    unfold tryCatch, attachSocket. rewrite Hattach. simpl. split; reflexivity.
Qed.

Lemma connect_failures_witness :
  socketPathOf (env plainWorld) = defaultSocketPath
  /\ connect Nvim.attach blankSocketWorld =
     (Throw (NeovimValidationError "Socket path cannot be empty"), blankSocketWorld)
  /\ fst (connect Nvim.unreachable plainWorld) =
     Throw (NeovimConnectionError "/tmp/nvim" (JsError "connect ENOENT /tmp/nvim")).
Proof.
  split; [| split].
  - apply (connect_failures Nvim.attach plainWorld). left. reflexivity.
  - apply (connect_failures Nvim.attach blankSocketWorld). reflexivity.
  - destruct (connect_failures Nvim.unreachable plainWorld) as [_ [_ H]].
    exact (proj1 (H (JsError "connect ENOENT /tmp/nvim") eq_refl eq_refl)).
Defined.

(** C3 as stated fails: with a socket path of three spaces [connect] fails,
    but not with a connection error; with an empty path it does not fail. *)
Lemma connect_blank_path_not_connection_error :
  Js.trim "   " = EmptyString
  /\ (forall socketPath cause,
        fst (connect Nvim.attach blankSocketWorld) <>
        Throw (NeovimConnectionError socketPath cause))
  /\ fst (connect Nvim.attach
            (Nvim.world {| NVIM_SOCKET_PATH := Some EmptyString;
                           ALLOW_SHELL_COMMANDS := None |} Nvim.sample)) = Normal ().
Proof.
  split; [reflexivity | split].
  - intros socketPath cause H. vm_compute in H. discriminate H.
  - reflexivity.
Qed.

(** ** setMark *)

(** C4, amended: for every mark name that does not match [a-z], [setMark]
    returns the text "Invalid mark name (must be a-z)" as a normal result and
    leaves the world as it was: no attach attempt, no remote call. *)
Theorem setMark_invalid_name {St : Type}
    (rpc : forall A : Type, Request A -> St -> Reply A * St)
    (attach : string -> option Exn) (mark : string) (line col : Z) (w : World St) :
  Js.matchesLowerLetter mark = false ->
  setMark rpc attach mark line col w = (Normal invalidMarkMessage, w).
Proof.
  intros H. unfold setMark. rewrite H. reflexivity.
Qed.

Lemma setMark_invalid_name_witness :
  setMark Nvim.rpc Nvim.attach "1" 3 2 plainWorld =
  (Normal "Invalid mark name (must be a-z)", plainWorld).
Proof.
  apply (setMark_invalid_name Nvim.rpc Nvim.attach "1" 3 2 plainWorld). reflexivity.
Defined.

(** C4 as stated fails: for the mark name "1", [setMark] does not fail with
    a validation error, it completes normally. *)
Lemma setMark_invalid_name_not_raised :
  Js.matchesLowerLetter "1" = false
  /\ forall message,
       fst (setMark Nvim.rpc Nvim.attach "1" 3 2 plainWorld) <>
       Throw (NeovimValidationError message).
Proof.
  split; [reflexivity |].
  intros message H. vm_compute in H. discriminate H.
Qed.

(** ** The connection step *)

Lemma connect_cases {St : Type} (attach : string -> option Exn) (w : World St) :
  (Js.isBlank (socketPathOf (env w)) = true
   /\ connect attach w = (Throw (NeovimValidationError "Socket path cannot be empty"), w))
  \/ (Js.isBlank (socketPathOf (env w)) = false
      /\ exists w', untouched w w'
           /\ (connect attach w = (Normal (), w')
               \/ exists cause,
                    connect attach w =
                    (Throw (NeovimConnectionError (socketPathOf (env w)) cause), w'))).
Proof.
  unfold connect. rewrite bind_run. simpl. unfold validateSocketPath.
  rewrite bind_run. destruct (Js.isBlank (socketPathOf (env w))) eqn:Hblank; simpl.
  - left. split; reflexivity.
  - right. split; [reflexivity |].
    unfold tryCatch, attachSocket.
    destruct (attach (socketPathOf (env w))) as [cause |]; simpl.
    + eexists. split; [| right; exists cause; reflexivity].
      repeat split.
    + eexists. split; [| left; reflexivity].
      repeat split.
Qed.

(** ** White space *)

Lemma hasInk_rev_app (s acc : string) :
  hasInk (String.rev_app s acc) = hasInk s || hasInk acc.
Proof.
  revert acc. induction s as [| c s IH]; intros acc; simpl.
  - reflexivity.
  - rewrite IH. simpl.
    destruct (Js.isWhiteSpace c), (hasInk s), (hasInk acc); reflexivity.
Qed.

Lemma hasInk_rev (s : string) : hasInk (String.rev s) = hasInk s.
Proof.
  unfold String.rev. rewrite hasInk_rev_app. simpl. apply orb_false_r.
Qed.

Lemma hasInk_trimStart (s : string) : hasInk (Js.trimStart s) = hasInk s.
Proof.
  induction s as [| c s IH]; simpl.
  - reflexivity.
  - destruct (Js.isWhiteSpace c) eqn:Hc; simpl.
    + exact IH.
    + rewrite Hc. reflexivity.
Qed.

Lemma hasInk_trim (s : string) : hasInk (Js.trim s) = hasInk s.
Proof.
  unfold Js.trim, Js.trimEnd.
  rewrite hasInk_rev, hasInk_trimStart, hasInk_rev. apply hasInk_trimStart.
Qed.

Lemma hasInk_not_blank (s : string) : hasInk s = true -> Js.isBlank s = false.
Proof.
  intros H. unfold Js.isBlank.
  assert (Hs : Js.nonEmpty s = true) by (destruct s; [discriminate | reflexivity]).
  rewrite Hs. simpl.
  rewrite <- hasInk_trim in H. destruct (Js.trim s); [discriminate | reflexivity].
Qed.

Lemma prefix_head (c d : ascii) (s : string) :
  String.prefix (String c EmptyString) (String d s) = true -> d = c.
Proof.
  simpl. destruct (ascii_dec c d) as [Heq | Hne]; [congruence | discriminate].
Qed.

Lemma shell_command_not_blank (command : string) :
  Js.startsWith (normalizeCommand command) "!" = true -> Js.isBlank command = false.
Proof.
  intros H. apply hasInk_not_blank.
  destruct command as [| c s]; [discriminate H |].
  unfold normalizeCommand in H.
  destruct (Js.startsWith (String c s) ":") eqn:Hcolon.
  - apply prefix_head in Hcolon. subst c. reflexivity.
  - apply prefix_head in H. subst c. reflexivity.
Qed.

(** ** The shell gate of sendCommand *)

Section ShellGate.

Context {St : Type}.
Variable rpc : forall A : Type, Request A -> St -> Reply A * St.
Variable attach : string -> option Exn.

(** C5, amended: with the flag off, [sendCommand] on a command that starts
    with "!" (after one leading colon is dropped) sends nothing to the
    editor and leaves its state as it was; once the connection step has
    succeeded it returns the disabled message; and the vim_command tool
    answers a command starting with "!" with the disabled message before it
    calls the bridge at all. *)
Theorem shell_gate (command : string) (w : World St) :
  shellAllowed (env w) = false ->
  Js.startsWith (normalizeCommand command) "!" = true ->
  untouched w (snd (sendCommand rpc attach command w))
  /\ (fst (connect attach w) = Normal () ->
      fst (sendCommand rpc attach command w) = Normal shellDisabledMessage)
  /\ (Js.startsWith command "!" = true ->
      vim_command rpc attach command w = (Normal shellDisabledMessage, w)).
Proof.
  intros Hflag Hbang.
  pose proof (shell_command_not_blank command Hbang) as Hblank.
  assert (Hsend :
    untouched w (snd (sendCommand rpc attach command w))
    /\ (fst (connect attach w) = Normal () ->
        fst (sendCommand rpc attach command w) = Normal shellDisabledMessage)).
  { unfold sendCommand. rewrite Hblank. unfold tryCatch, sendCommand_try.
    rewrite bind_run.
    destruct (connect_cases attach w) as [[_ Hc] | [_ [w' [Hw' [Hc | [cause Hc]]]]]];
      rewrite Hc; simpl.
    - split; [repeat split | discriminate].
    - rewrite Hbang. rewrite bind_run. simpl.
      destruct Hw' as [Henv Hw']. rewrite Henv, Hflag. simpl.
      split; [split; assumption | reflexivity].
    - split; [| discriminate].
      destruct Hw' as [Henv [Hremote Hcalls]]. repeat split; assumption. }
  destruct Hsend as [Hquiet Hmessage].
  split; [exact Hquiet | split; [exact Hmessage |]].
  intros Hprefix. unfold vim_command, tryCatch. rewrite bind_run. simpl.
  rewrite Hprefix, Hflag. reflexivity.
Qed.

End ShellGate.

Lemma shell_gate_witness :
  untouched plainWorld (snd (sendCommand Nvim.rpc Nvim.attach "!ls" plainWorld))
  /\ fst (sendCommand Nvim.rpc Nvim.attach "!ls" plainWorld) = Normal shellDisabledMessage
  /\ vim_command Nvim.rpc Nvim.attach "!ls" plainWorld = (Normal shellDisabledMessage, plainWorld).
Proof.
  destruct (shell_gate Nvim.rpc Nvim.attach "!ls" plainWorld eq_refl eq_refl)
    as [Hquiet [Hmessage Htool]].
  split; [exact Hquiet | split].
  - apply Hmessage. reflexivity.
  - apply Htool. reflexivity.
Defined.

(** C5 as stated fails: with the flag off and a socket path of three
    spaces, [sendCommand] on "!ls" does not return the disabled message, it
    fails with the validation error of the connection step. *)
Lemma shell_gate_needs_connection :
  shellAllowed (env blankSocketWorld) = false
  /\ Js.startsWith "!ls" "!" = true
  /\ fst (sendCommand Nvim.rpc Nvim.attach "!ls" blankSocketWorld) =
     Throw (NeovimValidationError "Socket path cannot be empty")
  /\ fst (sendCommand Nvim.rpc Nvim.attach "!ls" blankSocketWorld) <>
     Normal shellDisabledMessage.
Proof.
  repeat split; try reflexivity.
  intros H. vm_compute in H. discriminate H.
Qed.

(** ** getBufferContents *)

Section BufferContents.

Context {St : Type}.
Variable rpc : forall A : Type, Request A -> St -> Reply A * St.
Variable attach : string -> option Exn.

Lemma connect_raises :
  raises (connect attach : M St unit)
    (fun e => e = NeovimValidationError "Socket path cannot be empty"
              \/ isValidationError e = false).
Proof.
  intros w.
  destruct (connect_cases attach w) as [[_ Hc] | [_ [w' [_ [Hc | [cause Hc]]]]]];
    rewrite Hc; simpl; auto.
Qed.

Lemma findBuffer_raises (filename : string) (buffers : list Buffer) :
  raises (findBuffer rpc filename buffers) (fun e => isValidationError e = false).
Proof.
  induction buffers as [| buf rest IH]; simpl.
  - apply raises_ret.
  - apply raises_bind.
    + apply raises_request. reflexivity.
    + intros bufName. apply raises_if; [apply raises_ret | exact IH].
Qed.

Lemma getBufferContents_try_raises (filename : option string) :
  raises (getBufferContents_try rpc attach filename)
    (fun e => isValidationError e = true -> contentsValidation filename e).
Proof.
  unfold getBufferContents_try.
  apply raises_bind.
  - eapply raises_weaken; [apply connect_raises |].
    intros e [He | He] Hv; [left; exact He | congruence].
  - intros _. apply raises_bind.
    + destruct (givenName filename) as [f |] eqn:Hname.
      * apply raises_bind; [apply raises_request; discriminate |].
        intros buffers. apply raises_bind.
        -- eapply raises_weaken; [apply findBuffer_raises |].
           intros e He Hv. congruence.
        -- intros [b |]; [apply raises_ret |].
           apply raises_throw. intros _. right. exists f. split; [exact Hname | reflexivity].
      * apply raises_request. discriminate.
    + intros buffer. apply raises_bind; [apply raises_request; discriminate |].
      intros lines. apply raises_ret.
Qed.

(** C10, amended: when the attempt fails with anything but a validation
    error (attaching throws, a remote call is rejected), [getBufferContents]
    returns the empty map; a validation error is re-raised, and there are two
    of them: the named buffer is not found, and the configured socket path is
    blank. *)
Theorem getBufferContents_failures (filename : option string) :
  (forall w e,
     fst (getBufferContents_try rpc attach filename w) = Throw e ->
     isValidationError e = false ->
     fst (getBufferContents rpc attach filename w) = Normal [])
  /\ raises (getBufferContents rpc attach filename) (contentsValidation filename)
  /\ (forall w,
        Js.isBlank (socketPathOf (env w)) = true ->
        fst (getBufferContents rpc attach filename w) =
        Throw (NeovimValidationError "Socket path cannot be empty")).
Proof.
  split; [| split].
  - intros w e Hthrow Hkind. unfold getBufferContents.
    rewrite (tryCatch_throw _ _ w e Hthrow), Hkind. reflexivity.
  - unfold getBufferContents.
    eapply raises_tryCatch_from; [apply getBufferContents_try_raises |].
    intros e He. simpl.
    destruct (isValidationError e) eqn:Hkind.
    + apply raises_throw. apply He. exact Hkind.
    + escape.
  - intros w Hblank. unfold getBufferContents, tryCatch, getBufferContents_try.
    rewrite bind_run.
    destruct (connect_cases attach w) as [[_ Hc] | [Hc _]]; [| congruence].
    rewrite Hc. reflexivity.
Qed.

End BufferContents.

Lemma getBufferContents_failures_witness :
  fst (getBufferContents Nvim.rpc Nvim.unreachable None plainWorld) = Normal []
  /\ fst (getBufferContents Nvim.rpc Nvim.attach (Some "other.txt") blankSocketWorld) =
     Throw (NeovimValidationError "Socket path cannot be empty").
Proof.
  destruct (getBufferContents_failures Nvim.rpc Nvim.unreachable None) as [Hempty _].
  destruct (getBufferContents_failures Nvim.rpc Nvim.attach (Some "other.txt"))
    as [_ [_ Hblank]].
  split.
  - exact (Hempty plainWorld
             (NeovimConnectionError "/tmp/nvim" (JsError "connect ENOENT /tmp/nvim"))
             eq_refl eq_refl).
  - exact (Hblank blankSocketWorld eq_refl).
Defined.

(** C10 as stated fails: with a socket path of three spaces and no file
    name given, the connection cannot be established and [getBufferContents]
    raises a validation error instead of returning the empty map. *)
Lemma getBufferContents_blank_socket_raises :
  fst (getBufferContents Nvim.rpc Nvim.attach None blankSocketWorld) =
  Throw (NeovimValidationError "Socket path cannot be empty")
  /\ fst (getBufferContents Nvim.rpc Nvim.attach None blankSocketWorld) <> Normal [].
Proof.
  split; [reflexivity |].
  intros H. vm_compute in H. discriminate H.
Qed.

(** ** searchInBuffer *)

Section Search.

Context {St : Type}.
Variable rpc : forall A : Type, Request A -> St -> Reply A * St.
Variable attach : string -> option Exn.

(** C8, amended: for every pattern with a character that is not white
    space, once the connection step and the ignorecase command have
    succeeded and the editor's match count reports a total of 0,
    [searchInBuffer] returns the text "No matches found for: " followed by
    the pattern, as a normal result. *)
Theorem searchInBuffer_no_match (pattern : string) (options : SearchOptions)
    (w : World St) (st1 st2 : St) (matchInfo : Value) :
  Js.isBlank pattern = false ->
  fst (connect attach w) = Normal () ->
  rpc unit (Command (if ignoreCase options then "set ignorecase" else "set noignorecase"))
    (remote w) = (Resolved (), st1) ->
  rpc Value (Eval (searchcountExpr (searchPatternOf pattern options))) st1
    = (Resolved matchInfo, st2) ->
  JsValue.get matchInfo "total" = Normal (Some (VNum 0)) ->
  fst (searchInBuffer rpc attach pattern options w) = Normal (noMatchesMessage pattern).
Proof.
  intros Hblank Hconnect Hset Hcount Htotal.
  unfold searchInBuffer. rewrite Hblank. unfold tryCatch, searchInBuffer_try.
  rewrite bind_run.
  destruct (connect_cases attach w) as [[_ Hc] | [_ [w' [Hw' [Hc | [cause Hc]]]]]];
    rewrite Hc in Hconnect |- *; simpl in Hconnect; try discriminate.
  destruct Hw' as [_ [Hremote _]].
  rewrite bind_run.
  assert (Hcmd : exists w1,
    (if ignoreCase options then request rpc (Command "set ignorecase")
     else request rpc (Command "set noignorecase")) w' = (Normal (), w1)
    /\ remote w1 = st1).
  { rewrite <- Hremote in Hset.
    destruct (ignoreCase options);
      rewrite (request_resolved rpc _ w' () st1 Hset); eexists; split; reflexivity. }
  destruct Hcmd as [w1 [Hcmd Hst1]]. rewrite Hcmd.
  rewrite bind_run. rewrite <- Hst1 in Hcount.
  rewrite (request_resolved rpc _ w1 matchInfo st2 Hcount).
  rewrite bind_run. unfold lift. rewrite Htotal. reflexivity.
Qed.

End Search.

Lemma searchInBuffer_no_match_witness :
  fst (searchInBuffer Nvim.rpc Nvim.attach "zebra" noOptions plainWorld) =
  Normal "No matches found for: zebra".
Proof.
  apply (searchInBuffer_no_match Nvim.rpc Nvim.attach "zebra" noOptions plainWorld
           (Nvim.withIgnorecase Nvim.sample false) (Nvim.withIgnorecase Nvim.sample false)
           (Nvim.searchcount (Nvim.withIgnorecase Nvim.sample false) "zebra"));
    reflexivity.
Defined.

(** C8 as stated fails: the pattern of one space is not empty, the editor
    would count no match for it, and [searchInBuffer] raises a validation
    error. *)
Lemma searchInBuffer_blank_pattern_raises :
  " " <> EmptyString
  /\ Nvim.totalMatches Nvim.sample " " = 0%nat
  /\ fst (searchInBuffer Nvim.rpc Nvim.attach " " noOptions plainWorld) =
     Throw (NeovimValidationError "Search pattern cannot be empty").
Proof.
  repeat split; try reflexivity. discriminate.
Qed.

(** ** searchAndReplace *)


Section Substitute.

Context {St : Type}.
Variable rpc : forall A : Type, Request A -> St -> Reply A * St.
Variable attach : string -> option Exn.



End Substitute.

(** *** The substitute command on the model of the editor *)





Lemma split_slashFree (s : string) : slashFree s = true -> Js.split "/" s = [s].
Proof.
  induction s as [| c s IH]; simpl; [reflexivity |].
  intros H. apply andb_true_iff in H. destruct H as [Hc Hs].
  apply negb_true_iff in Hc. rewrite Hc, (IH Hs). reflexivity.
Qed.




Lemma connect_on_model (s : Nvim.State) (e : ProcessEnv) (log : list AnyRequest)
    (socks out : list string) :
  Js.isBlank (socketPathOf e) = false ->
  connect Nvim.attach
    {| env := e; remote := s; sockets := socks; calls := log; console := out |} =
  (Normal (),
   {| env := e; remote := s; sockets := socks ++ [socketPathOf e]; calls := log;
      console := out |}).
Proof.
  intros Hblank. unfold connect. rewrite bind_run. simpl.
  unfold validateSocketPath. rewrite bind_run, Hblank. reflexivity.
Qed.

(** *** Reading the command back *)

Lemma append_nil (s : string) : EmptyString +:+ s = s.
Proof. reflexivity. Qed.

Lemma append_cons (c : ascii) (s t : string) : String c s +:+ t = String c (s +:+ t).
Proof. reflexivity. Qed.

Lemma append_assoc (a b c : string) : (a +:+ b) +:+ c = a +:+ (b +:+ c).
Proof.
  induction a as [| x a IH]; [reflexivity |].
  rewrite !append_cons, IH. reflexivity.
Qed.

Lemma append_empty (a : string) : a +:+ EmptyString = a.
Proof.
  induction a as [| x a IH]; [reflexivity |].
  rewrite append_cons, IH. reflexivity.
Qed.

Ltac appended := repeat (rewrite append_cons || rewrite append_nil).



(** *** What the command does, on the model of the editor *)

















(** ** getNeovimStatus *)

Section Status.

Context {St : Type}.
Variable rpc : forall A : Type, Request A -> St -> Reply A * St.
Variable attach : string -> option Exn.

Lemma ensures_ret {A : Type} (a : A) (Q : A -> Prop) : Q a -> ensures (mret a : M St A) Q.
Proof. intros H w. exact H. Qed.

Lemma ensures_bind {A B : Type} (m : M St A) (k : A -> M St B) (Q : B -> Prop) :
  (forall a, ensures (k a) Q) -> ensures (m ≫= k) Q.
Proof.
  intros Hk w. rewrite bind_run.
  destruct (m w) as [[a | e] w']; simpl.
  - apply Hk.
  - exact I.
Qed.

Lemma ensures_trivial {A : Type} (m : M St A) : ensures m (fun _ => True).
Proof. intros w. destruct (fst (m w)); exact I. Qed.

Lemma returns_ret {A : Type} (a : A) (Q : A -> Prop) : Q a -> returns (mret a : M St A) Q.
Proof. intros H w. exact H. Qed.

Lemma returns_bind {A B : Type} (m : M St A) (k : A -> M St B)
    (P : A -> Prop) (Q : B -> Prop) :
  returns m P -> (forall a, P a -> returns (k a) Q) -> returns (m ≫= k) Q.
Proof.
  intros Hm Hk w. rewrite bind_run. specialize (Hm w).
  destruct (m w) as [[a | e] w']; simpl in *.
  - apply Hk, Hm.
  - exact Hm.
Qed.

Lemma returns_weaken {A : Type} (m : M St A) (P Q : A -> Prop) :
  returns m P -> (forall a, P a -> Q a) -> returns m Q.
Proof.
  intros Hm HPQ w. specialize (Hm w). destruct (fst (m w)); auto.
Qed.

Lemma returns_request {A : Type} (r : Request A) :
  answers rpc r -> returns (request rpc r) (issued rpc r).
Proof.
  intros Ha w. unfold request, send.
  destruct (rpc A r (remote w)) as [[a | message] st] eqn:H; simpl.
  - exists (remote w). rewrite H. reflexivity.
  - destruct (Ha (remote w)) as [a Ha']. rewrite H in Ha'. discriminate.
Qed.

(** A try block whose handler returns cannot fail. *)
Lemma returns_tryCatch {A : Type} (body : M St A) (handler : Exn -> M St A)
    (Q : A -> Prop) :
  ensures body Q -> (forall e, returns (handler e) Q) -> returns (tryCatch body handler) Q.
Proof.
  intros Hb Hh w. unfold tryCatch. specialize (Hb w).
  destruct (body w) as [[a | e] w']; simpl in *.
  - exact Hb.
  - apply Hh.
Qed.

Lemma rejected_never_completes {A B : Type} (r : Request A) (k : A -> M St B) :
  rejects rpc r -> ensures (request rpc r ≫= k) (fun _ => False).
Proof.
  intros Hr w. rewrite bind_run. unfold request, send.
  destruct (Hr (remote w)) as [message Hm].
  destruct (rpc A r (remote w)) as [[a | message'] st]; simpl in *.
  - discriminate.
  - exact I.
Qed.

Lemma readMarks_returns (names : list string) (found : gmap string (Value * Value)) :
  returns (readMarks rpc names found) (fun _ => True).
Proof.
  revert found. induction names as [| mark rest IH]; intros found; simpl.
  - apply returns_ret. exact I.
  - eapply returns_bind; [| intros a _; apply IH].
    apply returns_tryCatch; [apply ensures_trivial |].
    intros e. apply returns_ret. exact I.
Qed.

Lemma readRegisters_returns (names : list string) (found : gmap string string) :
  returns (readRegisters rpc names found) (fun _ => True).
Proof.
  revert found. induction names as [| reg rest IH]; intros found; simpl.
  - apply returns_ret. exact I.
  - eapply returns_bind; [| intros a _; apply IH].
    apply returns_tryCatch; [apply ensures_trivial |].
    intros e. apply returns_ret. exact I.
Qed.

Lemma lspInfo_returns :
  returns (tryCatch (lspLookup rpc) (fun _ => mret lspUnavailable))
    (fun info => rejects rpc (Eval lspClientsExpr) -> info = lspUnavailable).
Proof.
  intros w. unfold tryCatch.
  pose proof (fun H => rejected_never_completes (Eval lspClientsExpr)
    (fun lspClients =>
       match lspClients with
       | VArr (client :: rest) =>
           names ← lift (clientNames (client :: rest));
           mret ("Active LSP clients: " +:+ String.concat ", " names)
       | _ => mret "No active LSP clients"
       end) H w) as Hnever.
  change (request rpc (Eval lspClientsExpr) ≫= _) with (lspLookup rpc) in Hnever.
  destruct (lspLookup rpc w) as [[info | e] w']; simpl in *.
  - intros Hr. destruct (Hnever Hr).
  - intros _. reflexivity.
Qed.

Lemma pluginInfo_returns :
  returns (tryCatch (pluginLookup rpc) (fun _ => mret pluginUnavailable))
    (fun info =>
       forall n, In n probedNames -> rejects rpc (Eval (existsExpr n)) ->
                 info = pluginUnavailable).
Proof.
  intros w. unfold tryCatch.
  assert (Hnever : forall n, In n probedNames -> rejects rpc (Eval (existsExpr n)) ->
                             ensures (pluginLookup rpc) (fun _ => False)).
  { intros n Hin Hr. unfold pluginLookup.
    destruct Hin as [<- | [<- | [<- | [<- | []]]]].
    - apply rejected_never_completes, Hr.
    - apply ensures_bind. intros a1. apply rejected_never_completes, Hr.
    - apply ensures_bind. intros a1. apply ensures_bind. intros a2.
      apply rejected_never_completes, Hr.
    - apply ensures_bind. intros a1. apply ensures_bind. intros a2.
      apply ensures_bind. intros a3. apply rejected_never_completes, Hr. }
  destruct (pluginLookup rpc w) as [[info | e] w'] eqn:Hrun; simpl.
  - intros n Hin Hr. specialize (Hnever n Hin Hr w). rewrite Hrun in Hnever.
    destruct Hnever.
  - intros _ _ _. reflexivity.
Qed.

Lemma readVisualSelection_returns (s : NeovimStatus) :
  returns (readVisualSelection rpc s)
    (fun s' => lspInfo s' = lspInfo s /\ pluginInfo s' = pluginInfo s).
Proof.
  unfold readVisualSelection.
  apply returns_tryCatch.
  - apply ensures_bind. intros visualText. apply ensures_ret. split; reflexivity.
  - intros e. apply returns_tryCatch.
    + apply ensures_bind. intros [text |]; apply ensures_ret; split; reflexivity.
    + intros e'. apply returns_ret. split; reflexivity.
Qed.

Lemma getNeovimStatus_never_throws : raises (getNeovimStatus rpc attach) (fun _ => False).
Proof.
  unfold getNeovimStatus. apply raises_tryCatch. intros e.
  apply raises_bind; [apply raises_consoleError | intros; apply raises_ret].
Qed.

(** C7, amended: [getNeovimStatus] never raises; when the connection step
    succeeds and the lookups outside the inner try blocks are answered, it
    returns a status object whatever the LSP and plugin lookups do, and a
    rejected LSP lookup or plugin probe leaves its field at the
    "unavailable" text; when the connection step fails it returns the
    text "Error getting Neovim status" instead of a status object. *)
Theorem getNeovimStatus_degrades (w : World St) :
  (exists r, fst (getNeovimStatus rpc attach w) = Normal r)
  /\ (fst (connect attach w) <> Normal () ->
      fst (getNeovimStatus rpc attach w) = Normal (StatusText "Error getting Neovim status"))
  /\ (fst (connect attach w) = Normal () -> coreAnswers rpc ->
      exists s,
        fst (getNeovimStatus rpc attach w) = Normal (StatusObject s)
        /\ (rejects rpc (Eval lspClientsExpr) -> lspInfo s = lspUnavailable)
        /\ (forall n, In n probedNames -> rejects rpc (Eval (existsExpr n)) ->
                      pluginInfo s = pluginUnavailable)).
Proof.
  split; [| split].
  - pose proof (getNeovimStatus_never_throws w) as H.
    destruct (fst (getNeovimStatus rpc attach w)) as [r | e]; [exists r; reflexivity | destruct H].
  - intros Hfail. unfold getNeovimStatus, tryCatch, getNeovimStatus_try.
    rewrite !bind_run.
    destruct (connect attach w) as [[[] | e] w']; simpl in *; [congruence | reflexivity].
  - intros Hconnect Hcore. destruct Hcore.
    assert (Hrest : forall w',
      match fst ((window ← request rpc CurrentWindow;
                  cursor ← request rpc (WindowCursor window);
                  modeInfo ← request rpc GetMode;
                  buffer ← request rpc CurrentBuffer;
                  layout ← request rpc (Eval "winlayout()");
                  tabpage ← request rpc CurrentTabpage;
                  tabNumber ← request rpc (TabpageNumber tabpage);
                  marks ← readMarks rpc letters ∅;
                  registers ← readRegisters rpc registerNames ∅;
                  cwd ← request rpc (Call "getcwd" []);
                  lspInfo ← tryCatch (lspLookup rpc) (fun _ => mret lspUnavailable);
                  pluginInfo ← tryCatch (pluginLookup rpc) (fun _ => mret pluginUnavailable);
                  name ← request rpc (BufferName buffer);
                  let neovimStatus :=
                    {| cursorPosition := cursor; statusMode := mode modeInfo;
                       visualSelection := EmptyString; fileName := name;
                       windowLayout := JsValue.stringify layout; currentTab := tabNumber;
                       marks := marks; registers := registers; cwd := cwd;
                       lspInfo := lspInfo; pluginInfo := pluginInfo |} in
                  if Js.startsWith (mode modeInfo) "v"
                  then readVisualSelection rpc neovimStatus
                  else mret neovimStatus) w') with
      | Normal s =>
          (rejects rpc (Eval lspClientsExpr) -> lspInfo s = lspUnavailable)
          /\ (forall n, In n probedNames -> rejects rpc (Eval (existsExpr n)) ->
                        pluginInfo s = pluginUnavailable)
      | Throw _ => False
      end).
    { apply (returns_bind _ _ _ _ (returns_request _ answers_window0)).
      intros window Hwindow.
      apply (returns_bind _ _ _ _ (returns_request _ (answers_cursor0 window Hwindow))).
      intros cursor _.
      apply (returns_bind _ _ _ _ (returns_request _ answers_mode0)).
      intros modeInfo _.
      apply (returns_bind _ _ _ _ (returns_request _ answers_buffer0)).
      intros buffer Hbuffer.
      apply (returns_bind _ _ _ _ (returns_request _ answers_layout0)).
      intros layout _.
      apply (returns_bind _ _ _ _ (returns_request _ answers_tabpage0)).
      intros tabpage Htabpage.
      apply (returns_bind _ _ _ _ (returns_request _ (answers_number0 tabpage Htabpage))).
      intros tabNumber _.
      apply (returns_bind _ _ _ _ (readMarks_returns letters ∅)).
      intros marks _.
      apply (returns_bind _ _ _ _ (readRegisters_returns registerNames ∅)).
      intros registers _.
      apply (returns_bind _ _ _ _ (returns_request _ answers_cwd0)).
      intros cwd _.
      apply (returns_bind _ _ _ _ lspInfo_returns).
      intros lsp Hlsp.
      apply (returns_bind _ _ _ _ pluginInfo_returns).
      intros plugin Hplugin.
      apply (returns_bind _ _ _ _ (returns_request _ (answers_name0 buffer Hbuffer))).
      intros name _. cbv zeta.
      destruct (Js.startsWith (mode modeInfo) "v").
      - eapply returns_weaken; [apply readVisualSelection_returns |].
        simpl. intros s' [Hl Hp]. rewrite Hl, Hp. split; assumption.
      - apply returns_ret. simpl. split; assumption. }
    unfold getNeovimStatus, tryCatch, getNeovimStatus_try.
    rewrite bind_run. rewrite bind_run.
    destruct (connect attach w) as [[[] | e] w'] eqn:Hc; simpl in Hconnect; [| discriminate].
    specialize (Hrest w').
    match goal with
    | H : match fst ?run with _ => _ end |- _ =>
        destruct run as [[s | e] w''] eqn:Hrun; simpl in H; [| destruct H]
    end.
    exists s. split; [reflexivity | exact Hrest].
Qed.

End Status.

Lemma model_coreAnswers (introspection : bool) : coreAnswers (Nvim.rpcWith introspection).
Proof.
  constructor.
  - intros st. eexists. reflexivity.
  - intros win [st Hwin] st'. simpl in Hwin. injection Hwin as <-. eexists. reflexivity.
  - intros st. eexists. reflexivity.
  - intros st. eexists. reflexivity.
  - intros st. eexists. reflexivity.
  - intros st. eexists. reflexivity.
  - intros tab [st Htab] st'. simpl in Htab. injection Htab as <-. eexists. reflexivity.
  - intros st. eexists. reflexivity.
  - intros buf [st Hbuf] st'. simpl in Hbuf. injection Hbuf as <-. eexists. reflexivity.
Qed.

Lemma getNeovimStatus_degrades_witness :
  fst (getNeovimStatus Nvim.rpc Nvim.attach blankSocketWorld) =
  Normal (StatusText "Error getting Neovim status")
  /\ exists s,
       fst (getNeovimStatus (Nvim.rpcWith false) Nvim.attach plainWorld) =
       Normal (StatusObject s)
       /\ lspInfo s = "LSP information unavailable"
       /\ pluginInfo s = "Plugin information unavailable".
Proof.
  split.
  - apply (getNeovimStatus_degrades Nvim.rpc Nvim.attach blankSocketWorld).
    vm_compute. discriminate.
  - destruct (getNeovimStatus_degrades (Nvim.rpcWith false) Nvim.attach plainWorld)
      as [_ [_ H]].
    destruct (H eq_refl (model_coreAnswers false)) as [s [Hs [Hlsp Hplugin]]].
    exists s. split; [exact Hs | split].
    + apply Hlsp. intros st. eexists. reflexivity.
    + apply (Hplugin ":LspInfo"); [left; reflexivity |].
      intros st. eexists. reflexivity.
Defined.

(** C7 as stated fails: with a socket path of three spaces the call does
    not return a status object. *)
Lemma getNeovimStatus_without_connection :
  fst (getNeovimStatus Nvim.rpc Nvim.attach blankSocketWorld) =
  Normal (StatusText "Error getting Neovim status")
  /\ ~ exists s, fst (getNeovimStatus Nvim.rpc Nvim.attach blankSocketWorld) =
                 Normal (StatusObject s).
Proof.
  split; [reflexivity |].
  intros [s H]. vm_compute in H. discriminate H.
Qed.

(** ** editLines in replaceAll mode, on the model of the editor *)

Lemma setLines_remove_all (s : Nvim.State) :
  Nvim.setLines 0 (Nvim.lineCount s) true [] s =
  (Resolved (), Nvim.withLines s [EmptyString]).
Proof.
  unfold Nvim.setLines, Nvim.normalizeIndex, Nvim.outOfBounds, Nvim.clamp.
  assert (H : 0 <= Nvim.lineCount s) by (unfold Nvim.lineCount; lia).
  replace (Nvim.lineCount s <? 0) with false by (symmetry; apply Z.ltb_ge; lia).
  rewrite Z.ltb_irrefl. simpl.
  rewrite Z.ltb_irrefl. simpl.
  replace (Z.max 0 (Z.min (Nvim.lineCount s) 0)) with 0 by lia.
  replace (Z.max 0 (Z.min (Nvim.lineCount s) (Nvim.lineCount s)))
    with (Nvim.lineCount s) by lia.
  replace (Nvim.lineCount s <? 0) with false by (symmetry; apply Z.ltb_ge; lia).
  simpl. unfold Nvim.lineCount. rewrite Nat2Z.id, drop_all. reflexivity.
Qed.

Lemma setLines_insert_first (s : Nvim.State) (ls : list string) :
  Nvim.lines s = [EmptyString] ->
  existsb Nvim.hasNewline ls = false ->
  Nvim.setLines 0 0 true ls s = (Resolved (), Nvim.withLines s (ls ++ [EmptyString])).
Proof.
  intros Hlines Hclean.
  unfold Nvim.setLines, Nvim.lineCount. rewrite Hlines, Hclean. simpl.
  destruct ls; reflexivity.
Qed.

Lemma hasNewline_cons (c : ascii) (s : string) :
  Nvim.hasNewline (String c s) = Ascii.eqb Js.newline c || Nvim.hasNewline s.
Proof. reflexivity. Qed.

Lemma split_lines_clean (text : string) :
  existsb Nvim.hasNewline (Js.split Js.newline text) = false.
Proof.
  induction text as [| c text IH]; [reflexivity |].
  cbn [Js.split].
  destruct (Ascii.eqb c Js.newline) eqn:Hc.
  - exact IH.
  - destruct (Js.split Js.newline text) as [| cur rest]; cbn [existsb] in *.
    + rewrite hasNewline_cons, Ascii.eqb_sym, Hc. reflexivity.
    + rewrite hasNewline_cons, Ascii.eqb_sym, Hc. exact IH.
Qed.

Lemma editLines_replaceAll_on_model (s : Nvim.State) (startLine : Z) (text : string) :
  exists w1,
    editLines Nvim.rpc Nvim.attach startLine replaceAll text (Nvim.world Nvim.defaultEnv s) =
    (Normal "Buffer completely replaced", w1)
    /\ env w1 = Nvim.defaultEnv
    /\ Nvim.lines (remote w1) = Js.split Js.newline text ++ [EmptyString].
Proof.
  unfold editLines, tryCatch, editLines_try, Nvim.world.
  rewrite bind_run, connect_on_model by reflexivity.
  rewrite bind_run, (request_resolved Nvim.rpc CurrentBuffer _ Nvim.theBuffer s)
    by reflexivity.
  cbn [env remote sockets calls console].
  rewrite bind_run, (request_resolved Nvim.rpc (BufferLength _) _ (Nvim.lineCount s) s)
    by reflexivity.
  cbn [env remote sockets calls console].
  rewrite bind_run,
    (request_resolved Nvim.rpc (BufferRemove _ _ _ _) _ () (Nvim.withLines s [EmptyString]))
    by apply setLines_remove_all.
  cbn [env remote sockets calls console].
  rewrite bind_run,
    (request_resolved Nvim.rpc (BufferInsert _ _ _) _ ()
       (Nvim.withLines (Nvim.withLines s [EmptyString])
          (Js.split Js.newline text ++ [EmptyString])))
    by (apply setLines_insert_first; [reflexivity | apply split_lines_clean]).
  eexists. split; [reflexivity | split; reflexivity].
Qed.

Lemma getBufferContents_on_model (w : World Nvim.State) :
  env w = Nvim.defaultEnv ->
  fst (getBufferContents Nvim.rpc Nvim.attach None w) =
  Normal (lineMap (Nvim.lines (remote w))).
Proof.
  destruct w as [e s socks log out]. simpl. intros ->.
  unfold getBufferContents, tryCatch, getBufferContents_try.
  rewrite bind_run, connect_on_model by reflexivity.
  cbn [givenName].
  rewrite bind_run, (request_resolved Nvim.rpc CurrentBuffer _ Nvim.theBuffer s)
    by reflexivity.
  cbn [env remote sockets calls console].
  rewrite bind_run, (request_resolved Nvim.rpc (BufferLines _) _ (Nvim.lines s) s)
    by reflexivity.
  reflexivity.
Qed.

(** C6 on the code: on the model of the editor, for every text, [editLines]
    in replaceAll mode reports "Buffer completely replaced" and the buffer
    read back by [getBufferContents] holds the numbered lines of the text
    followed by one more, empty line. *)
Theorem replaceAll_then_contents (s : Nvim.State) (startLine : Z) (text : string) :
  fst (editLines Nvim.rpc Nvim.attach startLine replaceAll text
         (Nvim.world Nvim.defaultEnv s)) = Normal "Buffer completely replaced"
  /\ fst (getBufferContents Nvim.rpc Nvim.attach None
            (snd (editLines Nvim.rpc Nvim.attach startLine replaceAll text
                    (Nvim.world Nvim.defaultEnv s)))) =
     Normal (lineMap (Js.split Js.newline text ++ [EmptyString])).
Proof.
  destruct (editLines_replaceAll_on_model s startLine text) as [w1 [Hrun [Henv Hlines]]].
  rewrite Hrun. simpl fst. simpl snd.
  rewrite (getBufferContents_on_model w1 Henv), Hlines.
  split; reflexivity.
Qed.

(** What is read back is never the numbered lines of the text alone. *)
Lemma replaceAll_contents_differ (s : Nvim.State) (startLine : Z) (text : string) :
  fst (getBufferContents Nvim.rpc Nvim.attach None
         (snd (editLines Nvim.rpc Nvim.attach startLine replaceAll text
                 (Nvim.world Nvim.defaultEnv s)))) <>
  Normal (lineMap (Js.split Js.newline text)).
Proof.
  destruct (editLines_replaceAll_on_model s startLine text) as [w1 [Hrun [Henv Hlines]]].
  rewrite Hrun. simpl snd.
  rewrite (getBufferContents_on_model w1 Henv), Hlines.
  intros H. injection H as H.
  apply (f_equal (@length _)) in H. unfold lineMap in H.
  rewrite !length_imap, length_app in H. simpl in H. lia.
Qed.

(** The failing input of C6: the text "a" written over the sample buffer. *)
Lemma replaceAll_single_line :
  fst (getBufferContents Nvim.rpc Nvim.attach None
         (snd (editLines Nvim.rpc Nvim.attach 1 replaceAll "a" plainWorld))) =
  Normal [(1, "a"); (2, EmptyString)].
Proof. reflexivity. Qed.

(** ** setMark, on the model of the editor *)

Lemma lowerLetter_markCommand (c : ascii) :
  Js.isLowerLetter c = true ->
  Nvim.markCommand ("mark " +:+ String c EmptyString) = Some (String c EmptyString).
Proof.
  destruct c as [[] [] [] [] [] [] [] []]; vm_compute; congruence.
Qed.

(** The mark is put on the line the cursor was on before the call, at column
    0, whatever line and column are asked for. *)
Lemma setMark_marks_cursor_line (s : Nvim.State) (mark : string) (line col : Z) :
  Js.matchesLowerLetter mark = true ->
  Nvim.lowerMarks
    (remote (snd (setMark Nvim.rpc Nvim.attach mark line col
                    (Nvim.world Nvim.defaultEnv s)))) !! mark =
  Some (fst (Nvim.cursor s), 0).
Proof.
  intros Hmark.
  destruct mark as [| c [| d rest]]; try discriminate Hmark.
  assert (Hletter : Js.isLowerLetter c = true) by exact Hmark.
  unfold setMark. rewrite Hmark. cbn [negb].
  unfold tryCatch, Nvim.world.
  rewrite bind_run, connect_on_model by reflexivity.
  rewrite bind_run,
    (request_resolved Nvim.rpc (Command _) _ ()
       (Nvim.withMark s (String c EmptyString) (fst (Nvim.cursor s), 0)))
    by (simpl; unfold Nvim.command; rewrite (lowerLetter_markCommand c Hletter); reflexivity).
  cbn [env remote sockets calls console].
  rewrite bind_run, (request_resolved Nvim.rpc CurrentWindow _ Nvim.theWindow _)
    by reflexivity.
  cbn [env remote sockets calls console].
  rewrite bind_run. unfold fire, send. cbn [env remote sockets calls console].
  simpl Nvim.rpc. unfold Nvim.onWindow. simpl (_ =? _). cbv iota.
  unfold Nvim.setCursor.
  destruct ((line <? 1) || (Nvim.lineCount _ <? line)); simpl.
  - apply lookup_insert_eq.
  - destruct (col <? 0); simpl; apply lookup_insert_eq.
Qed.

(** C1 on the code: on the sample buffer, with the cursor on line 1,
    [setMark] of mark a at line 3, column 2 reports success and moves the
    cursor there, and the status read afterwards reports mark a at line 1,
    column 1. *)
Theorem setMark_then_status :
  fst (setMark Nvim.rpc Nvim.attach "a" 3 2 plainWorld) =
  Normal "Mark a set at line 3, column 2"
  /\ Nvim.cursor (remote (snd (setMark Nvim.rpc Nvim.attach "a" 3 2 plainWorld))) = (3, 2)
  /\ reportedMark
       (fst (getNeovimStatus Nvim.rpc Nvim.attach
               (snd (setMark Nvim.rpc Nvim.attach "a" 3 2 plainWorld)))) "a" =
     Some (VNum 1, VNum 1).
Proof.
  split; [reflexivity | split; [reflexivity |]].
  vm_compute. reflexivity.
Qed.

(** * Further properties of the bridge *)

(** ** White space and the argument guards *)

Lemma trimStart_inkless (s : string) : hasInk s = false -> Js.trimStart s = EmptyString.
Proof.
  induction s as [| c s IH]; simpl; [reflexivity |].
  intros H. apply orb_false_iff in H. destruct H as [Hc Hs].
  apply negb_false_iff in Hc. rewrite Hc. apply IH, Hs.
Qed.

Lemma isBlank_inkless (s : string) : Js.isBlank s = negb (hasInk s).
Proof.
  destruct (hasInk s) eqn:Hink.
  - apply hasInk_not_blank, Hink.
  - simpl. unfold Js.isBlank, Js.trim. rewrite (trimStart_inkless s Hink).
    apply orb_true_r.
Qed.

Lemma raises_at {St A : Type} (m : M St A) (P : Exn -> Prop) :
  raises m P -> forall w e, fst (m w) = Throw e -> P e.
Proof.
  intros H w e He. specialize (H w). rewrite He in H. exact H.
Qed.

Section Guards.

Context {St : Type}.
Variable rpc : forall A : Type, Request A -> St -> Reply A * St.
Variable attach : string -> option Exn.

(** X1: an argument made only of white space, the empty one included, is
    rejected by [sendCommand], [openFile], [searchInBuffer],
    [searchAndReplace] and [grepInProject] with the validation error of the
    operation, and the world is left as it was: no attach attempt, no remote
    call, no console line. *)
Theorem blank_arguments_rejected (s other : string) (options : SearchOptions)
    (w : World St) :
  hasInk s = false ->
  sendCommand rpc attach s w = (Throw (NeovimValidationError "Command cannot be empty"), w)
  /\ openFile rpc attach s w = (Throw (NeovimValidationError "Filename cannot be empty"), w)
  /\ searchInBuffer rpc attach s options w =
     (Throw (NeovimValidationError "Search pattern cannot be empty"), w)
  /\ searchAndReplace rpc attach s other options w =
     (Throw (NeovimValidationError "Search pattern cannot be empty"), w)
  /\ grepInProject rpc attach s other w =
     (Throw (NeovimValidationError "Grep pattern cannot be empty"), w).
Proof.
  intros Hink.
  assert (Hblank : Js.isBlank s = true) by (rewrite isBlank_inkless, Hink; reflexivity).
  unfold sendCommand, openFile, searchInBuffer, searchAndReplace, grepInProject.
  rewrite Hblank. repeat split.
Qed.

Lemma handler_wraps {A : Type} (label context : string) (e : Exn) :
  raises
    (consoleError label;;
     throw (NeovimCommandError context (errorMessage "Unknown error" e)) : M St A)
    (fun e' => exists message, e' = NeovimCommandError context message).
Proof.
  apply raises_bind; [apply raises_consoleError |].
  intros _. apply raises_throw. eexists. reflexivity.
Qed.

(** X2: once their argument has passed the guard, [openFile],
    [searchInBuffer], [searchAndReplace] and [grepInProject] raise nothing
    but a command error that carries the operation's context; the
    validation error of a blank socket path is wrapped like any other
    failure. *)
Theorem failures_wrapped_with_context (s other : string) (options : SearchOptions) :
  hasInk s = true ->
  raises (openFile rpc attach s)
    (fun e => exists message, e = NeovimCommandError ("edit " +:+ s) message)
  /\ raises (searchInBuffer rpc attach s options)
       (fun e => exists message, e = NeovimCommandError ("search for " +:+ s) message)
  /\ raises (searchAndReplace rpc attach s other options)
       (fun e => exists message,
                   e = NeovimCommandError ("substitute " +:+ s +:+ " -> " +:+ other) message)
  /\ raises (grepInProject rpc attach s other)
       (fun e => exists message, e = NeovimCommandError ("grep " +:+ s) message).
Proof.
  intros Hink.
  assert (Hblank : Js.isBlank s = false) by (rewrite isBlank_inkless, Hink; reflexivity).
  unfold openFile, searchInBuffer, searchAndReplace, grepInProject.
  rewrite Hblank.
  repeat split; apply raises_tryCatch; intros e; apply handler_wraps.
Qed.

Lemma sendCommand_try_raises (command : string) :
  raises (sendCommand_try rpc attach command)
    (fun e => isCommandError e = true \/ isValidationError e = true -> sendCommandFailure e).
Proof.
  unfold sendCommand_try.
  apply raises_bind.
  - eapply raises_weaken; [apply (connect_raises attach) |].
    intros e [He | He] [Hk | Hk].
    + right. left. exact He.
    + right. left. exact He.
    + left. exact Hk.
    + congruence.
  - intros _. apply raises_if.
    + apply raises_bind; [apply raises_processEnv |].
      intros e. apply raises_if; [apply raises_ret |].
      apply raises_if.
      * apply raises_throw. intros _. right. right. reflexivity.
      * apply raises_tryCatch. intros error.
        apply raises_bind; [apply raises_consoleError |].
        intros _. apply raises_throw. intros _. left. reflexivity.
    + apply raises_bind; [apply raises_request; intros message [H | H]; discriminate |].
      intros _.
      apply raises_bind; [apply raises_request; intros message [H | H]; discriminate |].
      intros output.
      apply raises_bind; [apply raises_request; intros message [H | H]; discriminate |].
      intros vimerr. apply raises_if; [| apply raises_ret].
      apply raises_bind; [apply raises_consoleError |].
      intros _. apply raises_throw. intros _. left. reflexivity.
Qed.

(** X3: [sendCommand] raises "Command cannot be empty" for the commands
    made only of white space and for no other; what a command that passed
    the guard can raise is a command error, or the validation error of a
    blank socket path or of an empty shell command. *)
Theorem sendCommand_failures (command : string) :
  hasInk command = true ->
  raises (sendCommand rpc attach command)
    (fun e => sendCommandFailure e
              /\ e <> NeovimValidationError "Command cannot be empty").
Proof.
  intros Hink.
  assert (Hblank : Js.isBlank command = false)
    by (rewrite isBlank_inkless, Hink; reflexivity).
  unfold sendCommand. rewrite Hblank.
  eapply raises_tryCatch_from; [apply sendCommand_try_raises |].
  intros e He. simpl.
  destruct (isCommandError e || isValidationError e) eqn:Hkind.
  - apply raises_throw.
    assert (Hf : sendCommandFailure e).
    { apply He. apply orb_true_iff in Hkind. exact Hkind. }
    split; [exact Hf |].
    destruct Hf as [Hc | [-> | ->]]; [| discriminate | discriminate].
    intros ->. discriminate Hc.
  - apply raises_bind; [apply raises_consoleError |].
    intros _. apply raises_throw. split; [left; reflexivity | discriminate].
Qed.

End Guards.

Lemma blank_arguments_rejected_witness :
  sendCommand Nvim.rpc Nvim.attach "  " plainWorld =
  (Throw (NeovimValidationError "Command cannot be empty"), plainWorld)
  /\ grepInProject Nvim.rpc Nvim.attach EmptyString "**/*" plainWorld =
     (Throw (NeovimValidationError "Grep pattern cannot be empty"), plainWorld).
Proof.
  split.
  - apply (blank_arguments_rejected Nvim.rpc Nvim.attach "  " EmptyString noOptions
             plainWorld eq_refl).
  - apply (blank_arguments_rejected Nvim.rpc Nvim.attach EmptyString "**/*" noOptions
             plainWorld eq_refl).
Defined.

Lemma failures_wrapped_with_context_witness :
  exists message,
    NeovimCommandError "edit a.txt" "Socket path cannot be empty" =
    NeovimCommandError ("edit " +:+ "a.txt") message.
Proof.
  exact (raises_at _ _
           (proj1 (failures_wrapped_with_context Nvim.rpc Nvim.attach "a.txt" EmptyString
                     noOptions eq_refl))
           blankSocketWorld _ eq_refl).
Defined.

Lemma sendCommand_failures_witness :
  sendCommandFailure (NeovimValidationError "Socket path cannot be empty")
  /\ NeovimValidationError "Socket path cannot be empty" <>
     NeovimValidationError "Command cannot be empty".
Proof.
  exact (raises_at _ _ (sendCommand_failures Nvim.rpc Nvim.attach ":!" eq_refl)
           blankSocketWorld _ eq_refl).
Defined.

(** ** Stepping through a computation *)

Lemma request_rejected {St A : Type} (rpc : forall A : Type, Request A -> St -> Reply A * St)
    (r : Request A) (w : World St) (message : string) (st : St) :
  rpc A r (remote w) = (Rejected message, st) ->
  request rpc r w =
  (Throw (JsError message),
   {| env := env w; remote := st; sockets := sockets w;
      calls := calls w ++ [Sent r]; console := console w |}).
Proof.
  intros H. unfold request, send. rewrite H. reflexivity.
Qed.

Lemma connect_normal {St : Type} (attach : string -> option Exn) (w : World St) :
  fst (connect attach w) = Normal () ->
  connect attach w =
  (Normal (),
   {| env := env w; remote := remote w; sockets := sockets w ++ [socketPathOf (env w)];
      calls := calls w; console := console w |}).
Proof.
  unfold connect. rewrite bind_run. simpl. unfold validateSocketPath.
  rewrite bind_run. destruct (Js.isBlank (socketPathOf (env w))); simpl; [discriminate |].
  unfold tryCatch, attachSocket.
  destruct (attach (socketPathOf (env w))); simpl; [discriminate | reflexivity].
Qed.

Lemma substring_all (s : string) : String.substring 0 (String.length s) s = s.
Proof.
  induction s as [| c s IH]; simpl; [reflexivity | rewrite IH; reflexivity].
Qed.

Lemma substringFrom_tail (c : ascii) (s : string) : Js.substringFrom 1 (String c s) = s.
Proof.
  unfold Js.substringFrom. simpl. rewrite Nat.sub_0_r. apply substring_all.
Qed.

Lemma trim_inkless (s : string) : hasInk s = false -> Js.trim s = EmptyString.
Proof.
  intros H. unfold Js.trim. rewrite (trimStart_inkless s H). reflexivity.
Qed.

Lemma trim_ink_nonEmpty (s : string) : hasInk s = true -> Js.nonEmpty (Js.trim s) = true.
Proof.
  intros H. rewrite <- hasInk_trim in H. destruct (Js.trim s); [discriminate | reflexivity].
Qed.

(** ** sendCommand *)

Section SendCommand.

Context {St : Type}.
Variable rpc : forall A : Type, Request A -> St -> Reply A * St.
Variable attach : string -> option Exn.

(** X4: for a command that is not a shell command, once connected,
    [sendCommand] sends three calls in this order: it clears the error
    message, executes the command without its leading colon, and reads the
    error message.  When the message read is not empty it raises a command
    error carrying the command and the message; otherwise it returns the
    trimmed output, or "Command executed (no output)" when there is none. *)
Theorem sendCommand_reports_errmsg (command : string) (w : World St)
    (st1 st2 st3 : St) (output vimerr : Value) :
  Js.isBlank command = false ->
  Js.startsWith (normalizeCommand command) "!" = false ->
  fst (connect attach w) = Normal () ->
  rpc unit (SetVvar "errmsg" (VStr EmptyString)) (remote w) = (Resolved (), st1) ->
  rpc Value (Call "execute" [VStr (normalizeCommand command)]) st1 = (Resolved output, st2) ->
  rpc Value (GetVvar "errmsg") st2 = (Resolved vimerr, st3) ->
  fst (sendCommand rpc attach command w) =
  (if JsValue.truthy vimerr
   then Throw (NeovimCommandError (normalizeCommand command) (JsValue.toString vimerr))
   else Normal (if JsValue.truthy output then Js.trim (JsValue.toString output)
                else "Command executed (no output)"))
  /\ calls (snd (sendCommand rpc attach command w)) =
     calls w ++ [Sent (SetVvar "errmsg" (VStr EmptyString));
                 Sent (Call "execute" [VStr (normalizeCommand command)]);
                 Sent (GetVvar "errmsg")]
  /\ remote (snd (sendCommand rpc attach command w)) = st3.
Proof.
  intros Hblank Hbang Hconnect Hset Hexec Hget.
  unfold sendCommand. rewrite Hblank. unfold tryCatch, sendCommand_try.
  rewrite bind_run, (connect_normal attach w Hconnect), Hbang.
  rewrite bind_run, (request_resolved rpc _ _ () st1) by exact Hset.
  cbn [env remote sockets calls console].
  rewrite bind_run, (request_resolved rpc _ _ output st2) by exact Hexec.
  cbn [env remote sockets calls console].
  rewrite bind_run, (request_resolved rpc _ _ vimerr st3) by exact Hget.
  cbn [env remote sockets calls console].
  destruct (JsValue.truthy vimerr); simpl; rewrite <- !app_assoc; simpl; repeat split.
Qed.

(** X5: with the shell flag on, once connected, a command that starts with
    "!" is never executed as an editor command.  When nothing but white
    space follows the "!", [sendCommand] raises "Shell command cannot be
    empty" and sends nothing; otherwise it sends one call, the evaluation of
    system() on the trimmed command written as a literal string, and returns
    its trimmed output ("No output from command" when there is none) or
    raises a command error that carries "!" and the command. *)
Theorem sendCommand_shell (command rest : string) (w : World St) (st1 : St)
    (reply : Reply Value) :
  shellAllowed (env w) = true ->
  normalizeCommand command = String "!" rest ->
  fst (connect attach w) = Normal () ->
  rpc Value (Eval ("system('" +:+ Js.replaceAll "'" "''" (Js.trim rest) +:+ "')")) (remote w)
    = (reply, st1) ->
  (hasInk rest = false ->
   fst (sendCommand rpc attach command w) =
   Throw (NeovimValidationError "Shell command cannot be empty")
   /\ calls (snd (sendCommand rpc attach command w)) = calls w)
  /\ (hasInk rest = true ->
      calls (snd (sendCommand rpc attach command w)) =
      calls w ++ [Sent (Eval ("system('" +:+ Js.replaceAll "'" "''" (Js.trim rest) +:+ "')"))]
      /\ fst (sendCommand rpc attach command w) =
         match reply with
         | Resolved output =>
             Normal (if JsValue.truthy output then Js.trim (JsValue.toString output)
                     else "No output from command")
         | Rejected message => Throw (NeovimCommandError ("!" +:+ Js.trim rest) message)
         end).
Proof.
  intros Hflag Hnorm Hconnect Hsystem.
  assert (Hbang : Js.startsWith (normalizeCommand command) "!" = true)
    by (rewrite Hnorm; destruct rest; reflexivity).
  pose proof (shell_command_not_blank command Hbang) as Hblank.
  unfold sendCommand. rewrite Hblank. unfold tryCatch, sendCommand_try.
  rewrite bind_run, (connect_normal attach w Hconnect), Hbang.
  rewrite bind_run. cbn [processEnv env fst snd]. rewrite Hflag. cbn [negb].
  rewrite Hnorm, substringFrom_tail.
  split; intros Hink.
  - rewrite (trim_inkless rest Hink). simpl. split; reflexivity.
  - rewrite (trim_ink_nonEmpty rest Hink). cbn [negb].
    unfold tryCatch. rewrite bind_run. unfold request, send.
    cbn [env remote sockets calls console]. rewrite Hsystem. destruct reply as [output | message]; simpl.
    + destruct (JsValue.truthy output); split; reflexivity.
    + split; reflexivity.
Qed.

End SendCommand.

Lemma sendCommand_reports_errmsg_witness :
  fst (sendCommand (Canned.rpc Canned.complaining) Nvim.attach ":bogus"
         (Canned.world Nvim.defaultEnv)) =
  Throw (NeovimCommandError "bogus" "E492: Not an editor command: bogus")
  /\ calls (snd (sendCommand (Canned.rpc Canned.complaining) Nvim.attach ":bogus"
                   (Canned.world Nvim.defaultEnv))) =
     [Sent (SetVvar "errmsg" (VStr EmptyString)); Sent (Call "execute" [VStr "bogus"]);
      Sent (GetVvar "errmsg")].
Proof.
  destruct (sendCommand_reports_errmsg (Canned.rpc Canned.complaining) Nvim.attach ":bogus"
              (Canned.world Nvim.defaultEnv) () () ()
              (VStr EmptyString) (VStr "E492: Not an editor command: bogus")
              eq_refl eq_refl eq_refl eq_refl eq_refl eq_refl) as [Hresult [Hcalls _]].
  split; [exact Hresult | exact Hcalls].
Defined.

Lemma sendCommand_shell_witness :
  (fst (sendCommand (Canned.rpc Canned.listing) Nvim.attach "!  " (Canned.world Canned.shellEnv))
   = Throw (NeovimValidationError "Shell command cannot be empty"))
  /\ calls (snd (sendCommand (Canned.rpc Canned.listing) Nvim.attach ":!ls 'a b' "
                   (Canned.world Canned.shellEnv))) =
     [Sent (Eval "system('ls ''a b''')")]
  /\ fst (sendCommand (Canned.rpc Canned.listing) Nvim.attach ":!ls 'a b' "
            (Canned.world Canned.shellEnv)) = Normal "a.txt".
Proof.
  split; [| split].
  - exact (proj1 (proj1 (sendCommand_shell (Canned.rpc Canned.listing) Nvim.attach "!  " "  "
                           (Canned.world Canned.shellEnv) ()
                           (Resolved (VStr (" a.txt" +:+ String Js.newline EmptyString)))
                           eq_refl eq_refl eq_refl eq_refl) eq_refl)).
  - exact (proj1 (proj2 (sendCommand_shell (Canned.rpc Canned.listing) Nvim.attach
                           ":!ls 'a b' " "ls 'a b' "
                           (Canned.world Canned.shellEnv) ()
                           (Resolved (VStr (" a.txt" +:+ String Js.newline EmptyString)))
                           eq_refl eq_refl eq_refl eq_refl) eq_refl)).
  - exact (proj2 (proj2 (sendCommand_shell (Canned.rpc Canned.listing) Nvim.attach
                           ":!ls 'a b' " "ls 'a b' "
                           (Canned.world Canned.shellEnv) ()
                           (Resolved (VStr (" a.txt" +:+ String Js.newline EmptyString)))
                           eq_refl eq_refl eq_refl eq_refl) eq_refl)).
Defined.

(** ** Quoting *)


Lemma literalBody_escaped (s rest : string) :
  Js.startsWith rest "'" = false ->
  Vimscript.literalBody (Js.replaceAll "'" "''" s +:+ String "'" rest) = Some (s, rest).
Proof.
  intros Hrest. induction s as [| c s IH].
  - cbn [Js.replaceAll]. appended. cbn [Vimscript.literalBody].
    destruct rest as [| d rest']; [reflexivity |].
    destruct (Ascii.eqb d "'") eqn:Hd; [| reflexivity].
    apply Ascii.eqb_eq in Hd. subst d. destruct rest'; discriminate Hrest.
  - cbn [Js.replaceAll]. destruct (Ascii.eqb c "'") eqn:Hc.
    + apply Ascii.eqb_eq in Hc. subst c. appended. cbn [Vimscript.literalBody].
      cbn [Ascii.eqb Bool.eqb]. rewrite IH. reflexivity.
    + appended. cbn [Vimscript.literalBody]. rewrite Hc, IH. reflexivity.
Qed.

(** X6: the argument [sendCommand] writes for system() and the content
    [setRegister] writes for setreg() are literal strings that read back as
    the shell command and as the content, with nothing left inside the
    parentheses: a single quote in them cannot end the literal. *)
Theorem quoted_arguments_read_back (s register : string) :
  "system('" +:+ Js.replaceAll "'" "''" s +:+ "')" =
  "system(" +:+ ("'" +:+ Js.replaceAll "'" "''" s +:+ "'" +:+ ")")
  /\ "setreg('" +:+ register +:+ "', '" +:+ Js.replaceAll "'" "''" s +:+ "')" =
     "setreg('" +:+ register +:+ "', " +:+ ("'" +:+ Js.replaceAll "'" "''" s +:+ "'" +:+ ")")
  /\ Vimscript.literalString ("'" +:+ Js.replaceAll "'" "''" s +:+ "'" +:+ ")") =
     Some (s, ")").
Proof.
  split; [reflexivity | split; [reflexivity |]].
  appended. cbn [Vimscript.literalString Ascii.eqb Bool.eqb].
  apply (literalBody_escaped s ")"). reflexivity.
Qed.

Lemma stringBody_escaped (p rest : string) :
  backslashFree p = true ->
  Vimscript.stringBody
    (Js.replaceAll "034" (String "092" (String "034" EmptyString)) p +:+ String "034" rest) =
  Some (p, rest).
Proof.
  induction p as [| c p IH]; intros Hfree; [reflexivity |].
  simpl in Hfree. apply andb_true_iff in Hfree. destruct Hfree as [Hc Hp].
  apply negb_true_iff in Hc. specialize (IH Hp).
  cbn [Js.replaceAll]. destruct (Ascii.eqb c "034") eqn:Hq.
  - apply Ascii.eqb_eq in Hq. subst c. appended.
    cbn [Vimscript.stringBody]. cbn [Ascii.eqb Bool.eqb orb]. rewrite IH. reflexivity.
  - appended. cbn [Vimscript.stringBody]. rewrite Hq, Hc, IH. reflexivity.
Qed.

(** X7: the expression [searchInBuffer] evaluates writes the pattern as a
    string between double quotes; for every pattern without a backslash that
    string reads back as the pattern, and the maxcount entry follows it. *)
Theorem searchcount_pattern_reads_back (p : string) :
  backslashFree p = true ->
  exists literal,
    searchcountExpr p =
    "searchcount({" +:+ Js.dq +:+ "pattern" +:+ Js.dq +:+ ": " +:+ literal
    /\ Vimscript.doubleQuoted literal =
       Some (p, ", " +:+ Js.dq +:+ "maxcount" +:+ Js.dq +:+ ": 100})").
Proof.
  intros Hfree.
  exists (Js.dq +:+ Js.replaceAll "034" (Js.backslash +:+ Js.dq) p +:+ Js.dq
            +:+ ", " +:+ Js.dq +:+ "maxcount" +:+ Js.dq +:+ ": 100})").
  split; [reflexivity |].
  unfold Js.dq. appended. cbn [Vimscript.doubleQuoted Ascii.eqb Bool.eqb].
  apply (stringBody_escaped p _ Hfree).
Qed.

Lemma searchcount_pattern_reads_back_witness :
  exists literal,
    searchcountExpr ("say " +:+ Js.dq +:+ "hi" +:+ Js.dq) =
    "searchcount({" +:+ Js.dq +:+ "pattern" +:+ Js.dq +:+ ": " +:+ literal
    /\ Vimscript.doubleQuoted literal =
       Some ("say " +:+ Js.dq +:+ "hi" +:+ Js.dq,
             ", " +:+ Js.dq +:+ "maxcount" +:+ Js.dq +:+ ": 100})").
Proof.
  exact (searchcount_pattern_reads_back ("say " +:+ Js.dq +:+ "hi" +:+ Js.dq) eq_refl).
Defined.

(** ** Names: registers, window commands, buffers *)

Lemma request_run {St A : Type} (rpc : forall A : Type, Request A -> St -> Reply A * St)
    (r : Request A) (w : World St) (reply : Reply A) (st : St) :
  rpc A r (remote w) = (reply, st) ->
  request rpc r w =
  (match reply with
   | Resolved a => Normal a
   | Rejected message => Throw (JsError message)
   end,
   {| env := env w; remote := st; sockets := sockets w;
      calls := calls w ++ [Sent r]; console := console w |}).
Proof.
  intros H. unfold request, send. rewrite H. destruct reply; reflexivity.
Qed.

Ltac step H :=
  rewrite bind_run; erewrite request_run by (cbn [remote]; exact H);
  cbn [env remote sockets calls console].

Lemma prefix_nil (s : string) : String.prefix EmptyString s = true.
Proof. destruct s; reflexivity. Qed.

Lemma prefix_refl (s : string) : String.prefix s s = true.
Proof.
  induction s as [| c s IH]; [reflexivity |].
  simpl. destruct (ascii_dec c c) as [_ | Hne]; [exact IH | contradiction].
Qed.

Lemma startsWith_app (p rest : string) : Js.startsWith (p +:+ rest) p = true.
Proof.
  unfold Js.startsWith. induction p as [| c p IH]; [apply prefix_nil |].
  rewrite append_cons. simpl. destruct (ascii_dec c c) as [_ | Hne]; [exact IH | contradiction].
Qed.

Lemma endsWith_refl (s : string) : Js.endsWith s s = true.
Proof. unfold Js.endsWith. apply prefix_refl. Qed.

Lemma equal_or_endsWith (name filename : string) :
  String.eqb name filename || Js.endsWith name filename = Js.endsWith name filename.
Proof.
  destruct (String.eqb name filename) eqn:Heq; [| reflexivity].
  apply String.eqb_eq in Heq. subst. rewrite endsWith_refl. reflexivity.
Qed.

Lemma long_name_not_single (c d x : ascii) (s : string) :
  String.eqb (String c (String d s)) (String x EmptyString) = false.
Proof. simpl. destruct (Ascii.eqb c x); reflexivity. Qed.

Lemma validRegisters_registerName (register : string) :
  existsb (String.eqb register) validRegisters = registerName register.
Proof.
  destruct register as [| c [| d s]].
  - reflexivity.
  - destruct c as [[] [] [] [] [] [] [] []]; reflexivity.
  - unfold registerName, validRegisters, letters, Js.dq.
    cbn [list_ascii_of_string List.map app existsb Js.matchesLowerLetter].
    rewrite !long_name_not_single. reflexivity.
Qed.

Section Names.

Context {St : Type}.
Variable rpc : forall A : Type, Request A -> St -> Reply A * St.
Variable attach : string -> option Exn.

(** X8: [setRegister] accepts exactly the one-letter names a to z and the
    double quote.  For any other name it answers "Invalid register name" and
    nothing is attempted.  For an accepted name, once connected, it sends one
    call, the setreg() expression with the content written as a literal
    string, and answers "Register <name> set", or "Error setting register"
    when the editor rejects the call. *)
Theorem setRegister_outcomes (register content : string) (w : World St)
    (reply : Reply Value) (st1 : St) :
  (registerName register = false ->
   setRegister rpc attach register content w = (Normal "Invalid register name", w))
  /\ (registerName register = true ->
      fst (connect attach w) = Normal () ->
      rpc Value (Eval ("setreg('" +:+ register +:+ "', '"
                         +:+ Js.replaceAll "'" "''" content +:+ "')")) (remote w)
        = (reply, st1) ->
      fst (setRegister rpc attach register content w) =
      Normal (match reply with
              | Resolved _ => "Register " +:+ register +:+ " set"
              | Rejected _ => "Error setting register"
              end)
      /\ calls (snd (setRegister rpc attach register content w)) =
         calls w ++ [Sent (Eval ("setreg('" +:+ register +:+ "', '"
                                   +:+ Js.replaceAll "'" "''" content +:+ "')"))]).
Proof.
  split.
  - intros Hname. unfold setRegister. rewrite validRegisters_registerName, Hname. reflexivity.
  - intros Hname Hconnect Hreply. unfold setRegister.
    rewrite validRegisters_registerName, Hname. cbn [negb]. unfold tryCatch.
    rewrite bind_run, (connect_normal attach w Hconnect).
    step Hreply. destruct reply; split; reflexivity.
Qed.

(** X9: [manipulateWindow] checks only how the command starts.  A command
    that starts with none of the eight window commands is answered with
    "Invalid window command" and nothing is attempted.  A command made of one
    of them followed by any text is, once connected, sent to the editor as it
    is, in one call. *)
Theorem manipulateWindow_prefix_check (command : string) (w : World St)
    (reply : Reply unit) (st1 : St) :
  (existsb (fun cmd => Js.startsWith command cmd) validCommands = false ->
   manipulateWindow rpc attach command w = (Normal "Invalid window command", w))
  /\ (forall cmd rest,
        In cmd validCommands -> command = cmd +:+ rest ->
        fst (connect attach w) = Normal () ->
        rpc unit (Command command) (remote w) = (reply, st1) ->
        fst (manipulateWindow rpc attach command w) =
        Normal (match reply with
                | Resolved _ => "Window command executed"
                | Rejected _ => "Error executing window command"
                end)
        /\ calls (snd (manipulateWindow rpc attach command w)) =
           calls w ++ [Sent (Command command)]).
Proof.
  split.
  - intros Hnone. unfold manipulateWindow. rewrite Hnone. reflexivity.
  - intros cmd rest Hin Hcommand Hconnect Hreply.
    assert (Hsome : existsb (fun cmd => Js.startsWith command cmd) validCommands = true).
    { apply existsb_exists. exists cmd. split; [exact Hin |].
      rewrite Hcommand. apply startsWith_app. }
    unfold manipulateWindow. rewrite Hsome. cbn [negb]. unfold tryCatch.
    rewrite bind_run, (connect_normal attach w Hconnect).
    step Hreply. destruct reply; split; reflexivity.
Qed.

Lemma findBuffer_run (filename : string) (nameOf : Buffer -> string) (buffers : list Buffer) :
  namesBuffers rpc nameOf buffers ->
  forall w,
    findBuffer rpc filename buffers w =
    (Normal (firstMatch nameOf filename buffers), asked w (examined nameOf filename buffers)).
Proof.
  induction buffers as [| b rest IH]; intros Hnames w.
  - unfold asked. simpl. rewrite app_nil_r. destruct w; reflexivity.
  - cbn [findBuffer]. rewrite bind_run.
    rewrite (request_run rpc _ w (Resolved (nameOf b)) (remote w))
      by (apply Hnames; left; reflexivity).
    rewrite equal_or_endsWith. unfold firstMatch. cbn [List.find examined].
    destruct (Js.endsWith (nameOf b) filename).
    + reflexivity.
    + rewrite IH by (intros b' st Hin; apply Hnames; right; exact Hin).
      unfold asked. cbn [env remote sockets calls console List.map].
      rewrite <- app_assoc. reflexivity.
Qed.

Lemma switchToNamed_run (identifier : string) (nameOf : Buffer -> string)
    (buffers : list Buffer) :
  namesBuffers rpc nameOf buffers ->
  forall w,
    switchToNamed rpc identifier buffers w =
    match firstMatch nameOf identifier buffers with
    | Some b =>
        (request rpc (Command ("buffer " +:+ Js.ofZ (bufferId b)));;
         mret ("Switched to buffer: " +:+ nameOf b))
          (asked w (examined nameOf identifier buffers))
    | None =>
        (Throw (NeovimValidationError ("Buffer not found: " +:+ identifier)),
         asked w (examined nameOf identifier buffers))
    end.
Proof.
  induction buffers as [| b rest IH]; intros Hnames w.
  - unfold asked. simpl. rewrite app_nil_r. destruct w; reflexivity.
  - cbn [switchToNamed]. rewrite bind_run.
    rewrite (request_run rpc _ w (Resolved (nameOf b)) (remote w))
      by (apply Hnames; left; reflexivity).
    rewrite equal_or_endsWith. unfold firstMatch. cbn [List.find examined].
    destruct (Js.endsWith (nameOf b) identifier).
    + reflexivity.
    + rewrite IH by (intros b' st Hin; apply Hnames; right; exact Hin).
      unfold firstMatch, asked. cbn [env remote sockets calls console List.map].
      rewrite <- app_assoc. reflexivity.
Qed.

(** X10: [switchBuffer] with a name, once connected and given the list of
    buffers, reads the names in the order of the list and stops at the first
    one that ends with the given name: it sends one "buffer <id>" command,
    for that buffer, and answers with its name.  When no name ends with the
    given one it raises the validation error "Buffer not found" and sends no
    command. *)
Theorem switchBuffer_by_name (identifier : string) (nameOf : Buffer -> string)
    (buffers : list Buffer) (w : World St) (st1 : St) :
  fst (connect attach w) = Normal () ->
  rpc (list Buffer) Buffers (remote w) = (Resolved buffers, st1) ->
  namesBuffers rpc nameOf buffers ->
  match firstMatch nameOf identifier buffers with
  | Some b =>
      forall reply st2,
        rpc unit (Command ("buffer " +:+ Js.ofZ (bufferId b))) st1 = (reply, st2) ->
        fst (switchBuffer rpc attach (inr identifier) w) =
        match reply with
        | Resolved _ => Normal ("Switched to buffer: " +:+ nameOf b)
        | Rejected message =>
            Throw (NeovimCommandError ("buffer switch to " +:+ identifier) message)
        end
        /\ calls (snd (switchBuffer rpc attach (inr identifier) w)) =
           calls w ++ Sent Buffers
             :: List.map (fun b => Sent (BufferName b)) (examined nameOf identifier buffers)
             ++ [Sent (Command ("buffer " +:+ Js.ofZ (bufferId b)))]
  | None =>
      fst (switchBuffer rpc attach (inr identifier) w) =
      Throw (NeovimValidationError ("Buffer not found: " +:+ identifier))
      /\ calls (snd (switchBuffer rpc attach (inr identifier) w)) =
         calls w ++ Sent Buffers :: List.map (fun b => Sent (BufferName b)) buffers
  end.
Proof.
  intros Hconnect Hbuffers Hnames.
  assert (Hall : firstMatch nameOf identifier buffers = None ->
                 examined nameOf identifier buffers = buffers).
  { clear. unfold firstMatch. induction buffers as [| b rest IH]; [reflexivity |].
    cbn [List.find examined]. destruct (Js.endsWith (nameOf b) identifier); [discriminate |].
    intros H. rewrite (IH H). reflexivity. }
  unfold switchBuffer, tryCatch.
  rewrite bind_run, (connect_normal attach w Hconnect).
  step Hbuffers. rewrite (switchToNamed_run identifier nameOf buffers Hnames).
  destruct (firstMatch nameOf identifier buffers) as [b |] eqn:Hfirst.
  - intros reply st2 Hreply. unfold asked at 1 2. 
    rewrite bind_run, (request_run rpc _ _ reply st2) by exact Hreply.
    cbn [env remote sockets calls console].
    destruct reply; cbn [fst snd isValidationError calls errorMessage identifierText];
      (split; [reflexivity |]); rewrite <- !app_assoc; reflexivity.
  - rewrite (Hall eq_refl). unfold asked. cbn [fst snd isValidationError calls].
    split; [reflexivity |]. rewrite <- !app_assoc. reflexivity.
Qed.

(** X11: [getBufferContents] with a file name, once connected and given the
    list of buffers, numbers from 1 the lines of the first buffer of the list
    whose name ends with the file name; an empty result stands for a failed
    read of the lines.  When no name ends with the file name it raises the
    validation error "Buffer not found". *)
Theorem getBufferContents_by_name (filename : string) (nameOf : Buffer -> string)
    (buffers : list Buffer) (w : World St) (st1 : St) :
  Js.nonEmpty filename = true ->
  fst (connect attach w) = Normal () ->
  rpc (list Buffer) Buffers (remote w) = (Resolved buffers, st1) ->
  namesBuffers rpc nameOf buffers ->
  match firstMatch nameOf filename buffers with
  | Some b =>
      forall reply st2,
        rpc (list string) (BufferLines b) st1 = (reply, st2) ->
        fst (getBufferContents rpc attach (Some filename) w) =
        Normal (match reply with
                | Resolved lines => lineMap lines
                | Rejected _ => []
                end)
  | None =>
      fst (getBufferContents rpc attach (Some filename) w) =
      Throw (NeovimValidationError ("Buffer not found: " +:+ filename))
  end.
Proof.
  intros Hgiven Hconnect Hbuffers Hnames.
  assert (Hname : givenName (Some filename) = Some filename)
    by (destruct filename; [discriminate | reflexivity]).
  unfold getBufferContents, tryCatch, getBufferContents_try.
  rewrite bind_run, (connect_normal attach w Hconnect), Hname.
  rewrite !bind_run. erewrite request_run by (cbn [remote]; exact Hbuffers).
  cbn [env remote sockets calls console].
  rewrite bind_run, (findBuffer_run filename nameOf buffers Hnames).
  destruct (firstMatch nameOf filename buffers) as [b |].
  - intros reply st2 Hreply. unfold asked at 1. cbn [mret M_ret].
    rewrite bind_run, (request_run rpc _ _ reply st2) by exact Hreply.
    destruct reply; reflexivity.
  - reflexivity.
Qed.

(** X12: [saveBuffer] without a file name, or with an empty one, once
    connected, reads the name of the current buffer: when that name is empty
    it raises a validation error and no write command is sent; otherwise it
    sends "write".  With a file name it sends "write <file name>" without
    looking at the buffer.  A rejected write is raised as a command error
    about "save <file name>", or "save current buffer". *)
Theorem saveBuffer_outcomes (filename : option string) (w : World St) :
  fst (connect attach w) = Normal () ->
  match givenName filename with
  | Some f =>
      forall reply st1,
        rpc unit (Command ("write " +:+ f)) (remote w) = (reply, st1) ->
        fst (saveBuffer rpc attach filename w) =
        match reply with
        | Resolved _ => Normal ("Buffer saved to: " +:+ f)
        | Rejected message => Throw (NeovimCommandError ("save " +:+ f) message)
        end
        /\ calls (snd (saveBuffer rpc attach filename w)) =
           calls w ++ [Sent (Command ("write " +:+ f))]
  | None =>
      forall buffer bufferName st1 st2,
        rpc Buffer CurrentBuffer (remote w) = (Resolved buffer, st1) ->
        rpc string (BufferName buffer) st1 = (Resolved bufferName, st2) ->
        if Js.nonEmpty bufferName then
          forall reply st3,
            rpc unit (Command "write") st2 = (reply, st3) ->
            fst (saveBuffer rpc attach filename w) =
            match reply with
            | Resolved _ => Normal ("Buffer saved: " +:+ bufferName)
            | Rejected message => Throw (NeovimCommandError "save current buffer" message)
            end
            /\ calls (snd (saveBuffer rpc attach filename w)) =
               calls w ++ [Sent CurrentBuffer; Sent (BufferName buffer); Sent (Command "write")]
        else
          fst (saveBuffer rpc attach filename w) =
          Throw (NeovimValidationError
                   "Cannot save unnamed buffer without specifying filename")
          /\ calls (snd (saveBuffer rpc attach filename w)) =
             calls w ++ [Sent CurrentBuffer; Sent (BufferName buffer)]
  end.
Proof.
  intros Hconnect. unfold saveBuffer, tryCatch.
  rewrite bind_run, (connect_normal attach w Hconnect).
  destruct (givenName filename) as [f |].
  - intros reply st1 Hreply. step Hreply.
    destruct reply; split; reflexivity.
  - intros buffer bufferName st1 st2 Hbuffer Hname. step Hbuffer. step Hname.
    destruct (Js.nonEmpty bufferName).
    + intros reply st3 Hreply. cbn [negb]. step Hreply.
      destruct reply; cbn [fst snd calls isValidationError errorMessage default];
        (split; [reflexivity |]); rewrite <- !app_assoc; reflexivity.
    + cbn [negb fst snd calls isValidationError throw].
      split; [reflexivity |]. rewrite <- !app_assoc. reflexivity.
Qed.

End Names.

Lemma setRegister_outcomes_witness :
  setRegister (Canned.rpc Canned.threeMatches) Nvim.attach "A" "x"
    (Canned.world Nvim.defaultEnv) =
  (Normal "Invalid register name", Canned.world Nvim.defaultEnv)
  /\ fst (setRegister (Canned.rpc Canned.threeMatches) Nvim.attach Js.dq "it's"
            (Canned.world Nvim.defaultEnv)) =
     Normal ("Register " +:+ Js.dq +:+ " set")
  /\ calls (snd (setRegister (Canned.rpc Canned.threeMatches) Nvim.attach Js.dq "it's"
                   (Canned.world Nvim.defaultEnv))) =
     [Sent (Eval ("setreg('" +:+ Js.dq +:+ "', 'it''s')"))].
Proof.
  destruct (setRegister_outcomes (Canned.rpc Canned.threeMatches) Nvim.attach "A" "x"
              (Canned.world Nvim.defaultEnv) (Resolved VNull) ()) as [Hinvalid _].
  destruct (setRegister_outcomes (Canned.rpc Canned.threeMatches) Nvim.attach Js.dq "it's"
              (Canned.world Nvim.defaultEnv)
              (Resolved (VObj [("total", VNum 3); ("incomplete", VNum 0)])) ())
    as [_ Hvalid].
  destruct (Hvalid eq_refl eq_refl eq_refl) as [Hresult Hcalls].
  split; [exact (Hinvalid eq_refl) | split; [exact Hresult | exact Hcalls]].
Defined.

Lemma manipulateWindow_prefix_check_witness :
  manipulateWindow (Canned.rpc Canned.threeMatches) Nvim.attach "resize 10"
    (Canned.world Nvim.defaultEnv) =
  (Normal "Invalid window command", Canned.world Nvim.defaultEnv)
  /\ fst (manipulateWindow (Canned.rpc Canned.threeMatches) Nvim.attach "split README.md"
            (Canned.world Nvim.defaultEnv)) = Normal "Window command executed"
  /\ calls (snd (manipulateWindow (Canned.rpc Canned.threeMatches) Nvim.attach
                   "split README.md" (Canned.world Nvim.defaultEnv))) =
     [Sent (Command "split README.md")].
Proof.
  destruct (manipulateWindow_prefix_check (Canned.rpc Canned.threeMatches) Nvim.attach
              "resize 10" (Canned.world Nvim.defaultEnv) (Resolved ()) ()) as [Hinvalid _].
  destruct (manipulateWindow_prefix_check (Canned.rpc Canned.threeMatches) Nvim.attach
              "split README.md" (Canned.world Nvim.defaultEnv) (Resolved ()) ())
    as [_ Hvalid].
  destruct (Hvalid "split" " README.md" (or_introl eq_refl) eq_refl eq_refl eq_refl)
    as [Hresult Hcalls].
  split; [exact (Hinvalid eq_refl) | split; [exact Hresult | exact Hcalls]].
Defined.

Lemma threeBuffers_named :
  namesBuffers (Canned.rpc Canned.threeBuffers) Canned.nameOf
    [{| bufferId := 1 |}; {| bufferId := 2 |}; {| bufferId := 3 |}].
Proof.
  intros b st Hin. destruct st.
  repeat (destruct Hin as [<- | Hin]; [reflexivity |]). destruct Hin.
Defined.

Lemma switchBuffer_by_name_witness :
  fst (switchBuffer (Canned.rpc Canned.threeBuffers) Nvim.attach (inr "index.ts")
         (Canned.world Nvim.defaultEnv)) = Normal "Switched to buffer: /src/index.ts"
  /\ calls (snd (switchBuffer (Canned.rpc Canned.threeBuffers) Nvim.attach (inr "index.ts")
                   (Canned.world Nvim.defaultEnv))) =
     [Sent Buffers; Sent (BufferName {| bufferId := 1 |});
      Sent (BufferName {| bufferId := 2 |}); Sent (Command "buffer 2")].
Proof.
  exact (switchBuffer_by_name (Canned.rpc Canned.threeBuffers) Nvim.attach "index.ts"
           Canned.nameOf [{| bufferId := 1 |}; {| bufferId := 2 |}; {| bufferId := 3 |}]
           (Canned.world Nvim.defaultEnv) () eq_refl eq_refl threeBuffers_named
           (Resolved ()) () eq_refl).
Defined.

Lemma getBufferContents_by_name_witness :
  fst (getBufferContents (Canned.rpc Canned.threeBuffers) Nvim.attach (Some "index.ts")
         (Canned.world Nvim.defaultEnv)) = Normal [(1, "2")].
Proof.
  exact (getBufferContents_by_name (Canned.rpc Canned.threeBuffers) Nvim.attach "index.ts"
           Canned.nameOf [{| bufferId := 1 |}; {| bufferId := 2 |}; {| bufferId := 3 |}]
           (Canned.world Nvim.defaultEnv) () eq_refl eq_refl eq_refl threeBuffers_named
           (Resolved ["2"]) () eq_refl).
Defined.

Lemma saveBuffer_outcomes_witness :
  fst (saveBuffer (Canned.rpc Canned.unnamed) Nvim.attach (Some EmptyString)
         (Canned.world Nvim.defaultEnv)) =
  Throw (NeovimValidationError "Cannot save unnamed buffer without specifying filename")
  /\ calls (snd (saveBuffer (Canned.rpc Canned.unnamed) Nvim.attach (Some EmptyString)
                   (Canned.world Nvim.defaultEnv))) =
     [Sent CurrentBuffer; Sent (BufferName {| bufferId := 1 |})].
Proof.
  exact (saveBuffer_outcomes (Canned.rpc Canned.unnamed) Nvim.attach (Some EmptyString)
           (Canned.world Nvim.defaultEnv) eq_refl {| bufferId := 1 |} EmptyString () ()
           eq_refl eq_refl).
Defined.

(** ** The connection comes first *)

Section ConnectionFirst.

Context {St : Type}.
Variable rpc : forall A : Type, Request A -> St -> Reply A * St.
Variable attach : string -> option Exn.
Variable sameTabpage : Tabpage -> Tabpage -> bool.

Lemma calm_ret {A : Type} (a : A) : calm (mret a : M St A).
Proof. split; intros w; split; reflexivity. Qed.

Lemma calm_throw {A : Type} (e : Exn) : calm (throw e : M St A).
Proof. split; intros w; split; reflexivity. Qed.

Lemma calm_consoleError (label : string) : calm (consoleError label : M St unit).
Proof. split; intros w; split; reflexivity. Qed.

Lemma calm_bind {A B : Type} (m : M St A) (k : A -> M St B) :
  calm m -> (forall a, calm (k a)) -> calm (m ≫= k).
Proof.
  intros [Hm1 Hm2] Hk. split; intros w; rewrite bind_run;
    destruct (Hm1 w) as [Hr Hc]; destruct (Hm2 w) as [He Hs];
    destruct (m w) as [[a | e] w1]; simpl in *; try (split; assumption).
  - destruct (Hk a) as [Hk1 _]. destruct (Hk1 w1) as [Hr' Hc']. split; congruence.
  - destruct (Hk a) as [_ Hk2]. destruct (Hk2 w1) as [He' Hs']. split; congruence.
Qed.

Lemma calm_if {A : Type} (c : bool) (a b : M St A) :
  calm a -> calm b -> calm (if c then a else b).
Proof. destruct c; auto. Qed.

Lemma connectFirst_connect : connectFirst attach (connect attach : M St unit).
Proof.
  intros w e H. destruct (connect attach w) as [c w1]. simpl in *. subst c. reflexivity.
Qed.

Lemma connectFirst_bind {A B : Type} (m : M St A) (k : A -> M St B) :
  connectFirst attach m -> connectFirst attach (m ≫= k).
Proof.
  intros Hm w e H. rewrite bind_run, (Hm w e H). reflexivity.
Qed.

Lemma connect_unreached (w : World St) : unreached w (connect attach).
Proof.
  unfold unreached.
  destruct (connect_cases attach w)
    as [[Hblank Hc] | [Hblank [w' [[He [Hr Hcalls]] [Hc | [cause Hc]]]]]];
    rewrite Hc; simpl; repeat split; try assumption; try reflexivity;
    intros Hb; congruence.
Qed.

Lemma unreached_guarded {A : Type} (body : M St A) (handler : Exn -> M St A)
    (w : World St) (e : Exn) :
  connectFirst attach body -> (forall e, calm (handler e)) ->
  fst (connect attach w) = Throw e ->
  unreached w (tryCatch body handler).
Proof.
  intros Hbody Hhandler Hfail. unfold unreached, tryCatch.
  rewrite (Hbody w e Hfail).
  destruct (connect_unreached w) as [Hr [Hc [He Hs]]].
  destruct (Hhandler e) as [Hmute Hdetached].
  destruct (Hmute (snd (connect attach w))) as [Hr' Hc'].
  destruct (Hdetached (snd (connect attach w))) as [He' Hs'].
  repeat split; try congruence. intros Hb. rewrite Hs'. exact (Hs Hb).
Qed.

Lemma unreached_ret {A : Type} (a : A) (w : World St) : unreached w (mret a).
Proof. repeat split; reflexivity. Qed.

Lemma unreached_throw {A : Type} (e : Exn) (w : World St) : unreached w (throw e : M St A).
Proof. repeat split; reflexivity. Qed.

Lemma unreached_if {A : Type} (c : bool) (a b : M St A) (w : World St) :
  unreached w a -> unreached w b -> unreached w (if c then a else b).
Proof. destruct c; auto. Qed.

Lemma unreached_discard {A : Type} (m : M St A) (w : World St) :
  unreached w m -> unreached w (discard m).
Proof.
  unfold unreached, discard. rewrite bind_run.
  destruct (m w) as [[a | e] w1]; simpl; auto.
Qed.

Ltac calmly :=
  repeat first
    [ apply calm_ret
    | apply calm_throw
    | apply calm_consoleError
    | apply calm_if
    | apply calm_bind; [ | intros ] ].

Ltac first_connect :=
  unfold getBufferContents_try, sendCommand_try, getNeovimStatus_try, editLines_try,
    searchInBuffer_try, searchAndReplace_try, manageMacro_try, manageTab_try,
    manageFold_try, navigateJumpList_try;
  repeat first [ exact connectFirst_connect | apply connectFirst_bind ].

Ltac guarded H :=
  repeat first
    [ apply unreached_ret
    | apply unreached_throw
    | apply unreached_if
    | eapply unreached_guarded; [ first_connect | intros; calmly | exact H ] ].

(** X13: when the connection cannot be made, whether the socket path is
    blank or the attach fails, no operation of the bridge sends anything to
    the editor, whatever its arguments; with a blank socket path it does not
    even try to attach. *)
Theorem connection_failure_sends_nothing (op : Operation) (w : World St) (e : Exn) :
  fst (connect attach w) = Throw e ->
  remote (snd (perform rpc attach sameTabpage op w)) = remote w
  /\ calls (snd (perform rpc attach sameTabpage op w)) = calls w
  /\ env (snd (perform rpc attach sameTabpage op w)) = env w
  /\ (Js.isBlank (socketPathOf (env w)) = true ->
      sockets (snd (perform rpc attach sameTabpage op w)) = sockets w).
Proof.
  intros Hfail. change (unreached w (perform rpc attach sameTabpage op)).
  destruct op; cbn [perform]; try apply unreached_discard.
  - apply connect_unreached.
  - unfold healthCheck. guarded Hfail.
  - unfold getBufferContents. guarded Hfail.
  - unfold sendCommand. guarded Hfail.
  - unfold getNeovimStatus. guarded Hfail.
  - unfold editLines. guarded Hfail.
  - unfold manipulateWindow. guarded Hfail.
  - unfold setMark. guarded Hfail.
  - unfold setRegister. guarded Hfail.
  - unfold visualSelect. guarded Hfail.
  - unfold switchBuffer. guarded Hfail.
  - unfold saveBuffer. guarded Hfail.
  - unfold openFile. guarded Hfail.
  - unfold searchInBuffer. guarded Hfail.
  - unfold searchAndReplace. guarded Hfail.
  - unfold getWindows. guarded Hfail.
  - unfold grepInProject. guarded Hfail.
  - unfold getOpenBuffers. guarded Hfail.
  - unfold manageMacro. guarded Hfail.
  - unfold manageTab. guarded Hfail.
  - unfold manageFold. guarded Hfail.
  - unfold navigateJumpList. guarded Hfail.
Qed.

End ConnectionFirst.

Lemma connection_failure_sends_nothing_witness :
  remote (snd (perform Nvim.rpc Nvim.unreachable (fun _ _ => true)
                 (OpEditLines 1 replaceAll "gone") plainWorld)) = Nvim.sample
  /\ calls (snd (perform Nvim.rpc Nvim.unreachable (fun _ _ => true)
                   (OpEditLines 1 replaceAll "gone") plainWorld)) = [].
Proof.
  destruct (connection_failure_sends_nothing Nvim.rpc Nvim.unreachable (fun _ _ => true)
              (OpEditLines 1 replaceAll "gone") plainWorld
              (NeovimConnectionError "/tmp/nvim" (JsError "connect ENOENT /tmp/nvim"))
              eq_refl) as [Hremote [Hcalls _]].
  split; [exact Hremote | exact Hcalls].
Defined.

(** ** One connection attempt for each operation *)

Section OneAttach.

Context {St : Type}.
Variable rpc : forall A : Type, Request A -> St -> Reply A * St.
Variable attach : string -> option Exn.
Variable sameTabpage : Tabpage -> Tabpage -> bool.

Lemma detached_ret {A : Type} (a : A) : detached (mret a : M St A).
Proof. intros w. split; reflexivity. Qed.

Lemma detached_throw {A : Type} (e : Exn) : detached (throw e : M St A).
Proof. intros w. split; reflexivity. Qed.

Lemma detached_lift {A : Type} (c : Completion A) : detached (lift c : M St A).
Proof. intros w. split; reflexivity. Qed.

Lemma detached_processEnv : detached (processEnv : M St ProcessEnv).
Proof. intros w. split; reflexivity. Qed.

Lemma detached_consoleError (label : string) : detached (consoleError label : M St unit).
Proof. intros w. split; reflexivity. Qed.

Lemma detached_request {A : Type} (r : Request A) : detached (request rpc r).
Proof.
  intros w. unfold request, send. destruct (rpc A r (remote w)) as [[a | message] st];
    split; reflexivity.
Qed.

Lemma detached_settle {A : Type} (r : Request A) : detached (settle rpc r).
Proof.
  intros w. unfold settle, send. destruct (rpc A r (remote w)); split; reflexivity.
Qed.

Lemma detached_fire {A : Type} (r : Request A) : detached (fire rpc r).
Proof.
  intros w. unfold fire, send. destruct (rpc A r (remote w)); split; reflexivity.
Qed.

Lemma detached_awaitReply {A : Type} (reply : Reply A) : detached (awaitReply reply : M St A).
Proof. destruct reply; intros w; split; reflexivity. Qed.

Lemma detached_bind {A B : Type} (m : M St A) (k : A -> M St B) :
  detached m -> (forall a, detached (k a)) -> detached (m ≫= k).
Proof.
  intros Hm Hk w. rewrite bind_run. destruct (Hm w) as [He Hs].
  destruct (m w) as [[a | e] w1]; simpl in *; [| split; assumption].
  destruct (Hk a w1) as [He' Hs']. split; congruence.
Qed.

Lemma detached_tryCatch {A : Type} (body : M St A) (handler : Exn -> M St A) :
  detached body -> (forall e, detached (handler e)) -> detached (tryCatch body handler).
Proof.
  intros Hbody Hhandler w. unfold tryCatch. destruct (Hbody w) as [He Hs].
  destruct (body w) as [[a | e] w1]; simpl in *; [split; assumption |].
  destruct (Hhandler e w1) as [He' Hs']. split; congruence.
Qed.

Lemma detached_if {A : Type} (c : bool) (a b : M St A) :
  detached a -> detached b -> detached (if c then a else b).
Proof. destruct c; auto. Qed.

Ltac apart_with known :=
  cbv zeta;
  repeat first
    [ apply detached_ret
    | apply detached_throw
    | apply detached_lift
    | apply detached_processEnv
    | apply detached_consoleError
    | apply detached_request
    | apply detached_settle
    | apply detached_fire
    | apply detached_awaitReply
    | known
    | apply detached_tryCatch; [ | intros ]
    | apply detached_bind; [ | intros ]
    | apply detached_if
    | match goal with
      | |- detached (match ?x with _ => _ end) => destruct x
      end ].

Ltac apart := apart_with fail.

Lemma findBuffer_detached (filename : string) (buffers : list Buffer) :
  detached (findBuffer rpc filename buffers).
Proof.
  induction buffers as [| b rest IH]; cbn [findBuffer]; apart_with ltac:(exact IH).
Qed.

Lemma switchToNamed_detached (identifier : string) (buffers : list Buffer) :
  detached (switchToNamed rpc identifier buffers).
Proof.
  induction buffers as [| b rest IH]; cbn [switchToNamed]; apart_with ltac:(exact IH).
Qed.

Lemma readMarks_detached (names : list string) :
  forall marks, detached (readMarks rpc names marks).
Proof.
  induction names as [| mark rest IH]; intros marks; cbn [readMarks]; unfold readMark;
    apart_with ltac:(apply IH).
Qed.

Lemma readRegisters_detached (names : list string) :
  forall registers, detached (readRegisters rpc names registers).
Proof.
  induction names as [| reg rest IH]; intros registers; cbn [readRegisters];
    unfold readRegister; apart_with ltac:(apply IH).
Qed.

Lemma windowInfos_detached (windows : list Window) : detached (windowInfos rpc windows).
Proof.
  induction windows as [| win rest IH]; cbn [windowInfos]; apart_with ltac:(exact IH).
Qed.

Lemma windowsShowing_detached (buffer : Buffer) (windows : list Window) :
  detached (windowsShowing rpc buffer windows).
Proof.
  induction windows as [| win rest IH]; cbn [windowsShowing]; apart_with ltac:(exact IH).
Qed.

Lemma bufferInfos_detached (windows : list Window) (buffers : list Buffer) :
  detached (bufferInfos rpc windows buffers).
Proof.
  induction buffers as [| b rest IH]; cbn [bufferInfos];
    apart_with ltac:(first [exact IH | apply windowsShowing_detached]).
Qed.

Lemma tabLines_detached (tabs : list Tabpage) :
  forall i, detached (tabLines rpc sameTabpage i tabs).
Proof.
  induction tabs as [| tab rest IH]; intros i; cbn [tabLines]; apart_with ltac:(apply IH).
Qed.

Ltac loops :=
  first
    [ apply findBuffer_detached
    | apply switchToNamed_detached
    | apply readMarks_detached
    | apply readRegisters_detached
    | apply windowInfos_detached
    | apply bufferInfos_detached
    | apply tabLines_detached ].

Lemma connect_oneAttach (w : World St) : oneAttach w (connect attach).
Proof.
  unfold oneAttach, connect. rewrite bind_run. simpl. unfold validateSocketPath.
  rewrite bind_run. destruct (Js.isBlank (socketPathOf (env w))); simpl.
  - split; [reflexivity | left; reflexivity].
  - unfold tryCatch, attachSocket. destruct (attach (socketPathOf (env w))); simpl;
      (split; [reflexivity | right; reflexivity]).
Qed.

Lemma oneAttach_bind {A B : Type} (m : M St A) (k : A -> M St B) (w : World St) :
  oneAttach w m -> (forall a, detached (k a)) -> oneAttach w (m ≫= k).
Proof.
  unfold oneAttach. intros [He Hs] Hk. rewrite bind_run.
  destruct (m w) as [[a | e] w1]; simpl in *; [| split; assumption].
  destruct (Hk a w1) as [He' Hs']. rewrite He', Hs'. split; assumption.
Qed.

Lemma oneAttach_tryCatch {A : Type} (body : M St A) (handler : Exn -> M St A)
    (w : World St) :
  oneAttach w body -> (forall e, detached (handler e)) -> oneAttach w (tryCatch body handler).
Proof.
  unfold oneAttach, tryCatch. intros [He Hs] Hhandler.
  destruct (body w) as [[a | e] w1]; simpl in *; [split; assumption |].
  destruct (Hhandler e w1) as [He' Hs']. rewrite He', Hs'. split; assumption.
Qed.

Lemma oneAttach_detached {A : Type} (m : M St A) (w : World St) :
  detached m -> oneAttach w m.
Proof.
  intros H. destruct (H w) as [He Hs]. split; [exact He | left; exact Hs].
Qed.

Lemma oneAttach_if {A : Type} (c : bool) (a b : M St A) (w : World St) :
  oneAttach w a -> oneAttach w b -> oneAttach w (if c then a else b).
Proof. destruct c; auto. Qed.

Ltac attaching :=
  unfold getBufferContents_try, sendCommand_try, getNeovimStatus_try, editLines_try,
    searchInBuffer_try, searchAndReplace_try, manageMacro_try, manageTab_try,
    manageFold_try, navigateJumpList_try;
  repeat first
    [ apply connect_oneAttach
    | apply oneAttach_if
    | apply oneAttach_tryCatch; [ | intros; apart ]
    | apply oneAttach_bind;
      [ | intros; unfold lspLookup, pluginLookup, readVisualSelection, visualFallback;
          apart_with loops ]
    | apply oneAttach_detached; apart ].

(** X14: every operation of the bridge leaves the environment as it was and
    tries to attach at most once, to the socket path the environment gives:
    there is no second attempt and no fallback to another path. *)
Theorem operations_attach_once (op : Operation) (w : World St) :
  env (snd (perform rpc attach sameTabpage op w)) = env w
  /\ (sockets (snd (perform rpc attach sameTabpage op w)) = sockets w
      \/ sockets (snd (perform rpc attach sameTabpage op w)) =
         sockets w ++ [socketPathOf (env w)]).
Proof.
  change (oneAttach w (perform rpc attach sameTabpage op)).
  destruct op; cbn [perform]; unfold discard.
  - apply connect_oneAttach.
  - unfold healthCheck. attaching.
  - unfold getBufferContents. attaching.
  - unfold sendCommand. attaching.
  - unfold getNeovimStatus. attaching.
  - unfold editLines. attaching.
  - unfold manipulateWindow. attaching.
  - unfold setMark. attaching.
  - unfold setRegister. attaching.
  - unfold visualSelect. attaching.
  - unfold switchBuffer. attaching.
  - unfold saveBuffer. attaching.
  - unfold openFile. attaching.
  - unfold searchInBuffer. attaching.
  - unfold searchAndReplace. attaching.
  - unfold getWindows. attaching.
  - unfold grepInProject. attaching.
  - unfold getOpenBuffers. attaching.
  - unfold manageMacro. attaching.
  - unfold manageTab. attaching.
  - unfold manageFold. attaching.
  - unfold navigateJumpList. attaching.
Qed.

End OneAttach.

(** ** The tools of the server *)

Section ToolBoundary.

Context {St : Type}.
Variable rpc : forall A : Type, Request A -> St -> Reply A * St.
Variable attach : string -> option Exn.
Variable sameTabpage : Tabpage -> Tabpage -> bool.
Variable stringifyStatus : StatusResult -> Completion string.

Lemma toolText_run (fallback : string) (operation : M St string) (w : World St) :
  fst (toolText fallback operation w) =
  match fst (operation w) with
  | Normal text => Normal text
  | Throw e => Normal (errorMessage fallback e)
  end.
Proof.
  unfold toolText, tryCatch. destruct (operation w) as [[text | e] w1]; reflexivity.
Qed.

Lemma toolText_returns (fallback : string) (operation : M St string) :
  returns (toolText fallback operation) (fun _ => True).
Proof.
  unfold toolText. apply returns_tryCatch; [apply ensures_trivial |].
  intros e. apply returns_ret. exact I.
Qed.

Lemma healthCheck_returns : returns (healthCheck rpc attach) (fun _ => True).
Proof.
  unfold healthCheck. apply returns_tryCatch; [apply ensures_trivial |].
  intros e. apply returns_ret. exact I.
Qed.

Lemma blank_connect (w : World St) :
  Js.isBlank (socketPathOf (env w)) = true ->
  connect attach w = (Throw (NeovimValidationError "Socket path cannot be empty"), w).
Proof.
  intros Hblank.
  destruct (connect_cases attach w) as [[_ Hc] | [Hfalse _]]; [exact Hc | congruence].
Qed.

(** X15: whenever the operation behind a tool handler returns or raises,
    the handler answers: with the text the operation returned, or with the
    message of the error it raised, the handler's own text standing in for
    a thrown value that is not an error.  The session resource has no such
    guard: it fails with "Socket path cannot be empty" when the socket path
    is blank, and that validation error is the only exception it raises. *)
Theorem tools_answer_resource_may_fail :
  (forall tool w,
     fst (callTool rpc attach sameTabpage stringifyStatus tool w) =
     match fst (toolOperation rpc attach sameTabpage stringifyStatus tool w) with
     | Normal text => Normal text
     | Throw e => Normal (errorMessage (toolFallback tool) e)
     end)
  /\ (forall w,
        Js.isBlank (socketPathOf (env w)) = true ->
        fst (sessionResource rpc attach w) =
        Throw (NeovimValidationError "Socket path cannot be empty"))
  /\ raises (sessionResource rpc attach)
       (fun e => e = NeovimValidationError "Socket path cannot be empty").
Proof.
  split; [| split].
  - intros tool w. destruct tool; cbn [callTool toolOperation toolFallback];
      try (unfold vim_buffer, vim_status, vim_edit, vim_window, vim_mark, vim_register,
             vim_visual, vim_buffer_switch, vim_buffer_save, vim_file_open, vim_search,
             vim_search_replace, vim_grep, vim_macro, vim_tab, vim_fold, vim_jump;
           apply toolText_run).
    unfold vim_health.
    assert (H : returns (healthCheck rpc attach ≫= fun isHealthy : bool =>
                           mret (if isHealthy then "Neovim connection is healthy"
                                 else "Neovim connection failed"))
                    (fun _ => True)).
    { eapply returns_bind; [apply healthCheck_returns |].
      intros isHealthy _. apply returns_ret. exact I. }
    specialize (H w).
    destruct (fst ((healthCheck rpc attach ≫= fun isHealthy : bool =>
                    mret (if isHealthy then "Neovim connection is healthy"
                          else "Neovim connection failed")) w));
      [reflexivity | contradiction].
  - intros w Hblank. unfold sessionResource, getBufferContents, getBufferContents_try.
    rewrite bind_run. unfold tryCatch. rewrite bind_run, (blank_connect w Hblank).
    reflexivity.
  - unfold sessionResource. apply raises_bind; [| intros; apply raises_ret].
    unfold getBufferContents.
    eapply raises_tryCatch_from; [apply getBufferContents_try_raises |].
    intros e He. simpl in He. destruct (isValidationError e) eqn:Hkind.
    + apply raises_throw. destruct (He eq_refl) as [Hsocket | [f [Hf _]]];
        [exact Hsocket | discriminate Hf].
    + escape.
Qed.

(** X16: [healthCheck] raises nothing.  It answers false when [connect]
    raises, as it does for a blank socket path, and when the editor rejects
    the evaluation of "1"; it answers true when the connection is made and
    the editor answers that evaluation. *)
Theorem healthCheck_meaning (w : World St) :
  raises (healthCheck rpc attach) (fun _ => False)
  /\ (forall e, fst (connect attach w) = Throw e ->
      fst (healthCheck rpc attach w) = Normal false)
  /\ (fst (connect attach w) = Normal () ->
      forall reply st,
        rpc Value (Eval "1") (remote w) = (reply, st) ->
        fst (healthCheck rpc attach w) =
        Normal (match reply with
                | Resolved _ => true
                | Rejected _ => false
                end)).
Proof.
  split; [| split].
  - unfold healthCheck. apply raises_tryCatch. intros e. apply raises_ret.
  - intros e Hconnect. unfold healthCheck, tryCatch. rewrite bind_run.
    destruct (connect attach w) as [c w1]. simpl in Hconnect. subst c. reflexivity.
  - intros Hconnect reply st Hreply. unfold healthCheck, tryCatch.
    rewrite bind_run, (connect_normal attach w Hconnect).
    step Hreply. destruct reply; reflexivity.
Qed.

Ltac unknown H :=
  cbn [existsb] in H;
  repeat (apply orb_false_iff in H; let H' := fresh "Hne" in destruct H as [H' H]);
  rewrite ?H; clear H;
  repeat match goal with Hne : String.eqb _ _ = false |- _ => rewrite Hne; clear Hne end.

(** X17: once connected, an action that a manager does not know is refused
    with a validation error that names it, and nothing is sent to the
    editor: this holds for the macro, tab and fold managers and for the jump
    list. *)
Theorem unknown_actions_rejected (action : string) (w : World St) :
  fst (connect attach w) = Normal () ->
  (existsb (String.eqb action) macroActions = false ->
   forall register count,
     fst (manageMacro rpc attach action register count w) =
     Throw (NeovimValidationError ("Unknown macro action: " +:+ action))
     /\ calls (snd (manageMacro rpc attach action register count w)) = calls w)
  /\ (existsb (String.eqb action) tabActions = false ->
      forall filename,
        fst (manageTab rpc attach sameTabpage action filename w) =
        Throw (NeovimValidationError ("Unknown tab action: " +:+ action))
        /\ calls (snd (manageTab rpc attach sameTabpage action filename w)) = calls w)
  /\ (existsb (String.eqb action) foldActions = false ->
      forall startLine endLine,
        fst (manageFold rpc attach action startLine endLine w) =
        Throw (NeovimValidationError ("Unknown fold action: " +:+ action))
        /\ calls (snd (manageFold rpc attach action startLine endLine w)) = calls w)
  /\ (existsb (String.eqb action) jumpDirections = false ->
      fst (navigateJumpList rpc attach action w) =
      Throw (NeovimValidationError ("Unknown jump direction: " +:+ action))
      /\ calls (snd (navigateJumpList rpc attach action w)) = calls w).
Proof.
  intros Hconnect. repeat split; intros; revert H;
    unfold macroActions, tabActions, foldActions, jumpDirections; intros H.
  all: unfold manageMacro, manageMacro_try, manageTab, manageTab_try, manageFold,
         manageFold_try, navigateJumpList, navigateJumpList_try, tryCatch;
       rewrite bind_run, (connect_normal attach w Hconnect); unknown H; reflexivity.
Qed.



End ToolBoundary.

Lemma tools_answer_resource_may_fail_witness :
  fst (callTool Nvim.rpc Nvim.attach (fun _ _ => true) (fun _ => Normal EmptyString)
         (ToolBuffer None) blankSocketWorld) = Normal "Socket path cannot be empty"
  /\ fst (sessionResource Nvim.rpc Nvim.attach blankSocketWorld) =
     Throw (NeovimValidationError "Socket path cannot be empty").
Proof.
  destruct (tools_answer_resource_may_fail Nvim.rpc Nvim.attach (fun _ _ => true)
              (fun _ => Normal EmptyString)) as [Htools [Hsession _]].
  split.
  - exact (Htools (ToolBuffer None) blankSocketWorld).
  - exact (Hsession blankSocketWorld eq_refl).
Defined.

Lemma healthCheck_meaning_witness :
  fst (healthCheck Nvim.rpc Nvim.attach blankSocketWorld) = Normal false
  /\ fst (healthCheck Nvim.rpc Nvim.attach plainWorld) = Normal true.
Proof.
  split.
  - exact (proj1 (proj2 (healthCheck_meaning Nvim.rpc Nvim.attach blankSocketWorld))
             (NeovimValidationError "Socket path cannot be empty") eq_refl).
  - exact (proj2 (proj2 (healthCheck_meaning Nvim.rpc Nvim.attach plainWorld))
             eq_refl (Resolved (VNum 1)) Nvim.sample eq_refl).
Defined.

Lemma unknown_actions_rejected_witness :
  fst (manageTab (Canned.rpc Canned.threeMatches) Nvim.attach (fun _ _ => true) "only" None
         (Canned.world Nvim.defaultEnv)) =
  Throw (NeovimValidationError "Unknown tab action: only")
  /\ calls (snd (manageTab (Canned.rpc Canned.threeMatches) Nvim.attach (fun _ _ => true)
                   "only" None (Canned.world Nvim.defaultEnv))) = [].
Proof.
  exact (proj1 (proj2 (unknown_actions_rejected (Canned.rpc Canned.threeMatches) Nvim.attach
                         (fun _ _ => true) "only" (Canned.world Nvim.defaultEnv) eq_refl))
           eq_refl None).
Defined.


(** ** Listings *)

Section Listings.

Context {St : Type}.
Variable rpc : forall A : Type, Request A -> St -> Reply A * St.
Variable attach : string -> option Exn.

Lemma ensures_bind_from {A B : Type} (m : M St A) (k : A -> M St B)
    (P : A -> Prop) (Q : B -> Prop) :
  ensures m P -> (forall a, P a -> ensures (k a) Q) -> ensures (m ≫= k) Q.
Proof.
  intros Hm Hk w. rewrite bind_run. specialize (Hm w).
  destruct (m w) as [[a | e] w']; simpl in *; [apply Hk, Hm | exact I].
Qed.

Lemma ensures_tryCatch {A : Type} (body : M St A) (handler : Exn -> M St A)
    (Q : A -> Prop) :
  ensures body Q -> (forall e, ensures (handler e) Q) -> ensures (tryCatch body handler) Q.
Proof.
  intros Hb Hh w. unfold tryCatch. specialize (Hb w).
  destruct (body w) as [[a | e] w']; simpl in *; [exact Hb | apply Hh].
Qed.

Lemma windowInfos_ids (windows : list Window) :
  ensures (windowInfos rpc windows)
    (fun infos => List.map WindowInfo.id infos = List.map windowId windows).
Proof.
  induction windows as [| win rest IH]; cbn [windowInfos].
  - apply ensures_ret. reflexivity.
  - do 6 (apply ensures_bind; intros).
    eapply ensures_bind_from; [exact IH |].
    intros infos Hinfos. apply ensures_ret. simpl. rewrite Hinfos. reflexivity.
Qed.

Lemma bufferInfos_numbers (windows : list Window) (buffers : list Buffer) :
  ensures (bufferInfos rpc windows buffers)
    (fun infos => List.map BufferInfo.number infos = List.map bufferId buffers).
Proof.
  induction buffers as [| b rest IH]; cbn [bufferInfos].
  - apply ensures_ret. reflexivity.
  - do 10 (apply ensures_bind; intros).
    eapply ensures_bind_from; [exact IH |].
    intros infos Hinfos. apply ensures_ret. simpl. rewrite Hinfos. reflexivity.
Qed.

(** X19: [getWindows] and [getOpenBuffers] never fail and answer all or
    nothing: the list they give has one entry for each window, or buffer,
    that the editor listed, in the same order, or else it is empty; a call
    the editor rejects for one window or buffer discards the entries already
    made for the others. *)
Theorem listings_all_or_nothing (w : World St) :
  (exists infos,
     fst (getWindows rpc attach w) = Normal infos
     /\ (infos = []
         \/ exists windows st,
              rpc (list Window) Windows (remote w) = (Resolved windows, st)
              /\ List.map WindowInfo.id infos = List.map windowId windows))
  /\ (exists infos,
        fst (getOpenBuffers rpc attach w) = Normal infos
        /\ (infos = []
            \/ exists buffers st,
                 rpc (list Buffer) Buffers (remote w) = (Resolved buffers, st)
                 /\ List.map BufferInfo.number infos = List.map bufferId buffers)).
Proof.
  split.
  - unfold getWindows, tryCatch. rewrite bind_run.
    destruct (fst (connect attach w)) as [[] | e] eqn:Hconnect.
    + rewrite (connect_normal attach w Hconnect). rewrite bind_run.
      unfold request at 1, send. cbn [env remote sockets calls console].
      destruct (rpc (list Window) Windows (remote w)) as [[windows | message] st] eqn:Hwindows.
      * match goal with |- context [windowInfos rpc windows ?w1] =>
          pose proof (windowInfos_ids windows w1) as Hids;
          destruct (windowInfos rpc windows w1) as [[infos | e] w2]
        end; simpl in *.
        -- exists infos. split; [reflexivity |]. right. exists windows, st. split; auto.
        -- exists []. split; [reflexivity | left; reflexivity].
      * exists []. split; [reflexivity | left; reflexivity].
    + destruct (connect attach w) as [c w1]. simpl in Hconnect. subst c.
      exists []. split; [reflexivity | left; reflexivity].
  - unfold getOpenBuffers, tryCatch. rewrite bind_run.
    destruct (fst (connect attach w)) as [[] | e] eqn:Hconnect.
    + rewrite (connect_normal attach w Hconnect). rewrite bind_run.
      unfold request at 1, send. cbn [env remote sockets calls console].
      destruct (rpc (list Buffer) Buffers (remote w)) as [[buffers | message] st] eqn:Hbuffers.
      * rewrite bind_run.
        match goal with |- context [request rpc Windows ?w1] =>
          destruct (request rpc Windows w1) as [[windows | e] w2]
        end.
        -- match goal with |- context [bufferInfos rpc windows buffers ?w1] =>
             pose proof (bufferInfos_numbers windows buffers w1) as Hnumbers;
             destruct (bufferInfos rpc windows buffers w1) as [[infos | e] w3]
           end; simpl in *.
           ++ exists infos. split; [reflexivity |]. right. exists buffers, st. split; auto.
           ++ exists []. split; [reflexivity | left; reflexivity].
        -- exists []. split; [reflexivity | left; reflexivity].
      * exists []. split; [reflexivity | left; reflexivity].
    + destruct (connect attach w) as [c w1]. simpl in Hconnect. subst c.
      exists []. split; [reflexivity | left; reflexivity].
Qed.

End Listings.

(** ** The marks and registers of a status *)

Section StatusMaps.

Context {St : Type}.
Variable rpc : forall A : Type, Request A -> St -> Reply A * St.
Variable attach : string -> option Exn.
Hypothesis positions : numericPositions rpc.
Hypothesis contents : textRegisters rpc.

Lemma ensures_request {A : Type} (r : Request A) : ensures (request rpc r) (issued rpc r).
Proof.
  intros w. unfold request, send.
  destruct (rpc A r (remote w)) as [[a | message] st] eqn:H; simpl; [| exact I].
  exists (remote w). rewrite H. reflexivity.
Qed.

Lemma ensures_lift_bind {A B : Type} (a : A) (k : A -> M St B) (Q : B -> Prop) :
  ensures (k a) Q -> ensures (lift (Normal a) ≫= k) Q.
Proof. intros H w. rewrite bind_run. exact (H w). Qed.

Lemma readMark_marksSet (allowed : string) (marks : gmap string (Value * Value)) :
  In allowed letters -> marksSet rpc marks ->
  ensures (readMark rpc allowed marks) (marksSet rpc).
Proof.
  intros Hin Hmarks. unfold readMark.
  eapply ensures_bind_from; [apply ensures_request |].
  intros pos Hpos. pose proof Hpos as [st Hst].
  destruct (positions allowed st pos Hin Hst) as [ns ->].
  cbn [JsValue.index]. rewrite !list_lookup_fmap.
  apply ensures_lift_bind.
  destruct (ns !! 1%nat) as [l |] eqn:Hl; cbn [fmap option_fmap option_map];
    [| apply ensures_ret; exact Hmarks].
  cbn [JsValue.gtZero JsValue.toNumber].
  destruct (0 <? l) eqn:Hline; [| apply ensures_ret; exact Hmarks].
  apply ensures_lift_bind.
  destruct (ns !! 2%nat) as [c |] eqn:Hc; cbn [fmap option_fmap option_map];
    [| apply ensures_ret; exact Hmarks].
  cbn [JsValue.gtZero JsValue.toNumber].
  destruct (0 <? c) eqn:Hcol; apply ensures_ret; [| exact Hmarks].
  intros mark line col Hlookup.
  destruct (decide (mark = allowed)) as [-> | Hne].
  - rewrite lookup_insert_eq in Hlookup. injection Hlookup as <- <-.
    split; [exact Hin |]. exists ns, l, c.
    apply Z.ltb_lt in Hline, Hcol. repeat split; assumption.
  - rewrite lookup_insert_ne in Hlookup by congruence. exact (Hmarks _ _ _ Hlookup).
Qed.

Lemma readMarks_marksSet (names : list string) :
  (forall n, In n names -> In n letters) ->
  forall marks, marksSet rpc marks -> ensures (readMarks rpc names marks) (marksSet rpc).
Proof.
  induction names as [| mark rest IH]; intros Hnames marks Hmarks; cbn [readMarks].
  - apply ensures_ret. exact Hmarks.
  - eapply ensures_bind_from.
    + apply ensures_tryCatch.
      * apply readMark_marksSet; [apply Hnames; left; reflexivity | exact Hmarks].
      * intros e. apply ensures_ret. exact Hmarks.
    + intros marks' Hmarks'. apply IH; [| exact Hmarks'].
      intros n Hn. apply Hnames. right. exact Hn.
Qed.

Lemma readRegister_registersFilled (allowed : string) (registers : gmap string string) :
  In allowed registerNames -> registersFilled rpc registers ->
  ensures (readRegister rpc allowed registers) (registersFilled rpc).
Proof.
  intros Hin Hregisters. unfold readRegister.
  eapply ensures_bind_from; [apply ensures_request |].
  intros value Hvalue. pose proof Hvalue as [st Hst].
  destruct (contents allowed st value Hin Hst) as [text ->].
  cbn [JsValue.toString].
  destruct (Js.nonEmpty text && (0 <? String.length (Js.trim text))%nat) eqn:Hfilled;
    apply ensures_ret; [| exact Hregisters].
  intros register content Hlookup.
  destruct (decide (register = allowed)) as [-> | Hne].
  - rewrite lookup_insert_eq in Hlookup. injection Hlookup as <-.
    split; [exact Hin | split; [exact Hvalue |]].
    apply andb_true_iff in Hfilled. destruct Hfilled as [Hnon Hlen].
    unfold Js.isBlank. rewrite Hnon. simpl.
    apply Nat.ltb_lt in Hlen. apply Nat.eqb_neq. lia.
  - rewrite lookup_insert_ne in Hlookup by congruence. exact (Hregisters _ _ Hlookup).
Qed.

Lemma readRegisters_registersFilled (names : list string) :
  (forall n, In n names -> In n registerNames) ->
  forall registers,
    registersFilled rpc registers ->
    ensures (readRegisters rpc names registers) (registersFilled rpc).
Proof.
  induction names as [| reg rest IH]; intros Hnames registers Hregisters;
    cbn [readRegisters].
  - apply ensures_ret. exact Hregisters.
  - eapply ensures_bind_from.
    + apply ensures_tryCatch.
      * apply readRegister_registersFilled;
          [apply Hnames; left; reflexivity | exact Hregisters].
      * intros e. apply ensures_ret. exact Hregisters.
    + intros registers' Hregisters'. apply IH; [| exact Hregisters'].
      intros n Hn. apply Hnames. right. exact Hn.
Qed.

Lemma readVisualSelection_keeps (s : NeovimStatus) (Q : NeovimStatus -> Prop) :
  (forall text, Q (withVisualSelection s text)) -> Q s ->
  ensures (readVisualSelection rpc s) Q.
Proof.
  intros Hwith Hs. unfold readVisualSelection.
  apply ensures_tryCatch.
  - apply ensures_bind; intros visualText. apply ensures_ret. apply Hwith.
  - intros e. apply ensures_tryCatch.
    + apply ensures_bind; intros selection. apply ensures_ret.
      destruct selection; [apply Hwith | exact Hs].
    + intros e'. apply ensures_ret. apply Hwith.
Qed.

Lemma getNeovimStatus_try_maps :
  ensures (getNeovimStatus_try rpc attach)
    (fun status => marksSet rpc (marks status) /\ registersFilled rpc (registers status)).
Proof.
  unfold getNeovimStatus_try.
  do 8 (apply ensures_bind; intros).
  eapply ensures_bind_from.
  { apply readMarks_marksSet; [auto |]. intros mark line col H.
    rewrite lookup_empty in H. discriminate H. }
  intros marks Hmarks.
  eapply ensures_bind_from.
  { apply readRegisters_registersFilled; [auto |]. intros register content H.
    rewrite lookup_empty in H. discriminate H. }
  intros registers Hregisters.
  do 4 (apply ensures_bind; intros).
  match goal with |- ensures (if ?c then _ else _) _ => destruct c end.
  - apply readVisualSelection_keeps; [intros text |]; split; assumption.
  - apply ensures_ret. split; assumption.
Qed.

Lemma getNeovimStatus_maps (w : World St) :
  match fst (getNeovimStatus rpc attach w) with
  | Normal (StatusObject status) =>
      marksSet rpc (marks status) /\ registersFilled rpc (registers status)
  | _ => True
  end.
Proof.
  assert (H : ensures (getNeovimStatus rpc attach)
                (fun r => match r with
                          | StatusObject status =>
                              marksSet rpc (marks status)
                              /\ registersFilled rpc (registers status)
                          | StatusText _ => True
                          end)).
  { unfold getNeovimStatus. apply ensures_tryCatch.
    - eapply ensures_bind_from; [apply getNeovimStatus_try_maps |].
      intros status Hstatus. apply ensures_ret. exact Hstatus.
    - intros e. apply ensures_bind; intros. apply ensures_ret. exact I. }
  specialize (H w).
  destruct (fst (getNeovimStatus rpc attach w)) as [[status | text] | e]; auto.
Qed.

End StatusMaps.

(** X20: for an editor that answers the position of a mark with an array
    of numbers and the content of a register with a string, a status that
    [getNeovimStatus] returns lists a mark only under a lower-case letter
    and with the line and the column the editor answered for it, both
    greater than zero; it lists a register only under one of the names it
    reads (the letters, the double quote, the digits) and with the content
    the editor answered for it, which is not blank. *)
Theorem getNeovimStatus_marks_and_registers {St : Type}
    (rpc : forall A : Type, Request A -> St -> Reply A * St)
    (attach : string -> option Exn) (w : World St) :
  numericPositions rpc -> textRegisters rpc ->
  (forall mark line col,
     reportedMark (fst (getNeovimStatus rpc attach w)) mark = Some (line, col) ->
     In mark letters
     /\ exists ns l c,
          issued rpc (Eval (getposExpr mark)) (VArr (VNum <$> ns))
          /\ ns !! 1%nat = Some l /\ ns !! 2%nat = Some c
          /\ line = VNum l /\ col = VNum c /\ 0 < l /\ 0 < c)
  /\ (forall register content,
        reportedRegister (fst (getNeovimStatus rpc attach w)) register = Some content ->
        In register registerNames
        /\ issued rpc (Eval (getregExpr register)) (VStr content)
        /\ Js.isBlank content = false).
Proof.
  intros Hpositions Hcontents.
  pose proof (getNeovimStatus_maps rpc attach Hpositions Hcontents w) as H.
  destruct (fst (getNeovimStatus rpc attach w)) as [[status | text] | e];
    simpl; split; intros; try discriminate.
  - destruct H as [Hmarks _]. exact (Hmarks _ _ _ H0).
  - destruct H as [_ Hregisters]. exact (Hregisters _ _ H0).
Qed.

Lemma getpos_numbers (mark : string) (st : Nvim.State) (pos : Value) :
  List.find (fun m => String.eqb (getposExpr mark) (getposExpr m)) letters = Some mark ->
  fst (Nvim.rpc Value (Eval (getposExpr mark)) st) = Resolved pos ->
  exists ns, pos = VArr (VNum <$> ns).
Proof.
  intros Hfind. cbn [Nvim.rpc Nvim.rpcWith fst]. unfold Nvim.eval. rewrite Hfind.
  unfold Nvim.getpos. destruct (Nvim.lowerMarks st !! mark) as [[line col] |];
    intros H; injection H as <-;
    [exists [0; line; col + 1; 0] | exists [0; 0; 0; 0]]; reflexivity.
Defined.

Lemma model_numericPositions : numericPositions Nvim.rpc.
Proof.
  intros mark st pos Hin.
  unfold letters in Hin. cbn [list_ascii_of_string List.map] in Hin.
  repeat (destruct Hin as [<- | Hin]; [apply getpos_numbers; vm_compute; reflexivity |]).
  destruct Hin.
Defined.

Lemma getreg_text (register : string) (st : Nvim.State) (value : Value) :
  (forall st', Nvim.eval true (getregExpr register) st' = Resolved (VStr EmptyString)) ->
  fst (Nvim.rpc Value (Eval (getregExpr register)) st) = Resolved value ->
  exists text, value = VStr text.
Proof.
  intros Heval. cbn [Nvim.rpc Nvim.rpcWith fst]. rewrite Heval.
  intros H. injection H as <-. exists EmptyString. reflexivity.
Defined.

Lemma model_textRegisters : textRegisters Nvim.rpc.
Proof.
  intros register st value Hin.
  unfold registerNames, letters in Hin.
  cbn [list_ascii_of_string List.map app seq] in Hin.
  repeat (destruct Hin as [<- | Hin];
          [apply getreg_text; intros st'; vm_compute; reflexivity |]).
  destruct Hin.
Defined.

Lemma getNeovimStatus_marks_and_registers_witness :
  reportedMark
    (fst (getNeovimStatus Nvim.rpc Nvim.attach
            (snd (setMark Nvim.rpc Nvim.attach "a" 3 2 plainWorld)))) "a" =
  Some (VNum 1, VNum 1)
  /\ In "a" letters
  /\ exists ns l c,
       issued Nvim.rpc (Eval (getposExpr "a")) (VArr (VNum <$> ns))
       /\ ns !! 1%nat = Some l /\ ns !! 2%nat = Some c
       /\ VNum 1 = VNum l /\ VNum 1 = VNum c /\ 0 < l /\ 0 < c.
Proof.
  assert (H : reportedMark
                (fst (getNeovimStatus Nvim.rpc Nvim.attach
                        (snd (setMark Nvim.rpc Nvim.attach "a" 3 2 plainWorld)))) "a" =
              Some (VNum 1, VNum 1)) by (vm_compute; reflexivity).
  split; [exact H |].
  exact (proj1 (getNeovimStatus_marks_and_registers Nvim.rpc Nvim.attach
                  (snd (setMark Nvim.rpc Nvim.attach "a" 3 2 plainWorld))
                  model_numericPositions model_textRegisters)
           "a" (VNum 1) (VNum 1) H).
Defined.

(** ** Inserting and replacing lines, on the model of the editor *)

Lemma split_not_nil (sep : ascii) (s : string) : Js.split sep s <> [].
Proof.
  destruct s as [| c s]; cbn [Js.split]; [discriminate |].
  destruct (Ascii.eqb c sep); [discriminate |].
  destruct (Js.split sep s); discriminate.
Qed.

Lemma atLeastOneLine_middle (before ls after : list string) :
  ls <> [] -> Nvim.atLeastOneLine (before ++ ls ++ after) = before ++ ls ++ after.
Proof.
  intros Hls. destruct ls as [| l ls]; [contradiction |].
  destruct before; reflexivity.
Qed.

Lemma setLines_insert_at (s : Nvim.State) (ls : list string) (i : Z) :
  0 <= i <= Nvim.lineCount s ->
  existsb Nvim.hasNewline ls = false ->
  ls <> [] ->
  Nvim.setLines i i true ls s =
  (Resolved (),
   Nvim.withLines s
     (take (Z.to_nat i) (Nvim.lines s) ++ ls ++ drop (Z.to_nat i) (Nvim.lines s))).
Proof.
  intros Hi Hclean Hls.
  assert (Hneg : (i <? 0) = false) by (apply Z.ltb_ge; lia).
  assert (Hover : (Nvim.lineCount s <? i) = false) by (apply Z.ltb_ge; lia).
  unfold Nvim.setLines, Nvim.normalizeIndex, Nvim.outOfBounds, Nvim.clamp. cbv zeta.
  repeat (rewrite ?Hneg, ?Hover; cbn [orb andb]).
  replace (Z.max 0 (Z.min (Nvim.lineCount s) i)) with i by lia.
  rewrite Z.ltb_irrefl, Hclean, atLeastOneLine_middle by exact Hls.
  reflexivity.
Qed.

Lemma setLines_insert_beyond (s : Nvim.State) (ls : list string) (i : Z) :
  Nvim.lineCount s < i ->
  Nvim.setLines i i true ls s = (Rejected "Index out of bounds", s).
Proof.
  intros Hi.
  assert (H0 : 0 <= Nvim.lineCount s) by (unfold Nvim.lineCount; lia).
  assert (Hneg : (i <? 0) = false) by (apply Z.ltb_ge; lia).
  assert (Hover : (Nvim.lineCount s <? i) = true) by (apply Z.ltb_lt; lia).
  unfold Nvim.setLines, Nvim.normalizeIndex, Nvim.outOfBounds. cbv zeta.
  repeat (rewrite ?Hneg, ?Hover; cbn [orb andb]).
  reflexivity.
Qed.

Lemma setLines_replace_at (s : Nvim.State) (ls : list string) (i : Z) :
  0 <= i <= Nvim.lineCount s ->
  existsb Nvim.hasNewline ls = false ->
  ls <> [] ->
  Nvim.setLines i (i + Z.of_nat (length ls)) false ls s =
  (Resolved (),
   Nvim.withLines s
     (take (Z.to_nat i) (Nvim.lines s) ++ ls
        ++ drop (Z.to_nat i + length ls) (Nvim.lines s))).
Proof.
  intros Hi Hclean Hls.
  assert (Hneg : (i <? 0) = false) by (apply Z.ltb_ge; lia).
  assert (Hend : (i + Z.of_nat (length ls) <? 0) = false) by (apply Z.ltb_ge; lia).
  assert (Horder : (Z.max 0 (Z.min (Nvim.lineCount s) (i + Z.of_nat (length ls))) <? i)
                   = false) by (apply Z.ltb_ge; lia).
  unfold Nvim.setLines, Nvim.normalizeIndex, Nvim.clamp. cbv zeta.
  repeat (rewrite ?Hneg, ?Hend; cbn [orb andb]).
  replace (Z.max 0 (Z.min (Nvim.lineCount s) i)) with i by lia.
  rewrite Horder, Hclean.
  assert (Hdrop : drop (Z.to_nat (Z.max 0 (Z.min (Nvim.lineCount s)
                                             (i + Z.of_nat (length ls)))))
                    (Nvim.lines s) =
                  drop (Z.to_nat i + length ls) (Nvim.lines s)).
  { unfold Nvim.lineCount in *.
    destruct (Z.le_gt_cases (i + Z.of_nat (length ls)) (Z.of_nat (length (Nvim.lines s))))
      as [Hle | Hgt].
    - f_equal. lia.
    - rewrite !drop_ge by lia. reflexivity. }
  rewrite Hdrop, atLeastOneLine_middle by exact Hls.
  reflexivity.
Qed.

(** X21: on the model of the editor, inserting a text at line n, for n from
    1 to one past the last line, answers "Lines inserted successfully", and
    the buffer read back holds the lines before line n, then the lines of
    the text, then the former lines from n on, numbered from 1.  Past that
    range the answer is "Error editing lines" and the buffer is as it was. *)
Theorem insert_then_contents (s : Nvim.State) (startLine : Z) (text : string) :
  (1 <= startLine <= Nvim.lineCount s + 1 ->
   fst (editLines Nvim.rpc Nvim.attach startLine insert text (Nvim.world Nvim.defaultEnv s))
   = Normal "Lines inserted successfully"
   /\ fst (getBufferContents Nvim.rpc Nvim.attach None
             (snd (editLines Nvim.rpc Nvim.attach startLine insert text
                     (Nvim.world Nvim.defaultEnv s)))) =
      Normal (lineMap (take (Z.to_nat (startLine - 1)) (Nvim.lines s)
                         ++ Js.split Js.newline text
                         ++ drop (Z.to_nat (startLine - 1)) (Nvim.lines s))))
  /\ (Nvim.lineCount s + 1 < startLine ->
      fst (editLines Nvim.rpc Nvim.attach startLine insert text
             (Nvim.world Nvim.defaultEnv s)) = Normal "Error editing lines"
      /\ remote (snd (editLines Nvim.rpc Nvim.attach startLine insert text
                        (Nvim.world Nvim.defaultEnv s))) = s).
Proof.
  split; intros Hrange.
  - assert (Hrun : exists w1,
               editLines Nvim.rpc Nvim.attach startLine insert text
                 (Nvim.world Nvim.defaultEnv s) =
               (Normal "Lines inserted successfully", w1)
               /\ env w1 = Nvim.defaultEnv
               /\ Nvim.lines (remote w1) =
                  take (Z.to_nat (startLine - 1)) (Nvim.lines s)
                    ++ Js.split Js.newline text
                    ++ drop (Z.to_nat (startLine - 1)) (Nvim.lines s)).
    { unfold editLines, tryCatch, editLines_try, Nvim.world.
      rewrite bind_run, connect_on_model by reflexivity.
      rewrite bind_run, (request_resolved Nvim.rpc CurrentBuffer _ Nvim.theBuffer s)
        by reflexivity.
      cbn [env remote sockets calls console].
      rewrite bind_run,
        (request_resolved Nvim.rpc (BufferInsert _ _ _) _ ()
           (Nvim.withLines s
              (take (Z.to_nat (startLine - 1)) (Nvim.lines s)
                 ++ Js.split Js.newline text
                 ++ drop (Z.to_nat (startLine - 1)) (Nvim.lines s))))
        by (apply setLines_insert_at;
            [lia | apply split_lines_clean | apply split_not_nil]).
      eexists. split; [reflexivity | split; reflexivity]. }
    destruct Hrun as [w1 [Hrun [Henv Hlines]]].
    rewrite Hrun. cbn [fst snd].
    rewrite (getBufferContents_on_model w1 Henv), Hlines. split; reflexivity.
  - unfold editLines, tryCatch, editLines_try, Nvim.world.
    rewrite bind_run, connect_on_model by reflexivity.
    rewrite bind_run, (request_resolved Nvim.rpc CurrentBuffer _ Nvim.theBuffer s)
      by reflexivity.
    cbn [env remote sockets calls console].
    rewrite bind_run,
      (request_rejected Nvim.rpc (BufferInsert _ _ _) _ "Index out of bounds" s)
      by (apply setLines_insert_beyond; lia).
    split; reflexivity.
Qed.

(** X22: on the model of the editor, replacing at line n, for n from 1 to
    one past the last line, answers "Lines replaced successfully" and
    overwrites as many lines as the text has, from line n on: the buffer
    read back holds the lines before n, the lines of the text, and the
    former lines that come after the overwritten ones; lines of the text
    that run past the end of the buffer are appended. *)
Theorem replace_then_contents (s : Nvim.State) (startLine : Z) (text : string) :
  1 <= startLine <= Nvim.lineCount s + 1 ->
  fst (editLines Nvim.rpc Nvim.attach startLine replace text (Nvim.world Nvim.defaultEnv s))
  = Normal "Lines replaced successfully"
  /\ fst (getBufferContents Nvim.rpc Nvim.attach None
            (snd (editLines Nvim.rpc Nvim.attach startLine replace text
                    (Nvim.world Nvim.defaultEnv s)))) =
     Normal (lineMap (take (Z.to_nat (startLine - 1)) (Nvim.lines s)
                        ++ Js.split Js.newline text
                        ++ drop (Z.to_nat (startLine - 1)
                                   + length (Js.split Js.newline text))
                             (Nvim.lines s))).
Proof.
  intros Hrange.
  assert (Hrun : exists w1,
             editLines Nvim.rpc Nvim.attach startLine replace text
               (Nvim.world Nvim.defaultEnv s) =
             (Normal "Lines replaced successfully", w1)
             /\ env w1 = Nvim.defaultEnv
             /\ Nvim.lines (remote w1) =
                take (Z.to_nat (startLine - 1)) (Nvim.lines s)
                  ++ Js.split Js.newline text
                  ++ drop (Z.to_nat (startLine - 1) + length (Js.split Js.newline text))
                       (Nvim.lines s)).
  { unfold editLines, tryCatch, editLines_try, Nvim.world.
    rewrite bind_run, connect_on_model by reflexivity.
    rewrite bind_run, (request_resolved Nvim.rpc CurrentBuffer _ Nvim.theBuffer s)
      by reflexivity.
    cbn [env remote sockets calls console].
    rewrite bind_run,
      (request_resolved Nvim.rpc (BufferReplace _ _ _) _ ()
         (Nvim.withLines s
            (take (Z.to_nat (startLine - 1)) (Nvim.lines s)
               ++ Js.split Js.newline text
               ++ drop (Z.to_nat (startLine - 1) + length (Js.split Js.newline text))
                    (Nvim.lines s))))
      by (apply setLines_replace_at;
          [lia | apply split_lines_clean | apply split_not_nil]).
    eexists. split; [reflexivity | split; reflexivity]. }
  destruct Hrun as [w1 [Hrun [Henv Hlines]]].
  rewrite Hrun. cbn [fst snd].
  rewrite (getBufferContents_on_model w1 Henv), Hlines. split; reflexivity.
Qed.

Lemma insert_then_contents_witness :
  fst (getBufferContents Nvim.rpc Nvim.attach None
         (snd (editLines Nvim.rpc Nvim.attach 2 insert ("a" +:+ String Js.newline "b")
                 plainWorld))) =
  Normal [(1, "one"); (2, "a"); (3, "b"); (4, "two"); (5, "three"); (6, "four")]
  /\ fst (editLines Nvim.rpc Nvim.attach 6 insert "a" plainWorld) =
     Normal "Error editing lines".
Proof.
  split.
  - exact (proj2 (proj1 (insert_then_contents Nvim.sample 2 ("a" +:+ String Js.newline "b"))
                    ltac:(vm_compute; split; discriminate))).
  - exact (proj1 (proj2 (insert_then_contents Nvim.sample 6 "a") eq_refl)).
Defined.

Lemma replace_then_contents_witness :
  fst (getBufferContents Nvim.rpc Nvim.attach None
         (snd (editLines Nvim.rpc Nvim.attach 4 replace ("a" +:+ String Js.newline "b")
                 plainWorld))) =
  Normal [(1, "one"); (2, "two"); (3, "three"); (4, "a"); (5, "b")].
Proof.
  exact (proj2 (replace_then_contents Nvim.sample 4 ("a" +:+ String Js.newline "b")
                  ltac:(vm_compute; split; discriminate))).
Defined.

(** ** A search that finds matches *)

Section SearchFound.

Context {St : Type}.
Variable rpc : forall A : Type, Request A -> St -> Reply A * St.
Variable attach : string -> option Exn.

(** X23: for a pattern that is not blank, once connected, [searchInBuffer]
    first sets the editor's ignorecase option as the call asks, which stays
    set after the call, then asks for the count of the pattern.  When the
    total counted is not the number zero it sends the search itself and
    answers "Found <total> matches for: <pattern>", followed by
    " (showing first 100)" when the count is reported incomplete; a rejected
    search is raised as a command error about "search for <pattern>". *)
Theorem searchInBuffer_found (pattern : string) (options : SearchOptions) (w : World St)
    (st1 st2 st3 : St) (matchInfo : Value) (total incomplete : option Value)
    (reply : Reply unit) :
  hasInk pattern = true ->
  fst (connect attach w) = Normal () ->
  rpc unit (Command (if ignoreCase options then "set ignorecase" else "set noignorecase"))
    (remote w) = (Resolved (), st1) ->
  rpc Value (Eval (searchcountExpr (searchPatternOf pattern options))) st1 =
    (Resolved matchInfo, st2) ->
  JsValue.get matchInfo "total" = Normal total ->
  JsValue.get matchInfo "incomplete" = Normal incomplete ->
  JsValue.strictEq total (Some (VNum 0)) = false ->
  rpc unit (Command ("/" +:+ searchPatternOf pattern options)) st2 = (reply, st3) ->
  fst (searchInBuffer rpc attach pattern options w) =
  match reply with
  | Resolved _ =>
      Normal ("Found " +:+ interpolate total +:+ " matches for: " +:+ pattern
                +:+ (if from_option JsValue.truthy false incomplete
                     then " (showing first 100)" else EmptyString))
  | Rejected message => Throw (NeovimCommandError ("search for " +:+ pattern) message)
  end
  /\ calls (snd (searchInBuffer rpc attach pattern options w)) =
     calls w ++ [Sent (Command (if ignoreCase options then "set ignorecase"
                                else "set noignorecase"));
                 Sent (Eval (searchcountExpr (searchPatternOf pattern options)));
                 Sent (Command ("/" +:+ searchPatternOf pattern options))].
Proof.
  intros Hink Hconnect Hset Hcount Htotal Hincomplete Hsome Hsearch.
  assert (Hblank : Js.isBlank pattern = false)
    by (rewrite isBlank_inkless, Hink; reflexivity).
  unfold searchInBuffer. rewrite Hblank. unfold tryCatch, searchInBuffer_try.
  rewrite bind_run, (connect_normal attach w Hconnect). cbv zeta.
  rewrite bind_run.
  assert (Hfirst : forall w1 : World St,
             (if ignoreCase options then request rpc (Command "set ignorecase")
              else request rpc (Command "set noignorecase")) w1 =
             request rpc (Command (if ignoreCase options then "set ignorecase"
                                   else "set noignorecase")) w1)
    by (intros w1; destruct (ignoreCase options); reflexivity).
  rewrite Hfirst. erewrite request_run by (cbn [remote]; exact Hset).
  cbn [env remote sockets calls console].
  step Hcount. rewrite bind_run. unfold lift. rewrite Htotal, Hsome.
  step Hsearch.
  destruct reply as [[] | message].
  - rewrite bind_run. unfold lift. rewrite Hincomplete.
    cbn [fst snd calls mret M_ret]. split; [reflexivity |].
    rewrite <- !app_assoc. reflexivity.
  - cbn [fst snd calls]. split; [reflexivity |].
    rewrite <- !app_assoc. reflexivity.
Qed.

End SearchFound.

Lemma searchInBuffer_found_witness :
  fst (searchInBuffer (Canned.rpc Canned.threeMatches) Nvim.attach "foo"
         {| ignoreCase := true; wholeWord := true; global := false; confirm := false |}
         (Canned.world Nvim.defaultEnv)) = Normal "Found 3 matches for: foo"
  /\ calls (snd (searchInBuffer (Canned.rpc Canned.threeMatches) Nvim.attach "foo"
                   {| ignoreCase := true; wholeWord := true; global := false;
                      confirm := false |}
                   (Canned.world Nvim.defaultEnv))) =
     [Sent (Command "set ignorecase");
      Sent (Eval (searchcountExpr (Js.backslash +:+ "<foo" +:+ Js.backslash +:+ ">")));
      Sent (Command ("/" +:+ Js.backslash +:+ "<foo" +:+ Js.backslash +:+ ">"))].
Proof.
  exact (searchInBuffer_found (Canned.rpc Canned.threeMatches) Nvim.attach "foo"
           {| ignoreCase := true; wholeWord := true; global := false; confirm := false |}
           (Canned.world Nvim.defaultEnv) () () ()
           (VObj [("total", VNum 3); ("incomplete", VNum 0)])
           (Some (VNum 3)) (Some (VNum 0)) (Resolved ())
           eq_refl eq_refl eq_refl eq_refl eq_refl eq_refl eq_refl eq_refl).
Defined.

(** ** The first listing of the class: lookup by name and git status *)

Section FirstListing.

Context {St : Type}.
Variable rpc : forall A : Type, Request A -> St -> Reply A * St.
Variable attach : string -> option Exn.

Lemma firstWithSuffix_run (filename : string) (nameOf : Buffer -> string)
    (buffers : list Buffer) :
  namesBuffers rpc nameOf buffers ->
  forall w,
    fst (firstWithSuffix rpc filename buffers w) =
    match firstMatch nameOf filename buffers with
    | Some b => Normal b
    | None => Throw (NeovimValidationError ("Buffer not found: " +:+ filename))
    end.
Proof.
  induction buffers as [| b rest IH]; intros Hnames w; [reflexivity |].
  cbn [firstWithSuffix]. rewrite bind_run.
  rewrite (request_run rpc _ w (Resolved (nameOf b)) (remote w))
    by (apply Hnames; left; reflexivity).
  unfold firstMatch. cbn [List.find].
  destruct (Js.endsWith (nameOf b) filename); [reflexivity |].
  apply IH. intros b' st Hin. apply Hnames. right. exact Hin.
Qed.

(** X24: the two lookups of a buffer by name agree.  Given the list of
    buffers, [findBufferByName] of the first listing and the lookup that
    [getBufferContents] and [switchBuffer] make in the second both stop at
    the first buffer whose name ends with the file name; the first raises
    "Buffer not found" where the second finds nothing. *)
Theorem lookups_agree (filename : string) (nameOf : Buffer -> string)
    (buffers : list Buffer) (w : World St) (st1 : St) :
  rpc (list Buffer) Buffers (remote w) = (Resolved buffers, st1) ->
  namesBuffers rpc nameOf buffers ->
  fst (findBufferByName rpc filename w) =
  match firstMatch nameOf filename buffers with
  | Some b => Normal b
  | None => Throw (NeovimValidationError ("Buffer not found: " +:+ filename))
  end
  /\ forall w', fst (findBuffer rpc filename buffers w') =
                Normal (firstMatch nameOf filename buffers).
Proof.
  intros Hbuffers Hnames. split.
  - unfold findBufferByName. step Hbuffers.
    apply firstWithSuffix_run. exact Hnames.
  - intros w'. rewrite (findBuffer_run rpc filename nameOf buffers Hnames). reflexivity.
Qed.

End FirstListing.

Lemma lookups_agree_witness :
  fst (findBufferByName (Canned.rpc Canned.threeBuffers) "index.ts"
         (Canned.world Nvim.defaultEnv)) = Normal {| bufferId := 2 |}
  /\ fst (findBuffer (Canned.rpc Canned.threeBuffers) "index.ts"
            [{| bufferId := 1 |}; {| bufferId := 2 |}; {| bufferId := 3 |}]
            (Canned.world Nvim.defaultEnv)) = Normal (Some {| bufferId := 2 |}).
Proof.
  destruct (lookups_agree (Canned.rpc Canned.threeBuffers) "index.ts" Canned.nameOf
              [{| bufferId := 1 |}; {| bufferId := 2 |}; {| bufferId := 3 |}]
              (Canned.world Nvim.defaultEnv) () eq_refl threeBuffers_named)
    as [Hfirst Hsecond].
  split; [exact Hfirst | exact (Hsecond (Canned.world Nvim.defaultEnv))].
Defined.

(** *** The report of git status *)

Lemma split_line (line rest : string) :
  Nvim.hasNewline line = false ->
  Js.split Js.newline (line +:+ String Js.newline rest) = line :: Js.split Js.newline rest.
Proof.
  induction line as [| c line IH]; intros Hclean.
  - reflexivity.
  - rewrite hasNewline_cons in Hclean. apply orb_false_iff in Hclean.
    destruct Hclean as [Hc Hline].
    rewrite append_cons. cbn [Js.split]. rewrite Ascii.eqb_sym, Hc, (IH Hline). reflexivity.
Qed.

Lemma porcelainLine_clean (entry : ascii * ascii * string) :
  oneLine entry = true -> Nvim.hasNewline (porcelainLine entry) = false.
Proof.
  destruct entry as [[x y] path]. unfold oneLine, porcelainLine.
  intros H. apply andb_true_iff in H. destruct H as [H Hpath].
  apply andb_true_iff in H. destruct H as [Hx Hy].
  apply negb_true_iff in Hx, Hy, Hpath.
  rewrite !hasNewline_cons, Ascii.eqb_sym, Hx, (Ascii.eqb_sym Js.newline y), Hy.
  exact Hpath.
Qed.

Lemma code_of_line (x y : ascii) (path : string) :
  Js.substring (String x (String y (String " " path))) (Some 0) (Some (Some 2)) =
  String x (String y EmptyString).
Proof.
  unfold Js.substring, Js.clampIndex.
  change (Z.to_nat 0) with 0%nat. change (Z.to_nat 2) with 2%nat.
  cbn [String.length Nat.min Nat.max Nat.sub String.substring]. reflexivity.
Qed.

Lemma path_of_line (x y : ascii) (path : string) :
  Js.substring (String x (String y (String " " path))) (Some 3) None = path.
Proof.
  unfold Js.substring, Js.clampIndex. change (Z.to_nat 3) with 3%nat.
  cbn [String.length Nat.min Nat.max].
  replace (S (S (S (String.length path))) - 3)%nat with (String.length path) by lia.
  cbn [String.substring]. apply substring_all.
Qed.

Lemma gitStatusEntry_line (entry : ascii * ascii * string) :
  gitStatusEntry (porcelainLine entry) = reportLine entry.
Proof.
  destruct entry as [[x y] path]. unfold gitStatusEntry, porcelainLine, reportLine.
  rewrite code_of_line, path_of_line. reflexivity.
Qed.

Lemma concat_cons (x : string) (xs : list string) :
  String.concat EmptyString (x :: xs) = x +:+ String.concat EmptyString xs.
Proof.
  destruct xs as [| y ys]; cbn [String.concat].
  - rewrite append_empty. reflexivity.
  - rewrite append_nil. reflexivity.
Qed.

Lemma porcelain_lines (entries : list (ascii * ascii * string)) :
  forallb oneLine entries = true ->
  List.filter Js.nonEmpty (Js.split Js.newline (porcelain entries)) =
  List.map porcelainLine entries.
Proof.
  unfold porcelain. induction entries as [| entry rest IH]; intros Hclean; [reflexivity |].
  cbn [forallb] in Hclean. apply andb_true_iff in Hclean. destruct Hclean as [Hentry Hrest].
  cbn [List.map]. rewrite concat_cons, append_assoc, append_cons, append_nil.
  rewrite (split_line _ _ (porcelainLine_clean entry Hentry)).
  cbn [List.filter].
  replace (Js.nonEmpty (porcelainLine entry)) with true
    by (destruct entry as [[x y] path]; reflexivity).
  rewrite (IH Hrest). reflexivity.
Qed.

Lemma gitStatusReport_by_line (entries : list (ascii * ascii * string)) :
  forallb oneLine entries = true ->
  gitStatusReport (porcelain entries) =
  "Git Status:" +:+ String Js.newline (String Js.newline EmptyString)
    +:+ String.concat EmptyString (List.map reportLine entries).
Proof.
  intros Hclean. unfold gitStatusReport.
  rewrite (porcelain_lines entries Hclean), List.map_map.
  f_equal. f_equal. f_equal. apply List.map_ext. intros entry. apply gitStatusEntry_line.
Qed.

Lemma gitStatusText_string (text : string) :
  gitStatusText (VStr text) =
  Normal (if Js.isBlank text then "Working tree clean" else gitStatusReport text).
Proof.
  unfold gitStatusText, Js.isBlank. cbn [JsValue.truthy].
  destruct (Js.nonEmpty text); cbn [negb orb]; [| reflexivity].
  destruct (Js.trim text); reflexivity.
Qed.

Section GitStatus.

Context {St : Type}.
Variable rpc : forall A : Type, Request A -> St -> Reply A * St.
Variable attach : string -> option Exn.

(** X25: once connected, when the editor finds git, answers the porcelain
    output as a string and reports no shell error, [getGitStatus] follows
    that output line by line: for an output made of lines "XY path", none
    of them holding a newline, it answers "Working tree clean" when the
    output is blank, and otherwise the heading followed, for each line and
    in the same order, by the description of the two status characters, a
    colon and the path. *)
Theorem getGitStatus_by_line (entries : list (ascii * ascii * string)) (w : World St)
    (hasGit : Value) (st1 st2 st3 : St) :
  fst (connect attach w) = Normal () ->
  rpc Value (Eval gitExecutableExpr) (remote w) = (Resolved hasGit, st1) ->
  JsValue.truthy hasGit = true ->
  rpc Value (Eval gitStatusExpr) st1 = (Resolved (VStr (porcelain entries)), st2) ->
  rpc Value (Eval "v:shell_error") st2 = (Resolved (VNum 0), st3) ->
  forallb oneLine entries = true ->
  fst (getGitStatus rpc attach w) =
  Normal (if Js.isBlank (porcelain entries) then "Working tree clean"
          else "Git Status:" +:+ String Js.newline (String Js.newline EmptyString)
                 +:+ String.concat EmptyString (List.map reportLine entries)).
Proof.
  intros Hconnect Hgit Htruthy Hstatus Herror Hclean.
  unfold getGitStatus, tryCatch.
  rewrite bind_run, (connect_normal attach w Hconnect).
  step Hgit. rewrite Htruthy. cbn [negb].
  step Hstatus. step Herror.
  cbn [JsValue.strictEq Z.eqb negb]. unfold lift.
  rewrite gitStatusText_string, (gitStatusReport_by_line entries Hclean).
  reflexivity.
Qed.

End GitStatus.

Lemma getGitStatus_by_line_witness :
  fst (getGitStatus (Canned.rpc Canned.repository) Nvim.attach
         (Canned.world Nvim.defaultEnv)) =
  Normal ("Git Status:" +:+ String Js.newline (String Js.newline EmptyString)
            +:+ "Modified: src/index.ts" +:+ String Js.newline EmptyString
            +:+ "Untracked: notes.md" +:+ String Js.newline EmptyString).
Proof.
  exact (getGitStatus_by_line (Canned.rpc Canned.repository) Nvim.attach
           [(" "%char, "M"%char, "src/index.ts"); ("?"%char, "?"%char, "notes.md")]
           (Canned.world Nvim.defaultEnv) (VNum 1) () () ()
           eq_refl eq_refl eq_refl eq_refl eq_refl eq_refl).
Defined.
